(** * doc-helper: rule engine, structure checker and revision driver

    A shallow embedding of the document-checking core of the backend
    ([app/services/rule_engine.py], [app/services/structure_checker.py],
    [app/services/revision_engine.py]) and the properties stated about it.

    Conventions of the embedding.
    - A Python [str] is a list of Unicode code points ([PyStr.str]);
      literals are written as UTF-8 text and decoded by [PyStr.lit].
    - A Python [dict] whose keys are known is a record of [option] fields
      ([None] = key absent, which is what [d.get(k)] returns); a [dict]
      used as a map keeps its insertion order and is an association list.
    - Measurements (millimetres, points) are binary64 floats, as in Python.
    - Indices are 0-based positions ([nat]); page and line numbers and
      heading levels are integers ([Z]). *)

From Stdlib Require Import List ZArith NArith Bool Lia Permutation Sorted.
From Stdlib Require String Ascii DecimalString.
Import String.StringSyntax.
Delimit Scope string_scope with string.
From Stdlib Require Import PrimFloat.
Import ListNotations.

Set Implicit Arguments.
Set Warnings "-inexact-float".

(* ================================================================== *)
(** * Python strings *)

Module PyStr.

Definition char := N.
Definition str := list char.

(** UTF-8 decoding, used only to write literals legibly. *)
Fixpoint utf8_decode (bs : list N) : str :=
  match bs with
  | [] => []
  | b0 :: r0 =>
    if (b0 <? 128)%N then b0 :: utf8_decode r0
    else match r0 with
    | [] => []
    | b1 :: r1 =>
      if (b0 <? 224)%N
      then ((b0 mod 32) * 64 + b1 mod 64)%N :: utf8_decode r1
      else match r1 with
      | [] => []
      | b2 :: r2 =>
        if (b0 <? 240)%N
        then ((b0 mod 16) * 4096 + (b1 mod 64) * 64 + b2 mod 64)%N
               :: utf8_decode r2
        else match r2 with
        | [] => []
        | b3 :: r3 =>
          ((b0 mod 8) * 262144 + (b1 mod 64) * 4096
            + (b2 mod 64) * 64 + b3 mod 64)%N :: utf8_decode r3
        end
      end
    end
  end.

Definition lit (s : String.string) : str :=
  utf8_decode (map Ascii.N_of_ascii (String.list_ascii_of_string s)).

Definition eqb (a b : str) : bool :=
  if list_eq_dec N.eq_dec a b then true else false.

Definition opt_eqb (a b : option str) : bool :=
  match a, b with
  | Some x, Some y => eqb x y
  | None, None => true
  | _, _ => false
  end.

(** [str(n)] for integers. *)
Definition of_nat (n : nat) : str :=
  lit (DecimalString.NilEmpty.string_of_uint (Nat.to_uint n)).
Definition of_Z (z : Z) : str :=
  lit (DecimalString.NilZero.string_of_int (Z.to_int z)).

(** [c in chars] *)
Definition mem (c : char) (chars : str) : bool := existsb (N.eqb c) chars.

(** [s.startswith(p)] *)
Fixpoint startswith (s p : str) : bool :=
  match p, s with
  | [], _ => true
  | c :: p', d :: s' => (c =? d)%N && startswith s' p'
  | _ :: _, [] => false
  end.

(** [p in s] (substring test). *)
Fixpoint contains (s p : str) : bool :=
  startswith s p
  || match s with
     | [] => false
     | _ :: s' => contains s' p
     end.

(** Removal of every character satisfying [f]
    ([re.sub('[...]+', '', s)] for a character class). *)
Definition remove_all (f : char -> bool) (s : str) : str :=
  filter (fun c => negb (f c)) s.

Fixpoint dropwhile (f : char -> bool) (s : str) : str :=
  match s with
  | c :: s' => if f c then dropwhile f s' else s
  | [] => []
  end.

Fixpoint takewhile (f : char -> bool) (s : str) : str :=
  match s with
  | c :: s' => if f c then c :: takewhile f s' else []
  | [] => []
  end.

(** [s.strip()] for a given whitespace class. *)
Definition strip_with (sp : char -> bool) (s : str) : str :=
  rev (dropwhile sp (rev (dropwhile sp s))).

(** [s.split(',')[0]] *)
Definition before_comma (s : str) : str :=
  takewhile (fun c => negb (c =? 44)%N) s.

End PyStr.

Abbreviation str := PyStr.str.
Notation "'u' s" := (PyStr.lit s%string) (at level 1, only parsing, s at level 0).

(** The character tables of the Python runtime which the code relies on
    through [str.strip], [str.lower] and the regular-expression classes
    [\s] and [\d]. *)
Class UnicodeDB := {
  isspace : PyStr.char -> bool;
  isdecimal : PyStr.char -> bool;
  lower : str -> str
}.

(** The ASCII restriction of those tables, for evaluating examples. *)
Definition ascii_lower_char (c : PyStr.char) : PyStr.char :=
  if ((65 <=? c) && (c <=? 90))%N then (c + 32)%N else c.

Definition ascii_db : UnicodeDB := {|
  isspace := fun c => ((9 <=? c) && (c <=? 13) || (c =? 32))%N;
  isdecimal := fun c => ((48 <=? c) && (c <=? 57))%N;
  lower := map ascii_lower_char
|}.

Definition strip `{UnicodeDB} (s : str) : str := PyStr.strip_with isspace s.

(* ================================================================== *)
(** * Insertion-ordered dictionaries and stable sorting *)

Definition dict (K V : Type) : Type := list (K * V).

Section Dict.
Context {K V : Type}.
Variable keq : K -> K -> bool.

Fixpoint dict_get (d : dict K V) (k : K) : option V :=
  match d with
  | [] => None
  | (k', v) :: d' => if keq k k' then Some v else dict_get d' k
  end.

(** [d[k] = f(d[k])] when [k in d], else [d[k] = v0] (appended last). *)
Fixpoint dict_upsert (d : dict K V) (k : K) (f : V -> V) (v0 : V)
  : dict K V :=
  match d with
  | [] => [(k, v0)]
  | (k', v) :: d' =>
    if keq k k' then (k', f v) :: d'
    else (k', v) :: dict_upsert d' k f v0
  end.

(** [d[k] = v] *)
Definition dict_set (d : dict K V) (k : K) (v : V) : dict K V :=
  dict_upsert d k (fun _ => v) v.
End Dict.

Definition dict_keys {K V : Type} (d : dict K V) : list K := map fst d.
Definition dict_values {K V : Type} (d : dict K V) : list V := map snd d.

Section Sorting.
Context {A : Type}.
Variable leb : A -> A -> bool.

Fixpoint insert_sorted (x : A) (l : list A) : list A :=
  match l with
  | [] => [x]
  | y :: l' => if leb x y then x :: l else y :: insert_sorted x l'
  end.

(** [sorted(l, key=...)]: a stable sort, [leb] comparing the keys. *)
Fixpoint sorted (l : list A) : list A :=
  match l with
  | [] => []
  | x :: l' => insert_sorted x (sorted l')
  end.
End Sorting.

(* ================================================================== *)
(** * Data model *)

(** A location dictionary.  The keys are those written by
    [RuleEngine._build_location], [_aggregate_run_issues_by_paragraph],
    [_merge_locations] and the structure checker. *)
Record Location := {
  loc_type : option str;
  loc_index : option nat;
  loc_paragraph_index : option nat;
  loc_page_number : option Z;
  loc_start_line : option Z;
  loc_end_line : option Z;
  loc_description : option str;
  loc_level : option Z;
  loc_text : option str;
  loc_count : option nat
}.

(** The empty dictionary [{}]. *)
Definition empty_location : Location :=
  {| loc_type := None; loc_index := None; loc_paragraph_index := None;
     loc_page_number := None; loc_start_line := None; loc_end_line := None;
     loc_description := None; loc_level := None; loc_text := None;
     loc_count := None |}.

(** One entry of the page-grouped display list. *)
Record PageGroup := {
  page : Z;
  items : list str;
  all_items : list str;
  total : nat;
  has_more : bool
}.

(** Per-level parameters of the heading style fix. *)
Record StyleParams := {
  sp_font : option str;
  sp_size_pt : option float;
  sp_alignment : option str;
  sp_bold : option bool
}.

(** The [fix_params] dictionary of a rule. *)
Record FixParams := {
  fp_top_mm : option float;
  fp_bottom_mm : option float;
  fp_left_mm : option float;
  fp_right_mm : option float;
  fp_first_line_indent_chars : option float;
  fp_levels : list (str * StyleParams);
  fp_chinese_font : option str;
  fp_size_pt : option float;
  fp_original : option str;
  fp_correction : option str;
  fp_original_ref : option str;
  fp_suggested_ref : option str
}.

(** Rule identifiers are strings (database rules) or integers (rules
    generated from a template configuration). *)
Inductive rule_key :=
| RuleName (s : str)
| RuleNum (n : Z).

Definition rule_key_eqb (a b : rule_key) : bool :=
  match a, b with
  | RuleName s, RuleName t => PyStr.eqb s t
  | RuleNum n, RuleNum m => (n =? m)%Z
  | _, _ => false
  end.

(** An issue dictionary.  [locations_list] and [raw_locations] are the
    keys which only merged issues carry. *)
Record Issue := {
  rule_id : rule_key;
  rule_name : str;
  category : str;
  error_message : str;
  suggestion : str;
  fix_action : option str;
  fix_params : option FixParams;
  location : Location;
  locations_list : option (list PageGroup);
  raw_locations : option (list Location)
}.

(** Font information of a run, paragraph or heading. *)
Record Font := {
  font_name : option str;
  font_size_pt : option float;
  font_bold : option bool
}.

Definition empty_font : Font :=
  {| font_name := None; font_size_pt := None; font_bold := None |}.

(** Resolved paragraph formatting. *)
Record Formatting := {
  fmt_first_line_indent_chars : option float;
  fmt_line_spacing_pt : option float;
  fmt_line_spacing : option float
}.

Definition empty_formatting : Formatting :=
  {| fmt_first_line_indent_chars := None; fmt_line_spacing_pt := None;
     fmt_line_spacing := None |}.

(** An element of the snapshot (paragraph, run, heading, table, figure)
    or a target derived from one (section, style): a dictionary with
    the keys the engine reads. *)
Record Node := {
  n_type : option str;
  n_index : option nat;
  n_paragraph_index : option nat;
  n_text : option str;
  n_font : option Font;
  n_formatting : option Formatting;
  n_level : option Z;
  n_alignment : option str;
  n_page_number : option Z;
  n_start_line : option Z;
  n_end_line : option Z;
  n_caption_position : option str;
  n_caption : option str
}.

Definition empty_node : Node :=
  {| n_type := None; n_index := None; n_paragraph_index := None;
     n_text := None; n_font := None; n_formatting := None;
     n_level := None; n_alignment := None; n_page_number := None;
     n_start_line := None; n_end_line := None;
     n_caption_position := None; n_caption := None |}.

Record PaperSize := {
  ps_width_mm : option float;
  ps_height_mm : option float
}.

Record Margins := {
  m_top_mm : option float;
  m_bottom_mm : option float;
  m_left_mm : option float;
  m_right_mm : option float
}.

Record PageSettings := {
  paper_size : option PaperSize;
  margins : option Margins
}.

Record TocEntry := {
  te_title : option str;
  te_level : option Z;
  te_page_number : option Z;
  te_paragraph_index : option nat
}.

Record Toc := {
  toc_exists : option bool;
  toc_entries : list TocEntry
}.

(** The parsed document ([doc_data]); an absent list is the empty list. *)
Record DocSnapshot := {
  page_settings : option PageSettings;
  paragraphs : list Node;
  runs : list Node;
  headings : list Node;
  tables : list Node;
  figures : list Node;
  table_of_contents : option Toc
}.

(** Per-level constraints of a heading rule. *)
Record LevelCondition := {
  lc_font : option str;
  lc_size_pt : option float;
  lc_bold : option bool;
  lc_alignment : option str
}.

(** The condition dictionary of a rule. *)
Record Condition := {
  c_tolerance_mm : option float;
  c_top_mm : option float;
  c_bottom_mm : option float;
  c_left_mm : option float;
  c_right_mm : option float;
  c_paper_name : option str;
  c_width_mm : option float;
  c_height_mm : option float;
  c_chinese_font : option str;
  c_english_font : option str;
  c_chinese_size_pt : option float;
  c_english_size_pt : option float;
  c_first_line_indent_chars : option float;
  c_paragraph_line_spacing : option float;
  c_number_style : option str;
  c_levels : dict str LevelCondition;
  c_caption_position : option str;
  c_caption_prefix : option str;
  c_required : option (list str);
  c_citation_style : option str;
  c_required_sections : option (list str)
}.

Definition empty_condition : Condition :=
  {| c_tolerance_mm := None; c_top_mm := None; c_bottom_mm := None;
     c_left_mm := None; c_right_mm := None; c_paper_name := None;
     c_width_mm := None; c_height_mm := None; c_chinese_font := None;
     c_english_font := None; c_chinese_size_pt := None;
     c_english_size_pt := None; c_first_line_indent_chars := None;
     c_paragraph_line_spacing := None; c_number_style := None;
     c_levels := []; c_caption_position := None; c_caption_prefix := None;
     c_required := None; c_citation_style := None;
     c_required_sections := None |}.

(** A rule: pure data. *)
Record Rule := {
  r_id : rule_key;
  r_name : str;
  r_category : str;
  r_match : option str;
  r_condition : option Condition;
  r_error_message : option str;
  r_suggestion : option str;
  r_fix_action : option str;
  r_fix_params : option FixParams;
  r_checker : option str
}.

(** What a rule is evaluated on: the whole document ([match] is
    ["document"]) or one of its elements. *)
Inductive Target :=
| TDoc (d : DocSnapshot)
| TNode (n : Node).

(** [x.get(k, default)] *)
Definition get {A : Type} (o : option A) (default : A) : A :=
  match o with Some a => a | None => default end.

(** [str(x)] inside an f-string, for a value which may be [None]. *)
Definition fmt_opt_str (o : option str) : str := get o (u"None").

(** The double-quote character. *)
Definition dq : str := [34%N].

(* ================================================================== *)
(** * StructureChecker *)

Module StructureChecker.
Section Checker.
Context `{UnicodeDB}.

(** The snapshot held by the checker ([self.doc_data]). *)
Variable doc_data : DocSnapshot.

Definition toc : option Toc := table_of_contents doc_data.

(** An issue as the checker builds it: rule fields and a location. *)
Definition mk_issue (rid rname msg sugg : str) (loc : Location) : Issue :=
  {| rule_id := RuleName rid; rule_name := rname;
     category := u"structure"; error_message := msg; suggestion := sugg;
     fix_action := None; fix_params := None; location := loc;
     locations_list := None; raw_locations := None |}.

Definition simple_location (ty descr : str) : Location :=
  {| loc_type := Some ty; loc_index := None; loc_paragraph_index := None;
     loc_page_number := Some 1%Z; loc_start_line := None;
     loc_end_line := None; loc_description := Some descr;
     loc_level := None; loc_text := None; loc_count := None |}.

(** [_get_heading_page] *)
Definition _get_heading_page (paragraph_index : option nat) : Z :=
  match paragraph_index with
  | None => 1%Z
  | Some i =>
    match nth_error (paragraphs doc_data) i with
    | Some p => get (n_page_number p) 1%Z
    | None => 1%Z
    end
  end.

Definition heading_location (text : option str) (pidx : option nat)
  : Location :=
  {| loc_type := Some (u"heading"); loc_index := None;
     loc_paragraph_index := pidx;
     loc_page_number := Some (_get_heading_page pidx);
     loc_start_line := None; loc_end_line := None;
     loc_description := None; loc_level := None; loc_text := text;
     loc_count := None |}.

(** ** Title normalisation *)

Definition is_cn_numeral (c : PyStr.char) : bool :=
  PyStr.mem c (u"一二三四五六七八九十").

(** [re.sub('^[N]+[、.]', '', s)] for a character class [N] of
    enumerators (disjoint from the two delimiters). *)
Definition strip_enumerator (is_num : PyStr.char -> bool) (s : str) : str :=
  match s with
  | c :: s' =>
    if is_num c then
      match PyStr.dropwhile is_num s' with
      | d :: rest => if PyStr.mem d (u"、.") then rest else s
      | [] => s
      end
    else s
  | [] => s
  end.

(** [re.sub('^[（(]\s*[N]+[）)]', '', s)] *)
Definition strip_paren_enumerator (is_num : PyStr.char -> bool) (s : str)
  : str :=
  match s with
  | o :: s1 =>
    if PyStr.mem o (u"（(") then
      match PyStr.dropwhile isspace s1 with
      | c :: s2 =>
        if is_num c then
          match PyStr.dropwhile is_num s2 with
          | d :: rest => if PyStr.mem d (u"）)") then rest else s
          | [] => s
          end
        else s
      | [] => s
      end
    else s
  | [] => s
  end.

(** [_normalize_title] *)
Definition _normalize_title (title : str) : str :=
  let normalized := strip title in
  let normalized := strip_enumerator is_cn_numeral normalized in
  let normalized := strip_enumerator isdecimal normalized in
  let normalized := strip_paren_enumerator is_cn_numeral normalized in
  let normalized := strip_paren_enumerator isdecimal normalized in
  let normalized :=
    PyStr.remove_all (fun c => isspace c || (c =? 12288)%N) normalized in
  PyStr.remove_all (fun c => PyStr.mem c (u"，。、；：！？")) normalized.

(** Exact or bidirectional-substring comparison of normalised titles. *)
Definition fuzzy_match (a b : str) : bool :=
  PyStr.contains b a || PyStr.contains a b.

(** [_find_section] *)
Definition _find_section (section_name : str) (found_sections : list str)
  : bool :=
  let normalized_target := _normalize_title section_name in
  existsb (fun found =>
             let normalized_found := _normalize_title found in
             PyStr.eqb normalized_target normalized_found
             || fuzzy_match normalized_target normalized_found)
          found_sections.

Definition stripped_text (h : Node) : str := strip (get (n_text h) []).

Definition nonempty (s : str) : bool :=
  match s with [] => false | _ :: _ => true end.

(** [check_required_sections] *)
Definition check_required_sections (required : list str) : list Issue :=
  let found_sections :=
    filter nonempty (map stripped_text (headings doc_data)) in
  flat_map (fun section =>
    if _find_section section found_sections then []
    else [mk_issue (u"REQUIRED_SECTION_MISSING")
            (u"缺少必要章节：" ++ section)
            (u"文档中未找到必要章节：" ++ section)
            (u"请在文档中添加章节：" ++ section)
            (simple_location (u"document") (u"文档结构"))])
    required.

(** ** Table of contents against the body *)

Record TocData := {
  td_original : str;
  td_level : Z;
  td_page_number : option Z
}.

Record BodyData := {
  bd_original : str;
  bd_level : Z;
  bd_paragraph_index : option nat
}.

(** The loop filling [toc_titles]. *)
Definition toc_titles_step (d : dict str TocData) (entry : TocEntry)
  : dict str TocData :=
  let title := strip (get (te_title entry) []) in
  if nonempty title then
    dict_set PyStr.eqb d (_normalize_title title)
      {| td_original := title; td_level := get (te_level entry) 1%Z;
         td_page_number := te_page_number entry |}
  else d.

(** The loop filling [body_titles]. *)
Definition body_titles_step (d : dict str BodyData) (heading : Node)
  : dict str BodyData :=
  let text := stripped_text heading in
  if nonempty text then
    dict_set PyStr.eqb d (_normalize_title text)
      {| bd_original := text; bd_level := get (n_level heading) 1%Z;
         bd_paragraph_index := n_paragraph_index heading |}
  else d.

(** The body heading a TOC title resolves to: the exact match if
    there is one, else the first fuzzy match. *)
Definition find_body (body_titles : dict str BodyData)
           (normalized_toc : str) : option BodyData :=
  match find (fun kv => PyStr.eqb normalized_toc (fst kv)) body_titles with
  | Some kv => Some (snd kv)
  | None =>
    match find (fun kv => fuzzy_match normalized_toc (fst kv))
               body_titles with
    | Some kv => Some (snd kv)
    | None => None
    end
  end.

(** Check 1, for one TOC title. *)
Definition check_toc_entry (body_titles : dict str BodyData)
           (kv : str * TocData) : list Issue :=
  let toc_data := snd kv in
  match find_body body_titles (fst kv) with
  | None =>
    [mk_issue (u"TOC_ENTRY_NOT_FOUND") (u"目录条目在正文中不存在")
       (u"目录中的" ++ dq ++ td_original toc_data ++ dq
          ++ u"在正文中未找到对应标题")
       (u"请检查目录，确保" ++ dq ++ td_original toc_data ++ dq
          ++ u"在正文中存在对应的标题")
       (simple_location (u"toc")
          (u"目录条目：" ++ td_original toc_data))]
  | Some matching_body =>
    let toc_level := td_level toc_data in
    let body_level := bd_level matching_body in
    if (toc_level =? body_level)%Z then []
    else
      [mk_issue (u"TOC_LEVEL_MISMATCH") (u"目录层级与正文不一致")
         (u"目录中的" ++ dq ++ td_original toc_data ++ dq ++ u"层级("
            ++ PyStr.of_Z toc_level ++ u"级)与正文中的层级("
            ++ PyStr.of_Z body_level ++ u"级)不一致")
         (u"请检查目录和正文中" ++ dq ++ td_original toc_data ++ dq
            ++ u"的层级设置，确保一致")
         (heading_location (Some (td_original toc_data))
            (bd_paragraph_index matching_body))]
  end.

(** Check 2, for one level-1 body heading. *)
Definition check_level1_heading (toc_titles : dict str TocData)
           (heading : Node) : list Issue :=
  let title := stripped_text heading in
  if nonempty title then
    let normalized_title := _normalize_title title in
    if existsb (fun normalized_toc =>
                  PyStr.eqb normalized_title normalized_toc
                  || fuzzy_match normalized_title normalized_toc)
               (dict_keys toc_titles)
    then []
    else
      [mk_issue (u"HEADING_NOT_IN_TOC") (u"正文标题未出现在目录中")
         (u"正文中的一级标题" ++ dq ++ title ++ dq ++ u"未出现在目录中")
         (u"请在目录中添加" ++ dq ++ title ++ dq)
         (heading_location (Some title) (n_paragraph_index heading))]
  else [].

Definition toc_missing_issue : Issue :=
  mk_issue (u"TOC_MISSING") (u"缺少目录") (u"文档中未找到目录")
    (u"请添加目录") (simple_location (u"document") (u"文档前部")).

Definition toc_empty_issue : Issue :=
  mk_issue (u"TOC_EMPTY") (u"目录为空") (u"目录中没有条目")
    (u"请确保目录包含所有主要章节") (simple_location (u"toc") (u"目录")).

Definition is_level1 (h : Node) : bool :=
  match n_level h with Some l => (l =? 1)%Z | None => false end.

(** [self.toc.get("exists")] as a truth value. *)
Definition toc_present : bool :=
  match toc with Some t => get (toc_exists t) false | None => false end.

(** [self.toc.get("entries", [])] *)
Definition toc_entry_list : list TocEntry :=
  match toc with Some t => toc_entries t | None => [] end.

(** [check_toc_body_consistency] *)
Definition check_toc_body_consistency : list Issue :=
  if negb toc_present then [toc_missing_issue]
  else
    let toc_entries := toc_entry_list in
    let body_headings := headings doc_data in
    match toc_entries with
    | [] => [toc_empty_issue]
    | _ :: _ =>
      let toc_titles := fold_left toc_titles_step toc_entries [] in
      let body_titles := fold_left body_titles_step body_headings [] in
      flat_map (check_toc_entry body_titles) toc_titles
      ++ flat_map (check_level1_heading toc_titles)
           (filter is_level1 body_headings)
    end.

(** ** Heading hierarchy *)

Definition heading_level (h : Node) : Z := get (n_level h) 1%Z.

Definition level_jump_issue (prev curr : Node) : Issue :=
  let prev_level := heading_level prev in
  let curr_level := heading_level curr in
  mk_issue (u"HEADING_LEVEL_JUMP") (u"标题层级跳跃")
    (u"标题层级从" ++ PyStr.of_Z prev_level ++ u"级跳转到"
       ++ PyStr.of_Z curr_level ++ u"级，中间缺少"
       ++ PyStr.of_Z (prev_level + 1) ++ u"级标题")
    (u"请在" ++ dq ++ fmt_opt_str (n_text prev) ++ dq ++ u"和" ++ dq
       ++ fmt_opt_str (n_text curr) ++ dq ++ u"之间添加"
       ++ PyStr.of_Z (prev_level + 1) ++ u"级标题")
    (heading_location (n_text curr) (n_paragraph_index curr)).

(** The loop [for i in range(1, len(headings))], [prev] being
    [headings[i - 1]] and [rest] being [headings[i:]]. *)
Fixpoint hierarchy_loop (prev : Node) (rest : list Node) : list Issue :=
  match rest with
  | [] => []
  | curr :: rest' =>
    (if (heading_level curr =? 1)%Z then []
     else if (heading_level prev + 1 <? heading_level curr)%Z
          then [level_jump_issue prev curr]
          else [])
    ++ hierarchy_loop curr rest'
  end.

(** [check_heading_hierarchy] *)
Definition check_heading_hierarchy : list Issue :=
  match headings doc_data with
  | [] => []
  | first :: rest => hierarchy_loop first rest
  end.

End Checker.
End StructureChecker.

(* ================================================================== *)
(** * RuleEngine: merging issues by rule *)

Module RuleEngine.

(** The value stored in [grouped] for one rule id. *)
Record Group := {
  g_rule_id : rule_key;
  g_rule_name : str;
  g_category : str;
  g_error_message : str;
  g_suggestion : str;
  g_fix_action : option str;
  g_fix_params : option FixParams;
  g_locations : list Location
}.

Definition group_append (l : Location) (g : Group) : Group :=
  {| g_rule_id := g_rule_id g; g_rule_name := g_rule_name g;
     g_category := g_category g; g_error_message := g_error_message g;
     g_suggestion := g_suggestion g; g_fix_action := g_fix_action g;
     g_fix_params := g_fix_params g;
     g_locations := g_locations g ++ [l] |}.

Definition group_new (i : Issue) : Group :=
  {| g_rule_id := rule_id i; g_rule_name := rule_name i;
     g_category := category i; g_error_message := error_message i;
     g_suggestion := suggestion i; g_fix_action := fix_action i;
     g_fix_params := fix_params i;
     g_locations := [location i] |}.

(** One iteration of the grouping loop of [_merge_issues_by_rule]. *)
Definition group_step (grouped : dict rule_key Group) (i : Issue)
  : dict rule_key Group :=
  dict_upsert rule_key_eqb grouped (rule_id i)
    (group_append (location i)) (group_new i).

Definition group_issues (issues : list Issue) : dict rule_key Group :=
  fold_left group_step issues [].

(** [_merge_locations] *)
Definition _merge_locations (locations : list Location) : Location :=
  match locations with
  | [] =>
    {| loc_type := Some (u"unknown"); loc_index := None;
       loc_paragraph_index := None; loc_page_number := None;
       loc_start_line := None; loc_end_line := None;
       loc_description := Some (u"未知位置");
       loc_level := None; loc_text := None; loc_count := None |}
  | _ :: _ =>
    let count := List.length locations in
    {| loc_type := Some (u"merged"); loc_index := None;
       loc_paragraph_index := None; loc_page_number := None;
       loc_start_line := None; loc_end_line := None;
       loc_description := Some (u"共" ++ PyStr.of_nat count ++ u"处位置");
       loc_level := None; loc_text := None; loc_count := Some count |}
  end.

(** ** Display strings of consecutive locations *)

Definition get_paragraph_index (l : Location) : nat :=
  match loc_paragraph_index l with Some n => n | None => 0 end.
Definition get_index (l : Location) : nat :=
  match loc_index l with Some n => n | None => 0 end.
Definition get_start_line (l : Location) : Z :=
  match loc_start_line l with Some n => n | None => 1%Z end.
Definition get_end_line (l : Location) : Z :=
  match loc_end_line l with Some n => n | None => get_start_line l end.
Definition get_page_number (l : Location) : Z :=
  match loc_page_number l with Some n => n | None => 1%Z end.
Definition get_description (l : Location) : str :=
  match loc_description l with Some d => d | None => [] end.

Definition type_is (t : str) (l : Location) : bool :=
  PyStr.opt_eqb (loc_type l) (Some t).

Definition sorted_by (key : Location -> nat) (l : list Location)
  : list Location :=
  sorted (fun a b => key a <=? key b) l.

(** Keeping the first location of every index ([seen] is the set
    [seen_indices]). *)
Fixpoint dedupe (key : Location -> nat) (seen : list nat)
         (l : list Location) : list Location :=
  match l with
  | [] => []
  | x :: l' =>
    if existsb (Nat.eqb (key x)) seen then dedupe key seen l'
    else x :: dedupe key (key x :: seen) l'
  end.

Definition last_key (key : Location -> nat) (cur : list Location) : nat :=
  match rev cur with x :: _ => key x | [] => 0 end.

Section Consecutive.
Variable key : Location -> nat.
(** What is appended to [merged] for the group [unique_locs[i:j]]. *)
Variable emit : list Location -> list str.

(** The nested [while] loops over [unique_locs]: [start] is
    [start_idx], [cur] is [unique_locs[i:j]] and [rest] is
    [unique_locs[j:]]. *)
Fixpoint scan (start : nat) (cur rest : list Location) : list str :=
  match rest with
  | [] => emit cur
  | x :: rest' =>
    if key x =? start + length cur then scan start (cur ++ [x]) rest'
    else emit cur ++ scan (key x) [x] rest'
  end.

Definition merge_loop (unique_locs : list Location) : list str :=
  match unique_locs with
  | [] => []
  | x :: rest => scan (key x) [x] rest
  end.
End Consecutive.

Definition emit_runs (cur : list Location) : list str :=
  if 3 <=? length cur then
    match cur with
    | [] => []
    | x :: _ =>
      [u"第" ++ PyStr.of_nat (get_paragraph_index x + 1) ++ u"~"
        ++ PyStr.of_nat (last_key get_paragraph_index cur + 1) ++ u"段"]
    end
  else
    map (fun x => u"第" ++ PyStr.of_nat (get_paragraph_index x + 1)
                   ++ u"段") cur.

(** [_merge_consecutive_runs] *)
Definition _merge_consecutive_runs (run_locs : list Location) : list str :=
  match run_locs with
  | [] => []
  | _ =>
    let sorted_locs := sorted_by get_paragraph_index run_locs in
    let unique_locs := dedupe get_paragraph_index [] sorted_locs in
    merge_loop get_paragraph_index emit_runs unique_locs
  end.

Definition emit_figures (cur : list Location) : list str :=
  if 3 <=? length cur then
    match cur with
    | [] => []
    | x :: _ =>
      [u"第" ++ PyStr.of_nat (get_index x + 1) ++ u"~"
        ++ PyStr.of_nat (last_key get_index cur + 1) ++ u"个图表"]
    end
  else
    map (fun x => u"第" ++ PyStr.of_nat (get_index x + 1) ++ u"个图表") cur.

(** [_merge_consecutive_figures] *)
Definition _merge_consecutive_figures (figure_locs : list Location)
  : list str :=
  match figure_locs with
  | [] => []
  | _ =>
    let sorted_locs := sorted_by get_index figure_locs in
    let unique_locs := dedupe get_index [] sorted_locs in
    merge_loop get_index emit_figures unique_locs
  end.

(** What [_merge_consecutive_paragraphs] appends for
    [unique_locs[i:j]], [end_line] being the line reached by the scan. *)
Definition emit_paragraphs (end_line : Z) (cur : list Location)
  : list str :=
  if 3 <=? length cur then
    match cur with
    | [] => []
    | x :: _ =>
      let head := u"第" ++ PyStr.of_nat (get_index x + 1) ++ u"~"
                  ++ PyStr.of_nat (last_key get_index cur + 1) in
      if (get_start_line x =? end_line)%Z
      then [head ++ u"段(第" ++ PyStr.of_Z (get_start_line x) ++ u"行)"]
      else [head ++ u"段(第" ++ PyStr.of_Z (get_start_line x) ++ u"~"
              ++ PyStr.of_Z end_line ++ u"行)"]
    end
  else
    map (fun k =>
           let s := get_start_line k in
           let e := get_end_line k in
           if (s =? e)%Z
           then u"第" ++ PyStr.of_nat (get_index k + 1) ++ u"段(第"
                  ++ PyStr.of_Z s ++ u"行)"
           else u"第" ++ PyStr.of_nat (get_index k + 1) ++ u"段("
                  ++ PyStr.of_Z s ++ u"~" ++ PyStr.of_Z e ++ u"行)") cur.

(** The loops of [_merge_consecutive_paragraphs], which also require
    contiguous line ranges. *)
Fixpoint scan_paragraphs (start : nat) (end_line : Z)
         (cur rest : list Location) : list str :=
  match rest with
  | [] => emit_paragraphs end_line cur
  | x :: rest' =>
    if (get_index x =? start + length cur)
       && (get_start_line x =? end_line + 1)%Z
    then scan_paragraphs start (get_end_line x) (cur ++ [x]) rest'
    else emit_paragraphs end_line cur
           ++ scan_paragraphs (get_index x) (get_end_line x) [x] rest'
  end.

Definition merge_loop_paragraphs (unique_locs : list Location)
  : list str :=
  match unique_locs with
  | [] => []
  | x :: rest => scan_paragraphs (get_index x) (get_end_line x) [x] rest
  end.

(** [_merge_consecutive_paragraphs] *)
Definition _merge_consecutive_paragraphs (para_locs : list Location)
  : list str :=
  merge_loop_paragraphs (dedupe get_index [] para_locs).

(** ** The page-grouped display list *)

(** The loop filling [pages]. *)
Definition pages_step (pages : dict Z (list Location)) (loc : Location)
  : dict Z (list Location) :=
  dict_upsert Z.eqb pages (get_page_number loc)
    (fun locs => locs ++ [loc]) [loc].

Definition group_pages (locations : list Location)
  : dict Z (list Location) :=
  fold_left pages_step locations [].

(** The display strings of the locations of one page. *)
Definition page_all_items (page_locs : list Location) : list str :=
  let run_locs := filter (type_is (u"run")) page_locs in
  let para_locs := filter (type_is (u"paragraph")) page_locs in
  let figure_locs := filter (type_is (u"figure")) page_locs in
  let other_locs :=
    filter (fun l => negb (type_is (u"run") l || type_is (u"paragraph") l
                           || type_is (u"figure") l)) page_locs in
  _merge_consecutive_runs (sorted_by get_paragraph_index run_locs)
  ++ _merge_consecutive_paragraphs (sorted_by get_index para_locs)
  ++ _merge_consecutive_figures (sorted_by get_index figure_locs)
  ++ map get_description other_locs.

Definition build_page (pages : dict Z (list Location)) (p : Z)
  : PageGroup :=
  let page_locs :=
    match dict_get Z.eqb pages p with Some l => l | None => [] end in
  let all := page_all_items page_locs in
  {| page := p;
     items := firstn 20 all;
     all_items := all;
     total := length page_locs;
     has_more := 20 <? length all |}.

(** [_build_locations_list] *)
Definition _build_locations_list (locations : list Location)
  : list PageGroup :=
  match locations with
  | [] => []
  | _ =>
    let pages := group_pages locations in
    map (build_page pages) (sorted Z.leb (dict_keys pages))
  end.

(** [_merge_issues_by_rule] *)
Definition build_merged (g : Group) : Issue :=
  {| rule_id := g_rule_id g; rule_name := g_rule_name g;
     category := g_category g; error_message := g_error_message g;
     suggestion := g_suggestion g; fix_action := g_fix_action g;
     fix_params := g_fix_params g;
     location := _merge_locations (g_locations g);
     locations_list := Some (_build_locations_list (g_locations g));
     raw_locations := Some (g_locations g) |}.

Definition _merge_issues_by_rule (issues : list Issue) : list Issue :=
  map build_merged (dict_values (group_issues issues)).

(** ** Condition evaluators *)

Local Open Scope float_scope.

(** [a > b] and [a < b] on floats. *)
Definition fgt (a b : float) : bool := b <? a.
Definition flt (a b : float) : bool := a <? b.

(** [abs(actual - expected) > tolerance] *)
Definition exceeds (actual expected tolerance : float) : bool :=
  fgt (abs (actual - expected)) tolerance.

(** Truth value of a float: [x != 0]. *)
Definition truthy (x : float) : bool := negb (x =? 0).

Local Close Scope float_scope.

Definition node_of (t : Target) : Node :=
  match t with TNode n => n | TDoc _ => empty_node end.

Definition target_page_settings (t : Target) : option PageSettings :=
  match t with TDoc d => page_settings d | TNode _ => None end.

Definition target_headings (t : Target) : list Node :=
  match t with TDoc d => headings d | TNode _ => [] end.

Definition target_font (t : Target) : Font :=
  get (n_font (node_of t)) empty_font.

Definition margin_of (key : Margins -> option float)
           (m : option Margins) : float :=
  match m with Some m => get (key m) 0%float | None => 0%float end.

Definition paper_of (key : PaperSize -> option float)
           (p : option PaperSize) : float :=
  match p with Some p => get (key p) 0%float | None => 0%float end.

(** One iteration of the loop over the four margin keys: [false]
    when the side is constrained and out of tolerance. *)
Definition side_ok (tolerance : float) (m : option Margins)
           (side : (Condition -> option float)
                   * (Margins -> option float))
           (condition : Condition) : bool :=
  match fst side condition with
  | Some expected => negb (exceeds (margin_of (snd side) m) expected tolerance)
  | None => true
  end.

Definition margin_sides
  : list ((Condition -> option float) * (Margins -> option float)) :=
  [(c_top_mm, m_top_mm); (c_bottom_mm, m_bottom_mm);
   (c_left_mm, m_left_mm); (c_right_mm, m_right_mm)].

Definition paper_ok (target_ps : option PageSettings)
           (condition : Condition) : bool :=
  match c_paper_name condition with
  | None => true
  | Some paper_name =>
    let paper := match target_ps with Some ps => paper_size ps
                                    | None => None end in
    let width := paper_of ps_width_mm paper in
    let height := paper_of ps_height_mm paper in
    if PyStr.eqb paper_name (u"A4") then
      flt (abs (width - 210)) 1 && flt (abs (height - 297)) 1
    else
      match c_width_mm condition, c_height_mm condition with
      | Some cw, Some ch =>
        negb (exceeds width cw 1) && negb (exceeds height ch 1)
      | _, _ => true
      end
  end.

(** [_match_page_condition] *)
Definition _match_page_condition (target : Target) (condition : Condition)
  : bool :=
  let ps := target_page_settings target in
  let m := match ps with Some ps => margins ps | None => None end in
  let tolerance := get (c_tolerance_mm condition) 0.5%float in
  if forallb (fun side => side_ok tolerance m side condition) margin_sides
  then paper_ok ps condition
  else false.

(** [contains_chinese], [contains_english] of the parser. *)
Definition contains_chinese (text : str) : bool :=
  existsb (fun c => (19968 <=? c) && (c <=? 40959))%N text.
Definition contains_english (text : str) : bool :=
  existsb (fun c => ((97 <=? c) && (c <=? 122)
                     || (65 <=? c) && (c <=? 90))%N) text.

Definition font_map : dict str str :=
  [ (u"宋体", u"SimSun"); (u"SimSun", u"SimSun");
    (u"黑体", u"SimHei"); (u"SimHei", u"SimHei");
    (u"微软雅黑", u"Microsoft YaHei");
    (u"Microsoft YaHei", u"Microsoft YaHei");
    (u"楷体", u"KaiTi"); (u"KaiTi", u"KaiTi");
    (u"仿宋", u"FangSong"); (u"FangSong", u"FangSong");
    (u"方正小标宋简体", u"方正小标宋简体") ].

(** Both fields of the font are resolved. *)
Definition font_resolved (f : Font) : bool :=
  match font_name f, font_size_pt f with
  | Some _, Some _ => true
  | _, _ => false
  end.

Section Matchers.
Context `{UnicodeDB}.

Definition normalize_font_name (name : option str) : option str :=
  match name with
  | None => None
  | Some [] => None
  | Some n =>
    let raw_name := strip (PyStr.before_comma n) in
    Some (get (dict_get PyStr.eqb font_map raw_name) raw_name)
  end.

(** The font check of one script: [false] when the script is
    constrained, present in the text and the fonts differ. *)
Definition font_name_ok (expected : option str) (present : bool)
           (font : Font) : bool :=
  match expected with
  | Some e =>
    if present
    then PyStr.opt_eqb (normalize_font_name (font_name font))
                       (normalize_font_name (Some e))
    else true
  | None => true
  end.

Definition font_size_ok (expected : option float) (present : bool)
           (font : Font) : bool :=
  match expected with
  | Some e =>
    if present
    then negb (exceeds (get (font_size_pt font) 0%float) e 0.5%float)
    else true
  | None => true
  end.

(** [_match_font_condition] *)
Definition _match_font_condition (target : Target)
           (condition : Condition) : bool :=
  let font := target_font target in
  let text := get (n_text (node_of target)) [] in
  if negb (font_resolved font) then true
  else if negb (font_name_ok (c_chinese_font condition)
                             (contains_chinese text) font) then false
  else if negb (font_name_ok (c_english_font condition)
                             (contains_english text) font) then false
  else if negb (font_size_ok (c_chinese_size_pt condition)
                             (contains_chinese text) font) then false
  else if negb (font_size_ok (c_english_size_pt condition)
                             (contains_english text) font) then false
  else true.

(** [_match_paragraph_condition] *)
Definition _match_paragraph_condition (target : Target)
           (condition : Condition) : bool :=
  let formatting := get (n_formatting (node_of target))
                        empty_formatting in
  let indent_ok :=
    match c_first_line_indent_chars condition with
    | Some expected_chars =>
      negb (exceeds (get (fmt_first_line_indent_chars formatting)
                         0%float)
                    expected_chars 0.5%float)
    | None => true
    end in
  let spacing_ok :=
    match c_paragraph_line_spacing condition with
    | Some expected_spacing =>
      let actual_spacing_pt :=
        match fmt_line_spacing_pt formatting with
        | Some v => v
        | None =>
          let line_spacing :=
            get (fmt_line_spacing formatting) 0%float in
          if fgt line_spacing 10 then line_spacing
          else
            let font_size :=
              match n_font (node_of target) with
              | Some f =>
                match font_size_pt f with
                | Some sz => if truthy sz then sz else 12%float
                | None => 12%float
                end
              | None => 12%float
              end in
            if truthy line_spacing
            then (line_spacing * font_size)%float
            else 0%float
        end in
      negb (truthy actual_spacing_pt
            && exceeds actual_spacing_pt expected_spacing 2)
    | None => true
    end in
  if negb indent_ok then false else spacing_ok.

(** [re.match('^\d+(\.\d+)*', text.strip())]: the stripped text
    starts with a decimal digit. *)
Definition starts_with_number (text : str) : bool :=
  match strip text with
  | c :: _ => isdecimal c
  | [] => false
  end.

Definition level_key (level : option Z) : str :=
  u"level" ++ match level with
              | Some l => PyStr.of_Z l
              | None => u"None"
              end.

Definition opt_bool_eqb (a : option bool) (b : bool) : bool :=
  match a with Some x => Bool.eqb x b | None => false end.

(** The style checks of a heading against its level's constraints. *)
Definition level_condition_ok (target : Target)
           (level_condition : LevelCondition) : bool :=
  let font := target_font target in
  if negb (font_resolved font) then true
  else if match lc_font level_condition with
          | Some f => negb (PyStr.opt_eqb (font_name font) (Some f))
          | None => false
          end then false
  else if match lc_size_pt level_condition with
          | Some sz =>
            exceeds (get (font_size_pt font) 0%float) sz 0.5%float
          | None => false
          end then false
  else if match lc_bold level_condition with
          | Some b => negb (opt_bool_eqb (font_bold font) b)
          | None => false
          end then false
  else if match lc_alignment level_condition with
          | Some a =>
            negb (PyStr.opt_eqb (n_alignment (node_of target)) (Some a))
          | None => false
          end then false
  else true.

(** [_match_heading_condition] *)
Definition _match_heading_condition (target : Target)
           (condition : Condition) (match_type : str) : bool :=
  if PyStr.eqb match_type (u"section") then
    match c_number_style condition with
    | Some _ =>
      starts_with_number (get (n_text (node_of target)) [])
    | None => true
    end
  else
    match dict_get PyStr.eqb (c_levels condition)
                   (level_key (n_level (node_of target))) with
    | Some level_condition => level_condition_ok target level_condition
    | None => true
    end.

(** [_match_figure_condition] *)
Definition _match_figure_condition (target : Target)
           (condition : Condition) : bool :=
  let position_ok :=
    match c_caption_position condition with
    | Some p => PyStr.opt_eqb (n_caption_position (node_of target))
                              (Some p)
    | None => true
    end in
  let prefix_ok :=
    match c_caption_prefix condition with
    | Some prefix =>
      PyStr.startswith (get (n_caption (node_of target)) []) prefix
    | None => true
    end in
  if negb position_ok then false else prefix_ok.

(** [_match_other_condition] *)
Definition _match_other_condition (target : Target)
           (condition : Condition) : bool :=
  match c_required condition with
  | Some required =>
    let heading_texts :=
      map (fun h => lower (get (n_text h) []))
          (target_headings target) in
    forallb (fun req =>
               existsb (PyStr.eqb req) heading_texts
               || PyStr.eqb req (u"body"))
            required
  | None => true
  end.

(** [_match_generic_condition] compares arbitrary condition keys with
    the target's entries of the same name; it is kept abstract. *)
Variable _match_generic_condition : Target -> Condition -> bool.

(** [_match_condition] *)
Definition _match_condition (target : Target) (condition : Condition)
           (category match_type : str) : bool :=
  if PyStr.eqb category (u"page")
  then _match_page_condition target condition
  else if PyStr.eqb category (u"font")
  then _match_font_condition target condition
  else if PyStr.eqb category (u"paragraph")
  then _match_paragraph_condition target condition
  else if PyStr.eqb category (u"heading")
  then _match_heading_condition target condition match_type
  else if PyStr.eqb category (u"figure")
  then _match_figure_condition target condition
  else if PyStr.eqb category (u"other")
  then _match_other_condition target condition
  else _match_generic_condition target condition.

(** ** Targets, locations and issues *)

Definition opt_nat_eqb (a b : option nat) : bool :=
  match a, b with
  | Some x, Some y => Nat.eqb x y
  | None, None => true
  | _, _ => false
  end.

Definition heading_para_indices (doc_data : DocSnapshot)
  : list (option nat) :=
  map n_paragraph_index (headings doc_data).

Definition not_in_headings (doc_data : DocSnapshot) (i : option nat)
  : bool :=
  negb (existsb (opt_nat_eqb i) (heading_para_indices doc_data)).

(** [_extract_sections] *)
Definition _extract_sections (doc_data : DocSnapshot) : list Node :=
  map (fun heading =>
         {| n_type := Some (u"section"); n_index := None;
            n_paragraph_index := n_paragraph_index heading;
            n_text := n_text heading; n_font := None;
            n_formatting := None; n_level := n_level heading;
            n_alignment := None; n_page_number := None;
            n_start_line := None; n_end_line := None;
            n_caption_position := None; n_caption := None |})
      (headings doc_data).

(** [_extract_styles] *)
Definition _extract_styles (doc_data : DocSnapshot) : list Node :=
  flat_map (fun level =>
    match filter (fun h => match n_level h with
                           | Some l => (l =? level)%Z
                           | None => false
                           end) (headings doc_data) with
    | [] => []
    | h :: _ =>
      [{| n_type := Some (u"heading_level_" ++ PyStr.of_Z level);
          n_index := None; n_paragraph_index := None; n_text := None;
          n_font := Some (get (n_font h) empty_font);
          n_formatting := None; n_level := Some level;
          n_alignment := n_alignment h; n_page_number := None;
          n_start_line := None; n_end_line := None;
          n_caption_position := None; n_caption := None |}]
    end) [1%Z; 2%Z; 3%Z].

(** [_get_check_targets] *)
Definition _get_check_targets (doc_data : DocSnapshot)
           (match_type category : str) : list Target :=
  if PyStr.eqb match_type (u"document") then [TDoc doc_data]
  else if PyStr.eqb match_type (u"paragraph") then
    if PyStr.eqb category (u"paragraph")
    then map TNode (filter (fun p => not_in_headings doc_data (n_index p))
                           (paragraphs doc_data))
    else map TNode (paragraphs doc_data)
  else if PyStr.eqb match_type (u"run") then
    if PyStr.eqb category (u"font")
    then map TNode
             (filter (fun r => not_in_headings doc_data
                                 (n_paragraph_index r))
                     (runs doc_data))
    else map TNode (runs doc_data)
  else if PyStr.eqb match_type (u"heading")
  then map TNode (headings doc_data)
  else if PyStr.eqb match_type (u"table")
  then map TNode (tables doc_data)
  else if PyStr.eqb match_type (u"figure")
  then map TNode (figures doc_data)
  else if PyStr.eqb match_type (u"section")
  then map TNode (_extract_sections doc_data)
  else if PyStr.eqb match_type (u"style")
  then map TNode (_extract_styles doc_data)
  else [].

(** [_build_location] *)
Definition _build_location (target : Target) (match_type : str)
  : Location :=
  let t := node_of target in
  let base :=
    {| loc_type := Some match_type; loc_index := None;
       loc_paragraph_index := None; loc_page_number := None;
       loc_start_line := None; loc_end_line := None;
       loc_description := None; loc_level := None; loc_text := None;
       loc_count := None |} in
  if PyStr.eqb match_type (u"paragraph") then
    let idx := get (n_index t) 0 in
    let page := get (n_page_number t) 1%Z in
    let start_line := get (n_start_line t) 1%Z in
    let end_line := get (n_end_line t) start_line in
    {| loc_type := Some match_type; loc_index := Some idx;
       loc_paragraph_index := None; loc_page_number := Some page;
       loc_start_line := Some start_line; loc_end_line := Some end_line;
       loc_description :=
         Some (u"第" ++ PyStr.of_Z page ++ u"页第"
                 ++ PyStr.of_nat (idx + 1) ++ u"段("
                 ++ PyStr.of_Z start_line ++ u"~"
                 ++ PyStr.of_Z end_line ++ u"行)");
       loc_level := None; loc_text := None; loc_count := None |}
  else if PyStr.eqb match_type (u"run") then
    let para_idx := get (n_paragraph_index t) 0 in
    let page := get (n_page_number t) 1%Z in
    {| loc_type := Some match_type; loc_index := None;
       loc_paragraph_index := Some para_idx;
       loc_page_number := Some page;
       loc_start_line := None; loc_end_line := None;
       loc_description :=
         Some (u"第" ++ PyStr.of_Z page ++ u"页第"
                 ++ PyStr.of_nat (para_idx + 1) ++ u"段文本");
       loc_level := None; loc_text := None; loc_count := None |}
  else if PyStr.eqb match_type (u"heading") then
    {| loc_type := Some match_type; loc_index := None;
       loc_paragraph_index := n_paragraph_index t;
       loc_page_number := None;
       loc_start_line := None; loc_end_line := None;
       loc_description := Some (u"标题: " ++ get (n_text t) []);
       loc_level := n_level t; loc_text := n_text t;
       loc_count := None |}
  else if PyStr.eqb match_type (u"style") then
    let level := get (n_level t) 1%Z in
    {| loc_type := Some match_type; loc_index := None;
       loc_paragraph_index := None; loc_page_number := None;
       loc_start_line := None; loc_end_line := None;
       loc_description := Some (PyStr.of_Z level ++ u"级标题样式");
       loc_level := Some level; loc_text := None; loc_count := None |}
  else if PyStr.eqb match_type (u"document") then
    {| loc_type := Some match_type; loc_index := None;
       loc_paragraph_index := None; loc_page_number := None;
       loc_start_line := None; loc_end_line := None;
       loc_description := Some (u"文档整体设置");
       loc_level := None; loc_text := None; loc_count := None |}
  else if PyStr.eqb match_type (u"figure") then
    let idx := get (n_index t) 0 in
    {| loc_type := Some match_type; loc_index := Some idx;
       loc_paragraph_index := None; loc_page_number := None;
       loc_start_line := None; loc_end_line := None;
       loc_description :=
         Some (u"第" ++ PyStr.of_nat (idx + 1) ++ u"个图表");
       loc_level := None; loc_text := None; loc_count := None |}
  else base.

(** [_create_issue] *)
Definition _create_issue (rule : Rule) (target : Target)
           (match_type : str) : Issue :=
  {| rule_id := r_id rule; rule_name := r_name rule;
     category := r_category rule;
     error_message := get (r_error_message rule) (u"格式不符合规范");
     suggestion := get (r_suggestion rule) [];
     fix_action := r_fix_action rule; fix_params := r_fix_params rule;
     location := _build_location target match_type;
     locations_list := None; raw_locations := None |}.

(** ** Folding run issues into paragraphs *)

(** The value stored in [para_issues] for one paragraph: the first
    issue seen and the number of runs counted. *)
Record ParaData := {
  pd_first : Issue;
  pd_paragraph_index : nat;
  pd_run_count : nat
}.

Definition para_issues_step (para_issues : dict nat ParaData)
           (issue : Issue) : dict nat ParaData :=
  let para_idx := get (loc_paragraph_index (location issue)) 0 in
  dict_upsert Nat.eqb para_issues para_idx
    (fun d => {| pd_first := pd_first d;
                 pd_paragraph_index := pd_paragraph_index d;
                 pd_run_count := pd_run_count d + 1 |})
    {| pd_first := issue; pd_paragraph_index := para_idx;
       pd_run_count := 1 |}.

Definition paragraph_location (doc_data : DocSnapshot) (para_idx : nat)
  : Location :=
  let descr := Some (u"第" ++ PyStr.of_nat (para_idx + 1) ++ u"段") in
  match nth_error (paragraphs doc_data) para_idx with
  | Some para =>
    {| loc_type := Some (u"paragraph"); loc_index := Some para_idx;
       loc_paragraph_index := None;
       loc_page_number := Some (get (n_page_number para) 1%Z);
       loc_start_line := Some (get (n_start_line para) 1%Z);
       loc_end_line := Some (get (n_end_line para) 1%Z);
       loc_description := descr;
       loc_level := None; loc_text := None; loc_count := None |}
  | None =>
    {| loc_type := Some (u"paragraph"); loc_index := Some para_idx;
       loc_paragraph_index := None; loc_page_number := Some 1%Z;
       loc_start_line := Some 1%Z; loc_end_line := Some 1%Z;
       loc_description := descr;
       loc_level := None; loc_text := None; loc_count := None |}
  end.

Definition aggregated_issue (doc_data : DocSnapshot)
           (kv : nat * ParaData) : Issue :=
  let issue_data := pd_first (snd kv) in
  {| rule_id := rule_id issue_data; rule_name := rule_name issue_data;
     category := category issue_data;
     error_message := error_message issue_data;
     suggestion := suggestion issue_data;
     fix_action := fix_action issue_data;
     fix_params := fix_params issue_data;
     location := paragraph_location doc_data (fst kv);
     locations_list := None; raw_locations := None |}.

(** [_aggregate_run_issues_by_paragraph] *)
Definition _aggregate_run_issues_by_paragraph (run_issues : list Issue)
           (doc_data : DocSnapshot) : list Issue :=
  match run_issues with
  | [] => []
  | _ :: _ =>
    let para_issues := fold_left para_issues_step run_issues [] in
    map (aggregated_issue doc_data) para_issues
  end.

(** [_check_structure_rule] *)
Definition _check_structure_rule (rule : Rule) (doc_data : DocSnapshot)
  : list Issue :=
  let condition := get (r_condition rule) empty_condition in
  let issues :=
    if rule_key_eqb (r_id rule) (RuleName (u"REQUIRED_SECTIONS_CHECK"))
    then
      match get (c_required_sections condition) [] with
      | [] => []
      | required =>
        StructureChecker.check_required_sections doc_data required
      end
    else if rule_key_eqb (r_id rule)
                         (RuleName (u"TOC_BODY_CONSISTENCY"))
    then StructureChecker.check_toc_body_consistency doc_data
    else if rule_key_eqb (r_id rule)
                         (RuleName (u"HEADING_HIERARCHY_CHECK"))
    then StructureChecker.check_heading_hierarchy doc_data
    else [] in
  map (fun issue =>
         {| rule_id := rule_id issue; rule_name := rule_name issue;
            category := category issue;
            error_message := error_message issue;
            suggestion := suggestion issue;
            fix_action := match fix_action issue with
                          | Some a => Some a
                          | None => r_fix_action rule
                          end;
            fix_params := match fix_params issue with
                          | Some a => Some a
                          | None => r_fix_params rule
                          end;
            location := location issue;
            locations_list := locations_list issue;
            raw_locations := raw_locations issue |})
      issues.

(** The targets of a rule which do not match its condition. *)
Definition failing_targets (rule : Rule) (doc_data : DocSnapshot)
  : list Target :=
  let category := r_category rule in
  let match_type := get (r_match rule) (u"document") in
  let condition := get (r_condition rule) empty_condition in
  filter (fun target =>
            negb (_match_condition target condition category match_type))
         (_get_check_targets doc_data match_type category).

(** [_check_rule] *)
Definition _check_rule (rule : Rule) (doc_data : DocSnapshot)
  : list Issue :=
  let category := r_category rule in
  if PyStr.eqb category (u"structure")
  then _check_structure_rule rule doc_data
  else
    let match_type := get (r_match rule) (u"document") in
    let issues :=
      map (fun target => _create_issue rule target match_type)
          (failing_targets rule doc_data) in
    if PyStr.eqb match_type (u"run")
    then _aggregate_run_issues_by_paragraph issues doc_data
    else issues.

(** [check_document_sync]: the merged issues of all rules which are
    not AI-only ([total_issues] is the length of the list). *)
Definition check_document_sync (rules : list Rule) (doc_data : DocSnapshot)
  : list Issue :=
  let issues :=
    flat_map (fun rule =>
                if PyStr.opt_eqb (r_checker rule) (Some (u"ai")) then []
                else _check_rule rule doc_data)
             rules in
  _merge_issues_by_rule issues.

End Matchers.

End RuleEngine.

(* ================================================================== *)
(** * RevisionEngine *)

Module RevisionEngine.

(** [if not loc]: the location is the empty dictionary. *)
Definition is_empty_location (loc : Location) : bool :=
  match loc_type loc, loc_index loc, loc_paragraph_index loc,
        loc_page_number loc, loc_start_line loc, loc_end_line loc,
        loc_description loc, loc_level loc, loc_text loc, loc_count loc
  with
  | None, None, None, None, None, None, None, None, None, None => true
  | _, _, _, _, _, _, _, _, _, _ => false
  end.

Section Driver.
(** The working copy of the document together with its reviser. *)
Variable Doc : Type.
(** [_apply_fix reviser issue target_obj]; the target is the
    position of the paragraph in [doc.paragraphs], or [None]. *)
Variable _apply_fix : Doc -> Issue -> option nat -> Doc.
(** [len(doc.paragraphs)], read once before the loop. *)
Variable n_paragraphs : nat.

(** The body of [for loc in locations]. *)
Definition process_location (issue : Issue) (doc : Doc)
           (loc : Location) : Doc :=
  if is_empty_location loc then doc
  else if PyStr.opt_eqb (loc_type loc) (Some (u"document"))
  then _apply_fix doc issue None
  else if PyStr.opt_eqb (loc_type loc) (Some (u"paragraph"))
          || PyStr.opt_eqb (loc_type loc) (Some (u"heading"))
  then
    let para_index :=
      match loc_index loc with
      | Some i => Some i
      | None => loc_paragraph_index loc
      end in
    match para_index with
    | Some i =>
      if i <? n_paragraphs then _apply_fix doc issue (Some i) else doc
    | None => doc
    end
  else doc.

(** The body of [for issue in issues]. *)
Definition process_issue (doc : Doc) (issue : Issue) : Doc :=
  match raw_locations issue with
  | Some (loc :: locs) =>
    fold_left (process_location issue) (loc :: locs) doc
  | _ =>
    let single_location := location issue in
    if PyStr.opt_eqb (loc_type single_location) (Some (u"merged"))
    then
      if PyStr.eqb (category issue) (u"page")
      then _apply_fix doc issue None
      else doc
    else fold_left (process_location issue) [single_location] doc
  end.

(** The loop of [generate_revised_document] over the loaded copy. *)
Definition generate_revised_document (issues : list Issue) (doc : Doc)
  : Doc :=
  fold_left process_issue issues doc.
End Driver.

(** The calls of [_apply_fix] made for a list of issues, in order. *)
Definition FixCall : Type := Issue * option nat.

Definition record_fix (log : list FixCall) (issue : Issue)
           (target : option nat) : list FixCall :=
  log ++ [(issue, target)].

Definition applied_fixes (n_paragraphs : nat) (issues : list Issue)
  : list FixCall :=
  generate_revised_document record_fix n_paragraphs issues [].

(** What [_apply_fix] asks of the reviser for a document-level target
    ([target_obj] is [None]): only the margin correction acts. *)
Inductive ReviserCall :=
| SetPageMargin (top_mm bottom_mm left_mm right_mm : float).

Definition _apply_fix_document (issue : Issue) : list ReviserCall :=
  match fix_action issue with
  | None => []
  | Some action =>
    if PyStr.eqb action (u"set_page_margin") then
      let top := match fix_params issue with
                 | Some p => get (fp_top_mm p) 25.4%float
                 | None => 25.4%float end in
      let bottom := match fix_params issue with
                    | Some p => get (fp_bottom_mm p) 25.4%float
                    | None => 25.4%float end in
      let left := match fix_params issue with
                  | Some p => get (fp_left_mm p) 31.8%float
                  | None => 31.8%float end in
      let right := match fix_params issue with
                   | Some p => get (fp_right_mm p) 31.8%float
                   | None => 31.8%float end in
      [SetPageMargin top bottom left right]
    else []
  end.

End RevisionEngine.

(* ================================================================== *)
(** * Notions used in the statements *)

Section Notions.
Import RuleEngine.

(** All raw locations of a list of merged issues, in order. *)
Definition all_raw_locations (merged : list Issue) : list Location :=
  flat_map (fun m => get (raw_locations m) []) merged.

(** All locations held by [grouped]. *)
Definition grouped_locations (grouped : dict rule_key Group)
  : list Location :=
  flat_map g_locations (dict_values grouped).

(** Every group of [grouped] holds at least one location. *)
Definition groups_inhabited (grouped : dict rule_key Group) : Prop :=
  Forall (fun g => g_locations g <> []) (dict_values grouped).

(** The rule-level fields of an issue. *)
Definition rule_fields (i : Issue)
  : rule_key * str * str * str * str * option str * option FixParams :=
  (rule_id i, rule_name i, category i, error_message i, suggestion i,
   fix_action i, fix_params i).

(** What merging makes of an issue which is alone with its rule id. *)
Definition merge_single (i : Issue) : Issue := build_merged (group_new i).

(** Every entry of [grouped] is filed under its own rule id. *)
Definition keyed (grouped : dict rule_key Group) : Prop :=
  Forall (fun kv => g_rule_id (snd kv) = fst kv) grouped.

(** The condition [abs(actual - expected) > tolerance] on one margin
    side which the condition constrains. *)
Definition side_exceeds (tolerance : float) (m : option Margins)
           (side : (Condition -> option float)
                   * (Margins -> option float))
           (condition : Condition) : Prop :=
  exists expected,
    fst side condition = Some expected
    /\ PrimFloat.ltb tolerance
         (PrimFloat.abs (PrimFloat.sub (margin_of (snd side) m) expected))
       = true.

(** The margins a page rule reads from its target. *)
Definition target_margins (target : Target) : option Margins :=
  match target_page_settings target with
  | Some ps => margins ps
  | None => None
  end.

(** Consecutive pairs [(headings[i-1], headings[i])]. *)
Definition adjacent_pairs (l : list Node) : list (Node * Node) :=
  combine l (tl l).

(** A heading more than one level deeper than the heading before it,
    and not itself of level 1. *)
Definition skips_a_level (pc : Node * Node) : bool :=
  let prev_level := StructureChecker.heading_level (fst pc) in
  let curr_level := StructureChecker.heading_level (snd pc) in
  (1 <? curr_level - prev_level)%Z && negb (curr_level =? 1)%Z.

(** The paragraph of each run target which fails the rule. *)
Definition violating_paragraphs `{UnicodeDB}
           (generic : Target -> Condition -> bool)
           (rule : Rule) (doc_data : DocSnapshot) : list nat :=
  map (fun t => get (n_paragraph_index (node_of t)) 0)
      (failing_targets generic rule doc_data).

(** [issue["location"].get("paragraph_index", 0)] *)
Definition issue_para_idx (i : Issue) : nat :=
  get (loc_paragraph_index (location i)) 0.

(** The [index] entries of the locations of a list of issues. *)
Definition issue_paragraphs (issues : list Issue) : list (option nat) :=
  map (fun i => loc_index (location i)) issues.

(** The issue carries the rule's fields. *)
Definition issue_of_rule (rule : Rule) (i : Issue) : Prop :=
  rule_id i = r_id rule /\ rule_name i = r_name rule
  /\ category i = r_category rule
  /\ fix_action i = r_fix_action rule /\ fix_params i = r_fix_params rule.

(** Every entry of [para_issues] holds an issue satisfying [P]. *)
Definition para_issues_hold (P : Issue -> Prop)
           (para_issues : dict nat ParaData) : Prop :=
  Forall (fun kv => P (pd_first (snd kv))) para_issues.

(** The calls of [_apply_fix] with a document-level target. *)
Definition document_fixes (calls : list RevisionEngine.FixCall)
  : list RevisionEngine.FixCall :=
  filter (fun c => match snd c with None => true | Some _ => false end)
         calls.

Definition is_document_location (loc : Location) : bool :=
  PyStr.opt_eqb (loc_type loc) (Some (u"document")).

(** The number of document-level applications of the fix of one
    issue: one per document-level raw location; without raw locations,
    one for a merged summary of category [page] and one for a single
    document-level location. *)
Definition document_fix_count (issue : Issue) : nat :=
  match raw_locations issue with
  | Some (loc :: locs) =>
    List.length (filter is_document_location (loc :: locs))
  | _ =>
    if PyStr.opt_eqb (loc_type (location issue)) (Some (u"merged"))
    then if PyStr.eqb (category issue) (u"page") then 1 else 0
    else if is_document_location (location issue) then 1 else 0
  end.

(** The locations of one page, in input order. *)
Definition locations_on_page (locations : list Location) (p : Z)
  : list Location :=
  filter (fun l => (get_page_number l =? p)%Z) locations.

(** [pages.get(p, [])] *)
Definition page_locs (pages : dict Z (list Location)) (p : Z)
  : list Location :=
  get (dict_get Z.eqb pages p) [].
End Notions.

(* ================================================================== *)
(** * The loops over consecutive locations, by index *)

(** [scan] and [scan_paragraphs] follow the lists; the loops of the
    source work with the indices [i] and [j].  Here are the loops as
    written, bounded by a number of iterations. *)
Section IndexLoops.
Variable key : Location -> nat.
Variable emit : list Location -> list str.

(** [unique_locs[i:j]] *)
Definition slice (ul : list Location) (i j : nat) : list Location :=
  firstn (j - i) (skipn i ul).

(** The inner loop [while j < len(unique_locs)]; the result is the
    final value of [j]. *)
Fixpoint inner_while (fuel : nat) (ul : list Location)
         (start_idx i j : nat) : nat :=
  match fuel with
  | 0 => j
  | S fuel' =>
    match nth_error ul j with
    | None => j
    | Some next =>
      if key next =? start_idx + (j - i)
      then inner_while fuel' ul start_idx i (S j)
      else j
    end
  end.

(** The outer loop [while i < len(unique_locs)]. *)
Fixpoint outer_while (fuel : nat) (ul : list Location) (i : nat)
  : list str :=
  match fuel with
  | 0 => []
  | S fuel' =>
    match nth_error ul i with
    | None => []
    | Some first =>
      let j := inner_while (List.length ul) ul (key first) i (i + 1) in
      emit (slice ul i j) ++ outer_while fuel' ul j
    end
  end.

(** The number of elements the inner loop accepts from [rest], [off]
    being the offset [j - i] of the first of them. *)
Fixpoint run_length (start_idx off : nat) (rest : list Location) : nat :=
  match rest with
  | [] => 0
  | x :: rest' =>
    if key x =? start_idx + off
    then S (run_length start_idx (S off) rest')
    else 0
  end.
End IndexLoops.

(** The loops of [_merge_consecutive_paragraphs]: the inner loop also
    carries [end_line]. *)
Fixpoint inner_while_paragraphs (fuel : nat) (ul : list Location)
         (start_idx i j : nat) (end_line : Z) : nat * Z :=
  match fuel with
  | 0 => (j, end_line)
  | S fuel' =>
    match nth_error ul j with
    | None => (j, end_line)
    | Some next =>
      if (RuleEngine.get_index next =? start_idx + (j - i))
         && (RuleEngine.get_start_line next =? end_line + 1)%Z
      then inner_while_paragraphs fuel' ul start_idx i (S j)
                                  (RuleEngine.get_end_line next)
      else (j, end_line)
    end
  end.

Fixpoint outer_while_paragraphs (fuel : nat) (ul : list Location) (i : nat)
  : list str :=
  match fuel with
  | 0 => []
  | S fuel' =>
    match nth_error ul i with
    | None => []
    | Some first =>
      let '(j, end_line) :=
        inner_while_paragraphs (List.length ul) ul
          (RuleEngine.get_index first) i (i + 1)
          (RuleEngine.get_end_line first) in
      RuleEngine.emit_paragraphs end_line (slice ul i j)
      ++ outer_while_paragraphs fuel' ul j
    end
  end.

Fixpoint run_length_paragraphs (start_idx off : nat) (end_line : Z)
         (rest : list Location) : nat * Z :=
  match rest with
  | [] => (0, end_line)
  | x :: rest' =>
    if (RuleEngine.get_index x =? start_idx + off)
       && (RuleEngine.get_start_line x =? end_line + 1)%Z
    then let '(n, e) :=
           run_length_paragraphs start_idx (S off)
                                 (RuleEngine.get_end_line x) rest' in
         (S n, e)
    else (0, end_line)
  end.

(* ================================================================== *)
(** * Sample inputs *)

(** An issue list with a single issue, located at the second paragraph. *)
Definition one_paragraph_issue : Issue :=
  {| rule_id := RuleName (u"FONT_CHECK"); rule_name := u"字体检查";
     category := u"font"; error_message := u"字体错误";
     suggestion := u"修改字体"; fix_action := None; fix_params := None;
     location :=
       {| loc_type := Some (u"paragraph"); loc_index := Some 1;
          loc_paragraph_index := None; loc_page_number := None;
          loc_start_line := None; loc_end_line := None;
          loc_description := Some (u"第1段"); loc_level := None;
          loc_text := None; loc_count := None |};
     locations_list := None; raw_locations := None |}.


(** A snapshot with nothing but the given headings. *)
Definition doc_of_headings (hs : list Node) : DocSnapshot :=
  {| page_settings := None; paragraphs := []; runs := []; headings := hs;
     tables := []; figures := []; table_of_contents := None |}.

Definition heading_of_level (l : Z) : Node :=
  {| n_type := None; n_index := None; n_paragraph_index := None;
     n_text := Some (u"H"); n_font := None; n_formatting := None;
     n_level := Some l; n_alignment := None; n_page_number := None;
     n_start_line := None; n_end_line := None;
     n_caption_position := None; n_caption := None |}.

Definition doc_of_levels (levels : list Z) : DocSnapshot :=
  doc_of_headings (map heading_of_level levels).

(** A document whose only setting is its top margin. *)
Definition doc_with_top_margin (top : float) : Target :=
  TDoc {| page_settings :=
            Some {| paper_size := None;
                    margins := Some {| m_top_mm := Some top;
                                       m_bottom_mm := None;
                                       m_left_mm := None;
                                       m_right_mm := None |} |};
          paragraphs := []; runs := []; headings := [];
          tables := []; figures := []; table_of_contents := None |}.

(** Top margin 25.4 mm, tolerance 2 mm. *)
Definition top_margin_condition : Condition :=
  {| c_tolerance_mm := Some 2%float; c_top_mm := Some 25.4%float;
     c_bottom_mm := None; c_left_mm := None; c_right_mm := None;
     c_paper_name := None; c_width_mm := None; c_height_mm := None;
     c_chinese_font := None; c_english_font := None;
     c_chinese_size_pt := None; c_english_size_pt := None;
     c_first_line_indent_chars := None; c_paragraph_line_spacing := None;
     c_number_style := None; c_levels := []; c_caption_position := None;
     c_caption_prefix := None; c_required := None;
     c_citation_style := None; c_required_sections := None |}.

(** A run of Chinese text whose font name could not be resolved. *)
Definition unresolved_run : Target :=
  TNode {| n_type := None; n_index := None; n_paragraph_index := Some 0;
           n_text := Some (u"这是正文内容");
           n_font := Some {| font_name := None;
                             font_size_pt := Some 12%float;
                             font_bold := None |};
           n_formatting := None; n_level := None; n_alignment := None;
           n_page_number := Some 1%Z; n_start_line := None;
           n_end_line := None; n_caption_position := None;
           n_caption := None |}.

(** Body text in SimSun, 14 pt. *)
Definition simsun_condition : Condition :=
  {| c_tolerance_mm := None; c_top_mm := None; c_bottom_mm := None;
     c_left_mm := None; c_right_mm := None; c_paper_name := None;
     c_width_mm := None; c_height_mm := None;
     c_chinese_font := Some (u"SimSun"); c_english_font := None;
     c_chinese_size_pt := Some 14%float; c_english_size_pt := None;
     c_first_line_indent_chars := None; c_paragraph_line_spacing := None;
     c_number_style := None; c_levels := []; c_caption_position := None;
     c_caption_prefix := None; c_required := None;
     c_citation_style := None; c_required_sections := None |}.

(** A generic matcher for evaluating examples. *)
Definition generic_pass (_ : Target) (_ : Condition) : bool := true.

(** A body paragraph and runs of Chinese text set in Arial 12 pt. *)
Definition body_paragraph : Node :=
  {| n_type := None; n_index := Some 0; n_paragraph_index := None;
     n_text := Some (u"这是正文内容"); n_font := None;
     n_formatting := None; n_level := None; n_alignment := None;
     n_page_number := Some 1%Z; n_start_line := Some 1%Z;
     n_end_line := Some 2%Z; n_caption_position := None;
     n_caption := None |}.

Definition arial_run : Node :=
  {| n_type := None; n_index := None; n_paragraph_index := Some 0;
     n_text := Some (u"这是正文内容");
     n_font := Some {| font_name := Some (u"Arial");
                       font_size_pt := Some 12%float;
                       font_bold := Some false |};
     n_formatting := None; n_level := None; n_alignment := None;
     n_page_number := Some 1%Z; n_start_line := None; n_end_line := None;
     n_caption_position := None; n_caption := None |}.

(** One paragraph made of [n] runs, all in Arial. *)
Definition doc_of_arial_runs (n : nat) : DocSnapshot :=
  {| page_settings := None; paragraphs := [body_paragraph];
     runs := repeat arial_run n; headings := [];
     tables := []; figures := []; table_of_contents := None |}.

Definition body_font_rule : Rule :=
  {| r_id := RuleName (u"FONT_BODY_SONGTI"); r_name := u"正文字体字号检查";
     r_category := u"font"; r_match := Some (u"run");
     r_condition := Some simsun_condition;
     r_error_message := Some (u"正文应使用SimSun 14pt字体");
     r_suggestion := Some (u"请将正文字体设置为SimSun，字号14pt");
     r_fix_action := None; r_fix_params := None;
     r_checker := Some (u"deterministic") |}.

(** The margin rule of the rule base, with its fix. *)
Definition margin_rule : Rule :=
  {| r_id := RuleName (u"PAGE_MARGIN_25"); r_name := u"页边距检查";
     r_category := u"page"; r_match := Some (u"document");
     r_condition := Some top_margin_condition;
     r_error_message := Some (u"页边距不符合规范");
     r_suggestion := Some (u"请设置页边距");
     r_fix_action := Some (u"set_page_margin");
     r_fix_params :=
       Some {| fp_top_mm := Some 25.4%float; fp_bottom_mm := Some 25.4%float;
               fp_left_mm := Some 31.8%float; fp_right_mm := Some 31.8%float;
               fp_first_line_indent_chars := None; fp_levels := [];
               fp_chinese_font := None; fp_size_pt := None;
               fp_original := None; fp_correction := None;
               fp_original_ref := None; fp_suggested_ref := None |};
     r_checker := Some (u"deterministic") |}.

(** A document with a top margin of 10 mm. *)
Definition narrow_margin_doc : DocSnapshot :=
  {| page_settings :=
       Some {| paper_size := None;
               margins := Some {| m_top_mm := Some 10%float;
                                  m_bottom_mm := None; m_left_mm := None;
                                  m_right_mm := None |} |};
     paragraphs := []; runs := []; headings := [];
     tables := []; figures := []; table_of_contents := None |}.

(** A rule requiring two sections. *)
Definition required_sections_rule : Rule :=
  {| r_id := RuleName (u"REQUIRED_SECTIONS_CHECK"); r_name := u"必要章节检查";
     r_category := u"structure"; r_match := Some (u"document");
     r_condition :=
       Some {| c_tolerance_mm := None; c_top_mm := None;
               c_bottom_mm := None; c_left_mm := None; c_right_mm := None;
               c_paper_name := None; c_width_mm := None;
               c_height_mm := None; c_chinese_font := None;
               c_english_font := None; c_chinese_size_pt := None;
               c_english_size_pt := None;
               c_first_line_indent_chars := None;
               c_paragraph_line_spacing := None; c_number_style := None;
               c_levels := []; c_caption_position := None;
               c_caption_prefix := None; c_required := None;
               c_citation_style := None;
               c_required_sections := Some [u"摘要"; u"参考文献"] |};
     r_error_message := None; r_suggestion := None;
     r_fix_action := None; r_fix_params := None;
     r_checker := Some (u"deterministic") |}.

(** A snapshot without table of contents, and one whose table of
    contents has no entry. *)
Definition doc_without_toc : DocSnapshot := doc_of_levels [1; 3]%Z.

Definition doc_with_empty_toc : DocSnapshot :=
  {| page_settings := None; paragraphs := []; runs := [];
     headings := [heading_of_level 1];
     tables := []; figures := [];
     table_of_contents :=
       Some {| toc_exists := Some true; toc_entries := [] |} |}.

(** A level-1 heading whose font size could not be resolved, and a
    heading rule for level 1. *)
Definition unresolved_heading : Target :=
  TNode {| n_type := None; n_index := None; n_paragraph_index := Some 0;
           n_text := Some (u"概述");
           n_font := Some {| font_name := Some (u"Arial");
                             font_size_pt := None;
                             font_bold := Some false |};
           n_formatting := None; n_level := Some 1%Z;
           n_alignment := Some (u"left"); n_page_number := None;
           n_start_line := None; n_end_line := None;
           n_caption_position := None; n_caption := None |}.

Definition heading_condition : Condition :=
  {| c_tolerance_mm := None; c_top_mm := None; c_bottom_mm := None;
     c_left_mm := None; c_right_mm := None; c_paper_name := None;
     c_width_mm := None; c_height_mm := None; c_chinese_font := None;
     c_english_font := None; c_chinese_size_pt := None;
     c_english_size_pt := None; c_first_line_indent_chars := None;
     c_paragraph_line_spacing := None; c_number_style := None;
     c_levels := [(u"level1",
                   {| lc_font := Some (u"SimHei");
                      lc_size_pt := Some 18%float;
                      lc_bold := Some true;
                      lc_alignment := Some (u"center") |})];
     c_caption_position := None; c_caption_prefix := None;
     c_required := None; c_citation_style := None;
     c_required_sections := None |}.

(** Inputs of the unit tests of the repository. *)
Definition run_location (paragraph_index : nat) : Location :=
  {| loc_type := Some (u"run"); loc_index := None;
     loc_paragraph_index := Some paragraph_index; loc_page_number := None;
     loc_start_line := None; loc_end_line := None;
     loc_description := None; loc_level := None; loc_text := None;
     loc_count := None |}.

Definition paragraph_issue (index : nat) : Issue :=
  {| rule_id := RuleName (u"FONT_CHECK"); rule_name := u"字体检查";
     category := u"font"; error_message := u"字体错误";
     suggestion := u"修改字体"; fix_action := None; fix_params := None;
     location :=
       {| loc_type := Some (u"paragraph"); loc_index := Some index;
          loc_paragraph_index := None; loc_page_number := None;
          loc_start_line := None; loc_end_line := None;
          loc_description := Some (u"第" ++ PyStr.of_nat index ++ u"段");
          loc_level := None; loc_text := None; loc_count := None |};
     locations_list := None; raw_locations := None |}.

Definition text_target (font : str) (size : float) : Target :=
  TNode {| n_type := None; n_index := None; n_paragraph_index := None;
           n_text := Some (u"测试文本");
           n_font := Some {| font_name := Some font;
                             font_size_pt := Some size;
                             font_bold := Some false |};
           n_formatting := None; n_level := None; n_alignment := None;
           n_page_number := None; n_start_line := None; n_end_line := None;
           n_caption_position := None; n_caption := None |}.

Definition margins_target (top : float) : Target :=
  TDoc {| page_settings :=
            Some {| paper_size := None;
                    margins := Some {| m_top_mm := Some top;
                                       m_bottom_mm := Some 25.4%float;
                                       m_left_mm := Some 31.7%float;
                                       m_right_mm := Some 31.7%float |} |};
          paragraphs := []; runs := []; headings := [];
          tables := []; figures := []; table_of_contents := None |}.

Definition margins_condition : Condition :=
  {| c_tolerance_mm := Some 2%float; c_top_mm := Some 25.4%float;
     c_bottom_mm := Some 25.4%float; c_left_mm := Some 31.7%float;
     c_right_mm := Some 31.7%float;
     c_paper_name := None; c_width_mm := None; c_height_mm := None;
     c_chinese_font := None; c_english_font := None;
     c_chinese_size_pt := None; c_english_size_pt := None;
     c_first_line_indent_chars := None; c_paragraph_line_spacing := None;
     c_number_style := None; c_levels := []; c_caption_position := None;
     c_caption_prefix := None; c_required := None;
     c_citation_style := None; c_required_sections := None |}.

Definition heading_node (text : str) (level : Z) (paragraph_index : nat)
  : Node :=
  {| n_type := None; n_index := None;
     n_paragraph_index := Some paragraph_index;
     n_text := Some text; n_font := None; n_formatting := None;
     n_level := Some level; n_alignment := None; n_page_number := None;
     n_start_line := None; n_end_line := None;
     n_caption_position := None; n_caption := None |}.

Definition toc_entry (title : str) (level : Z) : TocEntry :=
  {| te_title := Some title; te_level := Some level;
     te_page_number := Some 1%Z; te_paragraph_index := Some 1 |}.

Definition doc_with_toc (hs : list Node) (entries : list TocEntry)
  : DocSnapshot :=
  {| page_settings := None; paragraphs := []; runs := []; headings := hs;
     tables := []; figures := [];
     table_of_contents :=
       Some {| toc_exists := Some true; toc_entries := entries |} |}.

Definition paragraph_location_at (index : nat) (start_line end_line : Z)
  : Location :=
  {| loc_type := Some (u"paragraph"); loc_index := Some index;
     loc_paragraph_index := None; loc_page_number := Some 2%Z;
     loc_start_line := Some start_line; loc_end_line := Some end_line;
     loc_description := None; loc_level := None; loc_text := None;
     loc_count := None |}.

Definition heading_location_of (text : str) : Location :=
  {| loc_type := Some (u"heading"); loc_index := None;
     loc_paragraph_index := None; loc_page_number := None;
     loc_start_line := None; loc_end_line := None;
     loc_description := Some (u"标题: " ++ text); loc_level := Some 1%Z;
     loc_text := Some text; loc_count := None |}.

(** A section target (as [_extract_sections] builds it) whose text has
    no number, and a condition asking for numbered sections. *)
Definition unnumbered_section : Target :=
  TNode {| n_type := Some (u"section"); n_index := None;
           n_paragraph_index := Some 0; n_text := Some (u"Overview");
           n_font := None; n_formatting := None; n_level := Some 1%Z;
           n_alignment := None; n_page_number := None;
           n_start_line := None; n_end_line := None;
           n_caption_position := None; n_caption := None |}.

Definition numbering_condition : Condition :=
  {| c_tolerance_mm := None; c_top_mm := None; c_bottom_mm := None;
     c_left_mm := None; c_right_mm := None; c_paper_name := None;
     c_width_mm := None; c_height_mm := None; c_chinese_font := None;
     c_english_font := None; c_chinese_size_pt := None;
     c_english_size_pt := None; c_first_line_indent_chars := None;
     c_paragraph_line_spacing := None;
     c_number_style := Some (u"decimal"); c_levels := [];
     c_caption_position := None; c_caption_prefix := None;
     c_required := None; c_citation_style := None;
     c_required_sections := None |}.

(** A stored margin issue without raw locations: only the merged
    summary of three locations is left. *)
Definition summary_only_issue : Issue :=
  {| rule_id := RuleName (u"PAGE_MARGIN_25"); rule_name := u"页边距检查";
     category := u"page"; error_message := u"页边距不符合规范";
     suggestion := u"请设置页边距";
     fix_action := Some (u"set_page_margin"); fix_params := None;
     location := RuleEngine._merge_locations
                   [empty_location; empty_location; empty_location];
     locations_list := None; raw_locations := None |}.

Definition document_location : Location :=
  {| loc_type := Some (u"document"); loc_index := None;
     loc_paragraph_index := None; loc_page_number := None;
     loc_start_line := None; loc_end_line := None;
     loc_description := Some (u"文档整体设置"); loc_level := None;
     loc_text := None; loc_count := None |}.

(** A margin issue with a single raw location. *)
Definition single_location_issue : Issue :=
  {| rule_id := RuleName (u"PAGE_MARGIN_25"); rule_name := u"页边距检查";
     category := u"page"; error_message := u"页边距不符合规范";
     suggestion := u"请设置页边距";
     fix_action := Some (u"set_page_margin"); fix_params := None;
     location := RuleEngine._merge_locations [document_location];
     locations_list := None;
     raw_locations := Some [document_location] |}.

(* ================================================================== *)
(** * Further notions *)

Section MoreNotions.
Import RuleEngine.

(** The input issues filed under one rule id, in input order. *)
Definition issues_of_rule (k : rule_key) (issues : list Issue)
  : list Issue :=
  filter (fun i => rule_key_eqb (rule_id i) k) issues.

(** A group to which further locations have been appended. *)
Definition group_extend (g : Group) (ls : list Location) : Group :=
  {| g_rule_id := g_rule_id g; g_rule_name := g_rule_name g;
     g_category := g_category g; g_error_message := g_error_message g;
     g_suggestion := g_suggestion g; g_fix_action := g_fix_action g;
     g_fix_params := g_fix_params g;
     g_locations := g_locations g ++ ls |}.

(** The group the grouping loop builds for one rule id. *)
Definition group_of_rule (k : rule_key) (issues : list Issue)
  : option Group :=
  match issues_of_rule k issues with
  | [] => None
  | first :: rest => Some (group_extend (group_new first) (map location rest))
  end.

(** The distinct rule ids of a list, in the order of their first
    occurrence. *)
Fixpoint first_occurrences (seen ids : list rule_key) : list rule_key :=
  match ids with
  | [] => []
  | k :: ids' =>
    if existsb (rule_key_eqb k) seen then first_occurrences seen ids'
    else k :: first_occurrences (k :: seen) ids'
  end.

(** The sum of the [total] entries of a display list. *)
Definition sum_totals (groups : list PageGroup) : nat :=
  fold_right (fun g acc => total g + acc) 0 groups.

(** The display strings of [_merge_consecutive_runs] and
    [_merge_consecutive_figures] as a function of the indices alone;
    [unit_] is the counter word that ends every string. *)
Section KeyStrings.
Variable unit_ : str.

Definition emit_keys (cur : list nat) : list str :=
  if 3 <=? List.length cur then
    match cur with
    | [] => []
    | n :: _ =>
      [u"第" ++ PyStr.of_nat (n + 1) ++ u"~"
        ++ PyStr.of_nat (match rev cur with m :: _ => m | [] => 0 end + 1)
        ++ unit_]
    end
  else map (fun n => u"第" ++ PyStr.of_nat (n + 1) ++ unit_) cur.

Fixpoint scan_keys (start : nat) (cur rest : list nat) : list str :=
  match rest with
  | [] => emit_keys cur
  | n :: rest' =>
    if n =? start + List.length cur then scan_keys start (cur ++ [n]) rest'
    else emit_keys cur ++ scan_keys n [n] rest'
  end.

Definition merge_loop_keys (keys : list nat) : list str :=
  match keys with
  | [] => []
  | n :: rest => scan_keys n [n] rest
  end.
End KeyStrings.

Fixpoint dedupe_keys (seen keys : list nat) : list nat :=
  match keys with
  | [] => []
  | n :: keys' =>
    if existsb (Nat.eqb n) seen then dedupe_keys seen keys'
    else n :: dedupe_keys (n :: seen) keys'
  end.

(** The sorted list of the distinct indices. *)
Definition distinct_sorted_keys (keys : list nat) : list nat :=
  dedupe_keys [] (sorted Nat.leb keys).
End MoreNotions.

(** A figure location as [_build_location] builds it. *)
Definition figure_location (index : nat) : Location :=
  {| loc_type := Some (u"figure"); loc_index := Some index;
     loc_paragraph_index := None; loc_page_number := None;
     loc_start_line := None; loc_end_line := None;
     loc_description := Some (u"第" ++ PyStr.of_nat (index + 1) ++ u"个图表");
     loc_level := None; loc_text := None; loc_count := None |}.

(** The rule ids under which the structure checker files its issues. *)
Definition structure_issue_ids : list rule_key :=
  map RuleName
      [u"REQUIRED_SECTION_MISSING"; u"TOC_MISSING"; u"TOC_EMPTY";
       u"TOC_ENTRY_NOT_FOUND"; u"TOC_LEVEL_MISMATCH"; u"HEADING_NOT_IN_TOC";
       u"HEADING_LEVEL_JUMP"].

(** An issue as the structure checker files it: one of its own rule
    ids, category [structure] and no fix of its own. *)
Definition checker_issue (i : Issue) : Prop :=
  In (rule_id i) structure_issue_ids
  /\ category i = u"structure"
  /\ fix_action i = None
  /\ fix_params i = None.

(** A table of contents and the body headings agree on titles and
    levels, entry by entry. *)
Definition toc_mirrors_headings (t : Toc) (doc : DocSnapshot) : Prop :=
  map (fun e => (te_title e, te_level e)) (toc_entries t)
  = map (fun h => (n_text h, n_level h)) (headings doc).

(** The two title dictionaries have the same keys in the same order
    and the same level under each key. *)
Definition same_titles
           (toc_titles : dict str StructureChecker.TocData)
           (body_titles : dict str StructureChecker.BodyData) : Prop :=
  Forall2 (fun x y => fst x = fst y
                      /\ StructureChecker.td_level (snd x)
                         = StructureChecker.bd_level (snd y))
          toc_titles body_titles.

(** The paragraph on which the fix of an issue found at [target] is
    applied, for a rule matched on [match_type]: [None] stands for the
    document as a whole, and no entry for no fix. *)
Definition fix_target (n_paragraphs : nat) (match_type : str)
           (target : Target) : list (option nat) :=
  if PyStr.eqb match_type (u"document") then [None]
  else if PyStr.eqb match_type (u"paragraph") then
    let idx := get (n_index (RuleEngine.node_of target)) 0 in
    if idx <? n_paragraphs then [Some idx] else []
  else if PyStr.eqb match_type (u"heading") then
    match n_paragraph_index (RuleEngine.node_of target) with
    | Some i => if i <? n_paragraphs then [Some i] else []
    | None => []
    end
  else [].

(** An issue as a rule check returns it: without raw locations and
    with a location of its own. *)
Definition unmerged (i : Issue) : Prop :=
  raw_locations i = None /\ loc_type (location i) <> Some (u"merged").

(** The target of a call of [_apply_fix] is an existing paragraph or
    the document. *)
Definition target_exists (n_paragraphs : nat) (target : option nat) : Prop :=
  match target with
  | Some k => k < n_paragraphs
  | None => True
  end.

(** An existing paragraph. *)
Definition in_document (n_paragraphs : nat) (target : option nat) : bool :=
  match target with
  | Some k => k <? n_paragraphs
  | None => false
  end.

(** The categories which have a condition evaluator of their own. *)
Definition evaluated_categories : list str :=
  [u"page"; u"font"; u"paragraph"; u"heading"; u"figure"; u"other"].

(** A run holding digits only. *)
Definition digits_run : Target :=
  TNode {| n_type := None; n_index := None; n_paragraph_index := Some 0;
           n_text := Some (u"2024");
           n_font := Some {| font_name := Some (u"Arial");
                             font_size_pt := Some 9%float;
                             font_bold := Some false |};
           n_formatting := None; n_level := None; n_alignment := None;
           n_page_number := Some 1%Z; n_start_line := None;
           n_end_line := None; n_caption_position := None;
           n_caption := None |}.

(** A font rule without condition. *)
Definition unconstrained_rule : Rule :=
  {| r_id := RuleName (u"FONT_ANY"); r_name := u"字体检查";
     r_category := u"font"; r_match := Some (u"run");
     r_condition := None; r_error_message := None; r_suggestion := None;
     r_fix_action := None; r_fix_params := None; r_checker := None |}.

(** * The asynchronous check *)



Section AsyncCheck.
Context `{UnicodeDB}.
Variable _match_generic_condition : Target -> Condition -> bool.
(** [self.enable_ai and self.ai_checker and self.ai_checker.is_enabled()] *)
Variable ai_available : bool.
(** What [await self.ai_checker.check_rule(doc_data, rule)] returns at
    its n-th call. *)
Variable ai_check_rule : nat -> DocSnapshot -> Rule -> list Issue.
Variable doc_data : DocSnapshot.




End AsyncCheck.

(** A line spacing of 28 pt. *)
Definition line_spacing_condition : Condition :=
  {| c_tolerance_mm := None; c_top_mm := None; c_bottom_mm := None;
     c_left_mm := None; c_right_mm := None; c_paper_name := None;
     c_width_mm := None; c_height_mm := None; c_chinese_font := None;
     c_english_font := None; c_chinese_size_pt := None;
     c_english_size_pt := None; c_first_line_indent_chars := None;
     c_paragraph_line_spacing := Some 28%float; c_number_style := None;
     c_levels := []; c_caption_position := None; c_caption_prefix := None;
     c_required := None; c_citation_style := None;
     c_required_sections := None |}.

(** A condition requiring the given headings. *)
Definition required_condition (required : list str) : Condition :=
  {| c_tolerance_mm := None; c_top_mm := None; c_bottom_mm := None;
     c_left_mm := None; c_right_mm := None; c_paper_name := None;
     c_width_mm := None; c_height_mm := None; c_chinese_font := None;
     c_english_font := None; c_chinese_size_pt := None;
     c_english_size_pt := None; c_first_line_indent_chars := None;
     c_paragraph_line_spacing := None; c_number_style := None;
     c_levels := []; c_caption_position := None; c_caption_prefix := None;
     c_required := Some required; c_citation_style := None;
     c_required_sections := None |}.

(** The characters which a normalised title never holds: white space,
    the ideographic space and the listed punctuation marks. *)
Definition normalized_away `{UnicodeDB} (c : PyStr.char) : bool :=
  isspace c || (c =? 12288)%N || PyStr.mem c (u"，。、；：！？").

(** The display string of a single paragraph location. *)
Definition paragraph_string (k : Location) : str :=
  let s := RuleEngine.get_start_line k in
  let e := RuleEngine.get_end_line k in
  if (s =? e)%Z
  then u"第" ++ PyStr.of_nat (RuleEngine.get_index k + 1) ++ u"段(第"
         ++ PyStr.of_Z s ++ u"行)"
  else u"第" ++ PyStr.of_nat (RuleEngine.get_index k + 1) ++ u"段("
         ++ PyStr.of_Z s ++ u"~" ++ PyStr.of_Z e ++ u"行)".

(** No location starts on the line after the one another location
    ends on. *)
Definition lines_apart (locs : list Location) : Prop :=
  forall y z, In y locs -> In z locs ->
              RuleEngine.get_start_line y
              <> (RuleEngine.get_end_line z + 1)%Z.

(* ================================================================== *)
(** * Equality tests *)

Lemma pystr_eqb_eq a b : PyStr.eqb a b = true <-> a = b.
Proof.
  unfold PyStr.eqb. destruct (list_eq_dec N.eq_dec a b); split; congruence.
Qed.

Lemma pystr_eqb_refl a : PyStr.eqb a a = true.
Proof. now apply pystr_eqb_eq. Qed.

Lemma rule_key_eqb_eq a b : rule_key_eqb a b = true <-> a = b.
Proof.
  destruct a, b; simpl; split; intro E; try discriminate.
  - apply pystr_eqb_eq in E. now subst.
  - apply pystr_eqb_eq. congruence.
  - apply Z.eqb_eq in E. now subst.
  - apply Z.eqb_eq. congruence.
Qed.

(* ================================================================== *)
(** * The embedding on the inputs of the repository's tests *)

(** [test_merge_consecutive_runs] *)
Example merge_consecutive_runs_test :
  RuleEngine._merge_consecutive_runs (map run_location [1; 2; 3; 5])
  = [u"第2~4段"; u"第6段"].
Proof. vm_compute. reflexivity. Qed.

(** Three paragraphs with contiguous line ranges collapse; a fourth
    one after a gap is listed by itself. *)
Example merge_consecutive_paragraphs_test :
  RuleEngine._merge_consecutive_paragraphs
    [paragraph_location_at 0 1 2; paragraph_location_at 1 3 3;
     paragraph_location_at 2 4 6; paragraph_location_at 3 8 8]
  = [u"第1~3段(第1~6行)"; u"第4段(第8行)"].
Proof. vm_compute. reflexivity. Qed.

(** Twenty-one headings on one page: twenty are shown. *)
Example locations_list_overflow_test :
  map (fun g => (page g, List.length (items g), List.length (all_items g),
                 total g, has_more g))
      (RuleEngine._build_locations_list
         (repeat (heading_location_of (u"概述")) 21))
  = [(1%Z, 20, 21, 21, true)].
Proof. vm_compute. reflexivity. Qed.

(** [test_merge_issues_by_rule] *)
Example merge_issues_by_rule_test :
  exists merged,
    RuleEngine._merge_issues_by_rule [paragraph_issue 1; paragraph_issue 2]
    = [merged]
    /\ rule_id merged = RuleName (u"FONT_CHECK")
    /\ option_map (@List.length Location) (raw_locations merged) = Some 2.
Proof. eexists. split; [reflexivity|]. split; reflexivity. Qed.

(** [test_match_font_condition] *)
Example match_font_condition_test :
  @RuleEngine._match_font_condition ascii_db
     (text_target (u"SimSun") 14) simsun_condition = true
  /\ @RuleEngine._match_font_condition ascii_db
       (text_target (u"Arial") 14) simsun_condition = false.
Proof. split; vm_compute; reflexivity. Qed.

(** [test_match_page_condition] *)
Example match_page_condition_test :
  RuleEngine._match_page_condition (margins_target 25.4) margins_condition
  = true
  /\ RuleEngine._match_page_condition (margins_target 20) margins_condition
     = false.
Proof. split; vm_compute; reflexivity. Qed.

(** Title normalisation strips enumerators, white space and
    punctuation. *)
Example normalize_title_test :
  @StructureChecker._normalize_title ascii_db (u"1. Overview") = u"Overview"
  /\ @StructureChecker._normalize_title ascii_db (u"一、项目概述")
     = u"项目概述"
  /\ @StructureChecker._normalize_title ascii_db (u"（一） 概述") = u"概述".
Proof. repeat split; vm_compute; reflexivity. Qed.

(** A TOC entry matching a numbered body heading raises nothing; a TOC
    entry without body heading raises one not-found issue. *)
Example toc_matching_test :
  @StructureChecker.check_toc_body_consistency ascii_db
     (doc_with_toc [heading_node (u"1. Overview") 1 3]
                   [toc_entry (u"Overview") 1]) = []
  /\ map rule_id
       (@StructureChecker.check_toc_body_consistency ascii_db
          (doc_with_toc [heading_node (u"Chapter 1") 1 5]
                        [toc_entry (u"Chapter 1") 1;
                         toc_entry (u"Chapter 2") 1]))
     = [RuleName (u"TOC_ENTRY_NOT_FOUND")].
Proof. split; vm_compute; reflexivity. Qed.

(** [test_check_required_sections_missing] *)
Example required_sections_test :
  map error_message
      (@StructureChecker.check_required_sections ascii_db
         (doc_of_headings [heading_node (u"第一章 概述") 1 5;
                           heading_node (u"第二章 详细说明") 1 15])
         [u"概述"; u"详细说明"; u"参考文献"])
  = [u"文档中未找到必要章节：参考文献"].
Proof. vm_compute. reflexivity. Qed.

(* ================================================================== *)
(** * The sorting function is a stable sort *)

Section SortedFacts.
Context {A : Type}.
Variable key : A -> nat.
Let leb (a b : A) : bool := key a <=? key b.

Lemma insert_sorted_perm x l : Permutation (insert_sorted leb x l) (x :: l).
Proof.
  induction l as [|y l IH]; simpl; [reflexivity|].
  destruct (leb x y); [reflexivity|].
  rewrite IH. apply perm_swap.
Qed.

Lemma sorted_perm l : Permutation (sorted leb l) l.
Proof.
  induction l as [|x l IH]; simpl; [reflexivity|].
  now rewrite insert_sorted_perm, IH.
Qed.

Lemma insert_sorted_ordered x l :
  Sorted.Sorted (fun a b => key a <= key b) l ->
  Sorted.Sorted (fun a b => key a <= key b) (insert_sorted leb x l).
Proof.
  induction 1 as [|y l Hs IH Hhd]; simpl.
  - repeat constructor.
  - unfold leb at 1. destruct (key x <=? key y) eqn:E.
    + apply Nat.leb_le in E. repeat constructor; assumption.
    + apply Nat.leb_gt in E. constructor; [exact IH|].
      destruct l as [|z l]; simpl.
      * constructor. lia.
      * unfold leb. destruct (key x <=? key z); constructor; [lia|].
        now inversion Hhd.
Qed.

Lemma sorted_ordered l :
  Sorted.Sorted (fun a b => key a <= key b) (sorted leb l).
Proof.
  induction l as [|x l IH]; simpl; [constructor|].
  now apply insert_sorted_ordered.
Qed.

(** Elements of equal key keep their order. *)
Lemma insert_sorted_stable k x l :
  filter (fun a => key a =? k) (insert_sorted leb x l)
  = filter (fun a => key a =? k) (x :: l).
Proof.
  induction l as [|y l IH]; [reflexivity|].
  cbn [insert_sorted]. unfold leb at 1.
  destruct (key x <=? key y) eqn:E; [reflexivity|].
  apply Nat.leb_gt in E. cbn [filter] in *. rewrite IH.
  destruct (key y =? k) eqn:Ey, (key x =? k) eqn:Ex; try reflexivity.
  apply Nat.eqb_eq in Ey, Ex. lia.
Qed.

Lemma sorted_stable k l :
  filter (fun a => key a =? k) (sorted leb l)
  = filter (fun a => key a =? k) l.
Proof.
  induction l as [|x l IH]; [reflexivity|].
  cbn [sorted]. rewrite insert_sorted_stable. cbn [filter].
  now rewrite IH.
Qed.
End SortedFacts.

(* ================================================================== *)
(** * The list scans are the index loops of the source *)

Section IndexLoopFacts.
Variable key : Location -> nat.
Variable emit : list Location -> list str.

Lemma nth_error_middle {A : Type} (pre : list A) x rest :
  nth_error (pre ++ x :: rest) (List.length pre) = Some x.
Proof. induction pre; simpl; auto. Qed.

Lemma nth_error_end {A : Type} (l : list A) :
  nth_error l (List.length l) = None.
Proof. apply nth_error_None. lia. Qed.

Lemma slice_middle (pre cur rest : list Location) :
  slice (pre ++ cur ++ rest) (List.length pre)
        (List.length pre + List.length cur) = cur.
Proof.
  unfold slice. rewrite skipn_app, Nat.sub_diag, skipn_all, skipn_O.
  simpl. replace (List.length pre + List.length cur - List.length pre)
    with (List.length cur + 0) by lia.
  rewrite firstn_app_2. simpl. apply app_nil_r.
Qed.

Lemma inner_while_spec rest : forall pre cur fuel start_idx,
  List.length rest <= fuel ->
  inner_while key fuel (pre ++ cur ++ rest) start_idx (List.length pre)
              (List.length pre + List.length cur)
  = List.length pre + List.length cur
    + run_length key start_idx (List.length cur) rest.
Proof.
  induction rest as [|x rest IH]; intros pre cur fuel start_idx Hfuel.
  - simpl. rewrite app_nil_r, <- length_app.
    destruct fuel; simpl; [lia|]. rewrite nth_error_end. lia.
  - destruct fuel as [|fuel]; [simpl in Hfuel; lia|].
    cbn [inner_while run_length].
    rewrite app_assoc, <- length_app, nth_error_middle.
    rewrite length_app.
    replace (List.length pre + List.length cur - List.length pre)
      with (List.length cur) by lia.
    destruct (key x =? start_idx + List.length cur); [|lia].
    specialize (IH pre (cur ++ [x]) fuel start_idx).
    rewrite length_app in IH. simpl in IH.
    replace (S (List.length pre + List.length cur))
      with (List.length pre + (List.length cur + 1)) by lia.
    replace ((pre ++ cur) ++ x :: rest) with (pre ++ (cur ++ [x]) ++ rest)
      by (now rewrite <- !app_assoc).
    rewrite IH by (simpl in Hfuel; lia).
    replace (List.length cur + 1) with (S (List.length cur)) by lia. lia.
Qed.

Lemma run_length_le start_idx off rest :
  run_length key start_idx off rest <= List.length rest.
Proof.
  revert off. induction rest as [|x rest IH]; intro off; simpl; [lia|].
  destruct (key x =? start_idx + off); [|lia].
  specialize (IH (S off)). lia.
Qed.

Lemma scan_spec rest : forall start_idx cur,
  RuleEngine.scan key emit start_idx cur rest
  = let n := run_length key start_idx (List.length cur) rest in
    emit (cur ++ firstn n rest)
    ++ RuleEngine.merge_loop key emit (skipn n rest).
Proof.
  induction rest as [|x rest IH]; intros start_idx cur.
  - simpl. now rewrite !app_nil_r.
  - cbn [RuleEngine.scan run_length].
    destruct (key x =? start_idx + List.length cur).
    + rewrite IH. rewrite length_app. simpl.
      replace (List.length cur + 1) with (S (List.length cur)) by lia.
      now rewrite <- app_assoc.
    + simpl. now rewrite app_nil_r.
Qed.

Lemma outer_while_spec fuel : forall pre rest,
  List.length rest <= fuel ->
  outer_while key emit fuel (pre ++ rest) (List.length pre)
  = RuleEngine.merge_loop key emit rest.
Proof.
  induction fuel as [|fuel IH]; intros pre rest Hfuel.
  - destruct rest; [reflexivity|simpl in Hfuel; lia].
  - destruct rest as [|x rest].
    + simpl. now rewrite app_nil_r, nth_error_end.
    + cbn [outer_while RuleEngine.merge_loop].
      rewrite nth_error_middle. cbv zeta.
      pose proof (@inner_while_spec rest pre [x]
                    (List.length (pre ++ x :: rest)) (key x)) as Hin.
      cbn [List.length app] in Hin.
      replace (List.length pre + 1) with (List.length pre + 1) in * by lia.
      rewrite Hin by (rewrite length_app; simpl; lia).
      set (n := run_length key (key x) 1 rest).
      assert (Hn : n <= List.length rest) by apply run_length_le.
      rewrite scan_spec. cbv zeta. cbn [List.length]. fold n.
      assert (Hsplit : pre ++ x :: rest
                       = pre ++ ([x] ++ firstn n rest) ++ skipn n rest).
      { simpl. now rewrite firstn_skipn. }
      rewrite Hsplit at 1.
      replace (List.length pre + 1 + n)
        with (List.length pre + List.length ([x] ++ firstn n rest))
        by (rewrite length_app, length_firstn; simpl; lia).
      rewrite slice_middle. f_equal.
      replace (pre ++ x :: rest)
        with ((pre ++ [x] ++ firstn n rest) ++ skipn n rest)
        by (rewrite <- app_assoc; simpl; now rewrite firstn_skipn).
      replace (List.length pre + List.length ([x] ++ firstn n rest))
        with (List.length (pre ++ [x] ++ firstn n rest))
        by (now rewrite length_app).
      apply IH. rewrite length_skipn. simpl in Hfuel. lia.
Qed.

Lemma run_length_paragraphs_le start_idx rest : forall off end_line,
  fst (run_length_paragraphs start_idx off end_line rest)
  <= List.length rest.
Proof.
  induction rest as [|x rest IH]; intros off end_line; simpl; [lia|].
  destruct (_ && _); [|simpl; lia].
  specialize (IH (S off) (RuleEngine.get_end_line x)).
  destruct (run_length_paragraphs start_idx (S off)
              (RuleEngine.get_end_line x) rest). simpl in *. lia.
Qed.

Lemma inner_while_paragraphs_spec rest :
  forall pre cur fuel start_idx end_line,
  List.length rest <= fuel ->
  inner_while_paragraphs fuel (pre ++ cur ++ rest) start_idx
    (List.length pre) (List.length pre + List.length cur) end_line
  = let '(n, e) :=
      run_length_paragraphs start_idx (List.length cur) end_line rest in
    (List.length pre + List.length cur + n, e).
Proof.
  induction rest as [|x rest IH];
    intros pre cur fuel start_idx end_line Hfuel.
  - simpl. rewrite app_nil_r, <- length_app.
    destruct fuel; simpl; [f_equal; lia|].
    rewrite nth_error_end. f_equal; lia.
  - destruct fuel as [|fuel]; [simpl in Hfuel; lia|].
    cbn [inner_while_paragraphs run_length_paragraphs].
    rewrite app_assoc, <- length_app, nth_error_middle.
    rewrite length_app.
    replace (List.length pre + List.length cur - List.length pre)
      with (List.length cur) by lia.
    destruct (_ && _); [|f_equal; lia].
    specialize (IH pre (cur ++ [x]) fuel start_idx
                   (RuleEngine.get_end_line x)).
    rewrite length_app in IH. simpl in IH.
    replace (S (List.length pre + List.length cur))
      with (List.length pre + (List.length cur + 1)) by lia.
    replace ((pre ++ cur) ++ x :: rest) with (pre ++ (cur ++ [x]) ++ rest)
      by (now rewrite <- !app_assoc).
    rewrite IH by (simpl in Hfuel; lia).
    replace (List.length cur + 1) with (S (List.length cur)) by lia.
    destruct (run_length_paragraphs start_idx (S (List.length cur))
                (RuleEngine.get_end_line x) rest) as [n e].
    f_equal. lia.
Qed.

Lemma scan_paragraphs_spec rest : forall start_idx end_line cur,
  RuleEngine.scan_paragraphs start_idx end_line cur rest
  = let '(n, e) :=
      run_length_paragraphs start_idx (List.length cur) end_line rest in
    RuleEngine.emit_paragraphs e (cur ++ firstn n rest)
    ++ RuleEngine.merge_loop_paragraphs (skipn n rest).
Proof.
  induction rest as [|x rest IH]; intros start_idx end_line cur.
  - simpl. now rewrite !app_nil_r.
  - cbn [RuleEngine.scan_paragraphs run_length_paragraphs].
    destruct (_ && _).
    + rewrite IH. rewrite length_app. simpl.
      replace (List.length cur + 1) with (S (List.length cur)) by lia.
      destruct (run_length_paragraphs start_idx (S (List.length cur))
                  (RuleEngine.get_end_line x) rest) as [n e].
      simpl. now rewrite <- app_assoc.
    + simpl. now rewrite app_nil_r.
Qed.

Lemma outer_while_paragraphs_spec fuel : forall pre rest,
  List.length rest <= fuel ->
  outer_while_paragraphs fuel (pre ++ rest) (List.length pre)
  = RuleEngine.merge_loop_paragraphs rest.
Proof.
  induction fuel as [|fuel IH]; intros pre rest Hfuel.
  - destruct rest; [reflexivity|simpl in Hfuel; lia].
  - destruct rest as [|x rest].
    + simpl. now rewrite app_nil_r, nth_error_end.
    + cbn [outer_while_paragraphs RuleEngine.merge_loop_paragraphs].
      rewrite nth_error_middle.
      pose proof (@inner_while_paragraphs_spec rest pre [x]
                    (List.length (pre ++ x :: rest))
                    (RuleEngine.get_index x) (RuleEngine.get_end_line x))
        as Hin.
      cbn [List.length app] in Hin.
      rewrite Hin by (rewrite length_app; simpl; lia).
      rewrite scan_paragraphs_spec. cbn [List.length].
      pose proof (run_length_paragraphs_le (RuleEngine.get_index x) rest
                    1 (RuleEngine.get_end_line x)) as Hn.
      destruct (run_length_paragraphs (RuleEngine.get_index x) 1
                  (RuleEngine.get_end_line x) rest) as [n e].
      simpl in Hn.
      assert (Hsplit : pre ++ x :: rest
                       = pre ++ ([x] ++ firstn n rest) ++ skipn n rest).
      { simpl. now rewrite firstn_skipn. }
      rewrite Hsplit at 1.
      replace (List.length pre + 1 + n)
        with (List.length pre + List.length ([x] ++ firstn n rest))
        by (rewrite length_app, length_firstn; simpl; lia).
      rewrite slice_middle. f_equal.
      replace (pre ++ x :: rest)
        with ((pre ++ [x] ++ firstn n rest) ++ skipn n rest)
        by (rewrite <- app_assoc; simpl; now rewrite firstn_skipn).
      replace (List.length pre + List.length ([x] ++ firstn n rest))
        with (List.length (pre ++ [x] ++ firstn n rest))
        by (now rewrite length_app).
      apply IH. rewrite length_skipn. simpl in Hfuel. lia.
Qed.

Lemma merge_loop_paragraphs_by_index (unique_locs : list Location) :
  outer_while_paragraphs (List.length unique_locs) unique_locs 0
  = RuleEngine.merge_loop_paragraphs unique_locs.
Proof.
  apply (@outer_while_paragraphs_spec (List.length unique_locs) []
           unique_locs). lia.
Qed.

(** The index loops, given as many iterations as there are locations,
    compute what the scan computes. *)
Lemma merge_loop_by_index (unique_locs : list Location) :
  outer_while key emit (List.length unique_locs) unique_locs 0
  = RuleEngine.merge_loop key emit unique_locs.
Proof.
  apply (@outer_while_spec (List.length unique_locs) [] unique_locs). lia.
Qed.
End IndexLoopFacts.

(* ================================================================== *)
(** * Lemmas on dictionaries *)

Section DictFacts.
Context {K V : Type}.
Variable keq : K -> K -> bool.
Hypothesis keq_eq : forall a b, keq a b = true <-> a = b.

Lemma keq_refl k : keq k k = true.
Proof. now apply keq_eq. Qed.

Lemma keq_neq a b : a <> b -> keq a b = false.
Proof.
  intro N. destruct (keq a b) eqn:E; [|reflexivity].
  apply keq_eq in E. contradiction.
Qed.

Lemma dict_keys_upsert_in (d : dict K V) k f v0 :
  In k (dict_keys d) -> dict_keys (dict_upsert keq d k f v0) = dict_keys d.
Proof.
  induction d as [|[k' v] d IH]; simpl; intro Hin; [contradiction|].
  destruct (keq k k') eqn:E; simpl; [reflexivity|].
  f_equal. apply IH. destruct Hin as [->|Hin]; [|assumption].
  rewrite keq_refl in E. discriminate.
Qed.

Lemma dict_upsert_notin (d : dict K V) k f v0 :
  ~ In k (dict_keys d) -> dict_upsert keq d k f v0 = d ++ [(k, v0)].
Proof.
  induction d as [|[k' v] d IH]; simpl; intro Hnin; [reflexivity|].
  rewrite keq_neq by (intro; apply Hnin; left; congruence).
  f_equal. apply IH. intro; apply Hnin; now right.
Qed.

Lemma dict_keys_upsert_iff (d : dict K V) k f v0 k' :
  In k' (dict_keys (dict_upsert keq d k f v0))
  <-> k' = k \/ In k' (dict_keys d).
Proof.
  induction d as [|[k1 v] d IH]; simpl.
  - intuition.
  - destruct (keq k k1) eqn:E; simpl.
    + apply keq_eq in E. subst. intuition.
    + rewrite IH. intuition.
Qed.

Lemma dict_keys_upsert_nodup (d : dict K V) k f v0 :
  NoDup (dict_keys d) -> NoDup (dict_keys (dict_upsert keq d k f v0)).
Proof.
  induction d as [|[k1 v] d IH]; simpl; intro Hnd.
  - constructor; [intros []|constructor].
  - inversion Hnd as [|? ? Hnin Hnd']; subst.
    destruct (keq k k1) eqn:E; simpl.
    + now constructor.
    + constructor; [|now apply IH].
      rewrite dict_keys_upsert_iff. intros [->|Hin]; [|contradiction].
      rewrite keq_refl in E. discriminate.
Qed.

Lemma dict_get_upsert (d : dict K V) k f v0 k' :
  dict_get keq (dict_upsert keq d k f v0) k'
  = if keq k' k
    then Some match dict_get keq d k with Some v => f v | None => v0 end
    else dict_get keq d k'.
Proof.
  induction d as [|[k1 v] d IH]; simpl.
  - destruct (keq k' k); reflexivity.
  - destruct (keq k k1) eqn:E; simpl.
    + apply keq_eq in E. subst k1.
      destruct (keq k' k); reflexivity.
    + rewrite IH. destruct (keq k' k1) eqn:E1; [|reflexivity].
      apply keq_eq in E1. subst k1.
      destruct (keq k' k) eqn:E2; [|reflexivity].
      apply keq_eq in E2. subst k'. rewrite keq_refl in E. discriminate.
Qed.
End DictFacts.

(* ================================================================== *)
(** * Merging issues by rule: raw locations and summaries *)

Section MergeFacts.
Import RuleEngine.

Lemma grouped_locations_step grouped i :
  Permutation (grouped_locations (group_step grouped i))
              (grouped_locations grouped ++ [location i]).
Proof.
  unfold grouped_locations, group_step.
  induction grouped as [|[k g] d IH]; simpl.
  - reflexivity.
  - destruct (rule_key_eqb (rule_id i) k); simpl.
    + rewrite <- !app_assoc. apply Permutation_app_head.
      apply Permutation_app_comm.
    + rewrite <- app_assoc. now apply Permutation_app_head.
Qed.

Lemma grouped_locations_fold issues grouped :
  Permutation (grouped_locations (fold_left group_step issues grouped))
              (grouped_locations grouped ++ map location issues).
Proof.
  revert grouped. induction issues as [|i issues IH]; intro grouped; simpl.
  - now rewrite app_nil_r.
  - rewrite IH, grouped_locations_step, <- app_assoc. reflexivity.
Qed.

Lemma all_raw_locations_merged (groups : list Group) :
  all_raw_locations (map build_merged groups) = flat_map g_locations groups.
Proof.
  unfold all_raw_locations.
  induction groups as [|g gs IH]; simpl; [reflexivity|].
  now rewrite IH.
Qed.

Lemma groups_inhabited_step grouped i :
  groups_inhabited grouped -> groups_inhabited (group_step grouped i).
Proof.
  unfold groups_inhabited, group_step.
  induction grouped as [|[k g] d IH]; simpl; intro Hall.
  - repeat constructor. discriminate.
  - inversion Hall as [|? ? Hg Hd]; subst.
    destruct (rule_key_eqb (rule_id i) k); simpl.
    + constructor; [|assumption].
      simpl. intro E. now apply app_eq_nil in E as [_ E].
    + constructor; [assumption|now apply IH].
Qed.

Lemma groups_inhabited_fold issues grouped :
  groups_inhabited grouped ->
  groups_inhabited (fold_left group_step issues grouped).
Proof.
  revert grouped. induction issues as [|i issues IH]; simpl; intros; auto.
  apply IH. now apply groups_inhabited_step.
Qed.

(** The summary of a non-empty location list is of type [merged] and
    counts the list. *)
Lemma merge_locations_count locs :
  locs <> [] ->
  loc_type (_merge_locations locs) = Some (u"merged")
  /\ loc_count (_merge_locations locs) = Some (List.length locs).
Proof.
  destruct locs; [congruence|]. intros _. split; reflexivity.
Qed.
End MergeFacts.

(** C1. Merging is lossless: the raw locations of all merged issues,
    taken together, are the locations of the input issues as a
    multiset. *)
Theorem merge_raw_locations_lossless (issues : list Issue) :
  Permutation
    (all_raw_locations (RuleEngine._merge_issues_by_rule issues))
    (map location issues).
Proof.
  unfold RuleEngine._merge_issues_by_rule, RuleEngine.group_issues.
  rewrite all_raw_locations_merged.
  apply (grouped_locations_fold issues []).
Qed.

(** C9. Every merged issue has a summary location of type [merged]
    whose count is the length of the issue's raw location list. *)
Theorem merged_summary_count (issues : list Issue) :
  Forall (fun m =>
            exists locs,
              raw_locations m = Some locs
              /\ loc_type (location m) = Some (u"merged")
              /\ loc_count (location m) = Some (List.length locs))
         (RuleEngine._merge_issues_by_rule issues).
Proof.
  unfold RuleEngine._merge_issues_by_rule, RuleEngine.group_issues.
  assert (Hinh : groups_inhabited (fold_left RuleEngine.group_step issues []))
    by (apply groups_inhabited_fold; constructor).
  unfold groups_inhabited in Hinh.
  induction Hinh as [|g gs Hg _ IH]; simpl; constructor; [|exact IH].
  exists (RuleEngine.g_locations g). split; [reflexivity|].
  now apply merge_locations_count.
Qed.

(* ================================================================== *)
(** * Merging a merged list *)

Section Remerge.
Import RuleEngine.

Lemma keyed_step grouped i : keyed grouped -> keyed (group_step grouped i).
Proof.
  unfold keyed, group_step.
  induction grouped as [|[k g] d IH]; simpl; intro Hall.
  - repeat constructor.
  - inversion Hall as [|? ? Hg Hd]; subst.
    destruct (rule_key_eqb (rule_id i) k); simpl; constructor; auto.
Qed.

Lemma keyed_fold issues grouped :
  keyed grouped -> keyed (fold_left group_step issues grouped).
Proof.
  revert grouped. induction issues as [|i issues IH]; simpl; intros; auto.
  apply IH. now apply keyed_step.
Qed.

Lemma nodup_keys_fold issues grouped :
  NoDup (dict_keys grouped) ->
  NoDup (dict_keys (fold_left group_step issues grouped)).
Proof.
  revert grouped. induction issues as [|i issues IH]; simpl; intros; auto.
  apply IH. unfold group_step.
  now apply (dict_keys_upsert_nodup rule_key_eqb rule_key_eqb_eq).
Qed.

Lemma merged_rule_ids grouped :
  keyed grouped ->
  map rule_id (map build_merged (dict_values grouped)) = dict_keys grouped.
Proof.
  unfold keyed, dict_values, dict_keys.
  induction 1 as [|[k g] d Hg _ IH]; simpl; [reflexivity|].
  simpl in Hg. now rewrite IH, Hg.
Qed.

(** The rule ids of a merged list are pairwise distinct. *)
Lemma merge_rule_ids_nodup issues :
  NoDup (map rule_id (_merge_issues_by_rule issues)).
Proof.
  unfold _merge_issues_by_rule, group_issues.
  rewrite merged_rule_ids by (apply keyed_fold; constructor).
  apply nodup_keys_fold. constructor.
Qed.

(** Grouping issues with pairwise distinct, fresh rule ids appends one
    group per issue. *)
Lemma group_distinct issues grouped :
  NoDup (map rule_id issues) ->
  (forall i, In i issues -> ~ In (rule_id i) (dict_keys grouped)) ->
  fold_left group_step issues grouped
  = grouped ++ map (fun i => (rule_id i, group_new i)) issues.
Proof.
  revert grouped.
  induction issues as [|i issues IH]; simpl; intros grouped Hnd Hfresh.
  - now rewrite app_nil_r.
  - inversion Hnd as [|? ? Hnin Hnd']; subst.
    unfold group_step at 2.
    rewrite (dict_upsert_notin rule_key_eqb rule_key_eqb_eq)
      by (apply Hfresh; now left).
    rewrite IH; [now rewrite <- app_assoc|assumption|].
    intros j Hj. unfold dict_keys. rewrite map_app, in_app_iff. simpl.
    intros [Hin|[E|[]]].
    + apply (Hfresh j); [now right|exact Hin].
    + apply Hnin. rewrite E. now apply in_map.
Qed.

Lemma merge_distinct issues :
  NoDup (map rule_id issues) ->
  _merge_issues_by_rule issues = map merge_single issues.
Proof.
  intro Hnd. unfold _merge_issues_by_rule, group_issues.
  rewrite group_distinct by (auto; intros ? ? []).
  unfold dict_values. simpl. rewrite !map_map. reflexivity.
Qed.
End Remerge.

(** C2, as stated, fails: merging the merge of a single issue does not
    give the merge back.  The first merge keeps the paragraph location
    as raw location; the second replaces it by the merged summary. *)
Lemma merge_not_idempotent :
  let merged := RuleEngine._merge_issues_by_rule [one_paragraph_issue] in
  RuleEngine._merge_issues_by_rule merged <> merged
  /\ map raw_locations merged = [Some [location one_paragraph_issue]]
  /\ map raw_locations (RuleEngine._merge_issues_by_rule merged)
     = [Some [{| loc_type := Some (u"merged"); loc_index := None;
                 loc_paragraph_index := None; loc_page_number := None;
                 loc_start_line := None; loc_end_line := None;
                 loc_description := Some (u"共1处位置");
                 loc_level := None; loc_text := None;
                 loc_count := Some 1 |}]].
Proof.
  intro merged. split; [|split; vm_compute; reflexivity].
  intro E. apply (f_equal (map raw_locations)) in E.
  vm_compute in E. discriminate E.
Qed.

(** C2, amended. Merging a merged list keeps its issues, in order and
    with their rule-level fields; the location fields are rebuilt from
    the summary location of each merged issue, which becomes its only
    raw location. *)
Theorem merge_twice (issues : list Issue) :
  let merged := RuleEngine._merge_issues_by_rule issues in
  let twice := RuleEngine._merge_issues_by_rule merged in
  twice = map merge_single merged
  /\ map rule_fields twice = map rule_fields merged
  /\ map raw_locations twice = map (fun m => Some [location m]) merged.
Proof.
  intros merged twice.
  assert (E : twice = map merge_single merged)
    by (apply merge_distinct, merge_rule_ids_nodup).
  split; [exact E|]. rewrite E, !map_map. split; reflexivity.
Qed.

(* ================================================================== *)
(** * The page-grouped display list *)

Section PagesFacts.
Import RuleEngine.

Lemma page_locs_step pages loc p :
  page_locs (pages_step pages loc) p
  = page_locs pages p
    ++ (if (get_page_number loc =? p)%Z then [loc] else []).
Proof.
  unfold page_locs, pages_step.
  rewrite (dict_get_upsert Z.eqb Z.eqb_eq).
  rewrite (Z.eqb_sym (get_page_number loc) p).
  destruct (p =? get_page_number loc)%Z eqn:E; simpl.
  - apply Z.eqb_eq in E. subst p.
    now destruct (dict_get Z.eqb pages (get_page_number loc)).
  - now rewrite app_nil_r.
Qed.

Lemma page_locs_fold locations pages p :
  page_locs (fold_left pages_step locations pages) p
  = page_locs pages p ++ locations_on_page locations p.
Proof.
  revert pages.
  induction locations as [|loc locations IH]; intro pages; simpl.
  - now rewrite app_nil_r.
  - rewrite IH, page_locs_step, <- app_assoc.
    now destruct (get_page_number loc =? p)%Z.
Qed.

Lemma page_locs_group locations p :
  page_locs (group_pages locations) p = locations_on_page locations p.
Proof. unfold group_pages. now rewrite page_locs_fold. Qed.
End PagesFacts.

(** C10. Every page group of the display list shows the first 20
    display strings of its page, hence at most 20, keeps all of them in
    [all_items], and has [has_more] set exactly when there are more
    than 20. *)
Theorem locations_list_display_limit (locations : list Location) :
  Forall (fun g =>
            let on_page := locations_on_page locations (page g) in
            all_items g = RuleEngine.page_all_items on_page
            /\ items g = firstn 20 (all_items g)
            /\ List.length (items g) <= 20
            /\ (has_more g = true <-> 20 < List.length (all_items g))
            /\ total g = List.length on_page)
         (RuleEngine._build_locations_list locations).
Proof.
  unfold RuleEngine._build_locations_list.
  destruct locations as [|l0 ls]; [constructor|].
  apply Forall_forall. intros g Hg.
  apply in_map_iff in Hg as (p & <- & _).
  pose proof (page_locs_group (l0 :: ls) p) as E.
  unfold page_locs, get in E.
  unfold RuleEngine.build_page. rewrite E.
  cbn [page all_items items has_more total].
  repeat split.
  - rewrite length_firstn. apply Nat.le_min_l.
  - intro Hlt. now apply Nat.ltb_lt in Hlt.
  - intro Hlt. now apply Nat.ltb_lt.
Qed.

(* ================================================================== *)
(** * Page margins *)

Section PageFacts.
Import RuleEngine.

Lemma side_ok_false tolerance m side condition :
  side_ok tolerance m side condition = false
  <-> side_exceeds tolerance m side condition.
Proof.
  unfold side_ok, side_exceeds, exceeds, fgt.
  destruct (fst side condition) as [expected|]; split.
  - intro E. exists expected. split; [reflexivity|].
    now apply negb_false_iff in E.
  - intros (e & [= <-] & E). now apply negb_false_iff.
  - discriminate.
  - intros (e & [=] & _).
Qed.

Lemma match_page_false target condition :
  _match_page_condition target condition = false
  <-> (exists side, In side margin_sides
         /\ side_ok (get (c_tolerance_mm condition) 0.5%float)
                    (target_margins target) side condition = false)
      \/ paper_ok (target_page_settings target) condition = false.
Proof.
  unfold _match_page_condition. fold (target_margins target).
  destruct (forallb _ margin_sides) eqn:E.
  - split; [now right|]. intros [(side & Hin & Hs)|Hp]; [|exact Hp].
    rewrite forallb_forall in E. rewrite (E side Hin) in Hs. discriminate.
  - split; [|reflexivity]. intros _. left.
    apply not_true_iff_false in E.
    destruct (existsb (fun side =>
                negb (side_ok (get (c_tolerance_mm condition) 0.5%float)
                              (target_margins target) side condition))
                margin_sides) eqn:Ex.
    + apply existsb_exists in Ex as (side & Hin & Hs).
      exists side. split; [exact Hin|]. now apply negb_true_iff in Hs.
    + exfalso. apply E. apply forallb_forall. intros side Hin.
      destruct (side_ok _ _ side condition) eqn:Hs; [reflexivity|].
      assert (existsb (fun side =>
                negb (side_ok (get (c_tolerance_mm condition) 0.5%float)
                              (target_margins target) side condition))
                margin_sides = true) as Hc.
      { apply existsb_exists. exists side. split; [exact Hin|].
        now rewrite Hs. }
      rewrite Hc in Ex. discriminate.
Qed.
End PageFacts.

(** C6. With an expected top margin of 25.4 mm and a tolerance of 2 mm,
    an actual top margin of 27.4 mm passes and 27.41 mm fails; in
    general a constrained side fails exactly when the absolute
    difference between actual and expected value exceeds the tolerance,
    and the page condition fails exactly when some side fails or the
    paper size does. *)
Theorem page_margin_tolerance :
  RuleEngine._match_page_condition
    (doc_with_top_margin 27.4%float) top_margin_condition = true
  /\ RuleEngine._match_page_condition
       (doc_with_top_margin 27.41%float) top_margin_condition = false
  /\ (forall tolerance m side condition,
        RuleEngine.side_ok tolerance m side condition = false
        <-> side_exceeds tolerance m side condition)
  /\ (forall target condition,
        RuleEngine._match_page_condition target condition = false
        <-> (exists side,
               In side RuleEngine.margin_sides
               /\ side_exceeds (get (c_tolerance_mm condition) 0.5%float)
                               (target_margins target) side condition)
            \/ RuleEngine.paper_ok (RuleEngine.target_page_settings target)
                                   condition = false).
Proof.
  split; [reflexivity|]. split; [reflexivity|].
  split; [exact side_ok_false|].
  intros target condition. rewrite match_page_false.
  split; (intros [(side & Hin & Hs)|Hp]; [left|now right]);
    exists side; (split; [exact Hin|]); now apply side_ok_false.
Qed.

(* ================================================================== *)
(** * Unresolved fonts *)

(** C3. A target whose font name or font size is unresolved passes
    every font condition and, as a heading, every per-level heading
    condition; it is therefore never among the failing targets of a
    rule of category [font] or [heading], for which alone issues are
    created. *)
Theorem skip_on_uncertainty `{UnicodeDB}
        (generic : Target -> Condition -> bool)
        (target : Target) (condition : Condition) :
  font_name (RuleEngine.target_font target) = None
  \/ font_size_pt (RuleEngine.target_font target) = None ->
  RuleEngine._match_font_condition target condition = true
  /\ (forall match_type,
        match_type <> u"section" ->
        RuleEngine._match_heading_condition target condition match_type
        = true)
  /\ (forall rule doc,
        r_category rule = u"font" ->
        ~ In target (RuleEngine.failing_targets generic rule doc))
  /\ (forall rule doc,
        r_category rule = u"heading" ->
        get (r_match rule) (u"document") <> u"section" ->
        ~ In target (RuleEngine.failing_targets generic rule doc)).
Proof.
  intro Hun.
  assert (Hres : RuleEngine.font_resolved (RuleEngine.target_font target)
                 = false).
  { unfold RuleEngine.font_resolved.
    destruct Hun as [-> | ->]; [reflexivity|].
    now destruct (font_name (RuleEngine.target_font target)). }
  assert (Hfont : forall c, RuleEngine._match_font_condition target c = true).
  { intro c. unfold RuleEngine._match_font_condition. now rewrite Hres. }
  assert (Hhead : forall c match_type,
             match_type <> u"section" ->
             RuleEngine._match_heading_condition target c match_type = true).
  { intros c match_type Hmt. unfold RuleEngine._match_heading_condition.
    destruct (PyStr.eqb match_type (u"section")) eqn:E.
    - apply pystr_eqb_eq in E. contradiction.
    - destruct (dict_get _ _ _); [|reflexivity].
      unfold RuleEngine.level_condition_ok. now rewrite Hres. }
  split; [apply Hfont|]. split; [apply Hhead|].
  split; intros rule doc Hcat; [|intro Hmt]; intro Hin;
    unfold RuleEngine.failing_targets in Hin;
    apply filter_In in Hin as [_ Hin]; apply negb_true_iff in Hin;
    unfold RuleEngine._match_condition in Hin; rewrite Hcat in Hin;
    cbn in Hin.
  - now rewrite Hfont in Hin.
  - now rewrite Hhead in Hin.
Qed.

Lemma skip_on_uncertainty_witness :
  (font_name (RuleEngine.target_font unresolved_run) = None
   \/ font_size_pt (RuleEngine.target_font unresolved_run) = None)
  /\ (font_name (RuleEngine.target_font unresolved_heading) = None
      \/ font_size_pt (RuleEngine.target_font unresolved_heading) = None)
  /\ @RuleEngine._match_font_condition ascii_db unresolved_run
       simsun_condition = true
  /\ @RuleEngine._match_heading_condition ascii_db unresolved_heading
       heading_condition (u"heading") = true.
Proof.
  split; [left; reflexivity|]. split; [right; reflexivity|]. split.
  - apply (@skip_on_uncertainty ascii_db generic_pass unresolved_run
             simsun_condition).
    left; reflexivity.
  - apply (@skip_on_uncertainty ascii_db generic_pass unresolved_heading
             heading_condition); [right; reflexivity | discriminate].
Defined.

(** The branch for the match type [section] checks the numbering of
    section targets, which carry no font at all; it is not concerned
    by the skip. *)
Remark section_numbering_checked :
  @RuleEngine._match_heading_condition ascii_db unnumbered_section
     numbering_condition (u"section") = false.
Proof. vm_compute. reflexivity. Qed.

(* ================================================================== *)
(** * Heading hierarchy *)

Section HierarchyFacts.
Import StructureChecker.

Lemma skips_a_level_spec prev curr :
  skips_a_level (prev, curr)
  = if (heading_level curr =? 1)%Z then false
    else (heading_level prev + 1 <? heading_level curr)%Z.
Proof.
  unfold skips_a_level. simpl.
  destruct (heading_level curr =? 1)%Z eqn:E1; simpl.
  - now rewrite andb_false_r.
  - rewrite andb_true_r.
    destruct (heading_level prev + 1 <? heading_level curr)%Z eqn:E2.
    + apply Z.ltb_lt in E2. apply Z.ltb_lt. lia.
    + apply Z.ltb_ge in E2. apply Z.ltb_ge. lia.
Qed.

Lemma hierarchy_loop_spec doc prev rest :
  hierarchy_loop doc prev rest
  = map (fun pc => level_jump_issue doc (fst pc) (snd pc))
        (filter skips_a_level (adjacent_pairs (prev :: rest))).
Proof.
  revert prev. induction rest as [|curr rest IH]; intro prev.
  - reflexivity.
  - unfold adjacent_pairs in *. cbn [hierarchy_loop tl combine filter].
    rewrite skips_a_level_spec, IH.
    destruct (heading_level curr =? 1)%Z; [reflexivity|].
    destruct (heading_level prev + 1 <? heading_level curr)%Z;
      reflexivity.
Qed.
End HierarchyFacts.

(** C5. [check_heading_hierarchy] reports one issue for each heading
    which is more than one level deeper than the heading just before it
    and is not itself of level 1, in document order, and nothing else;
    the message of each issue names the level after the previous one.
    Levels 1,2,3 and 1,1,2 give no issue; levels 1,3 give exactly one,
    naming level 2. *)
Theorem heading_hierarchy_jumps :
  (forall doc,
      StructureChecker.check_heading_hierarchy doc
      = map (fun pc => StructureChecker.level_jump_issue doc (fst pc) (snd pc))
            (filter skips_a_level (adjacent_pairs (headings doc))))
  /\ (forall doc prev curr,
        let issue := StructureChecker.level_jump_issue doc prev curr in
        rule_id issue = RuleName (u"HEADING_LEVEL_JUMP")
        /\ error_message issue
           = u"标题层级从"
               ++ PyStr.of_Z (StructureChecker.heading_level prev)
               ++ u"级跳转到"
               ++ PyStr.of_Z (StructureChecker.heading_level curr)
               ++ u"级，中间缺少"
               ++ PyStr.of_Z (StructureChecker.heading_level prev + 1)
               ++ u"级标题"
        /\ loc_text (location issue) = n_text curr)
  /\ StructureChecker.check_heading_hierarchy (doc_of_levels [1; 2; 3]%Z) = []
  /\ StructureChecker.check_heading_hierarchy (doc_of_levels [1; 1; 2]%Z) = []
  /\ (exists issue,
        StructureChecker.check_heading_hierarchy (doc_of_levels [1; 3]%Z)
        = [issue]
        /\ rule_id issue = RuleName (u"HEADING_LEVEL_JUMP")
        /\ error_message issue = u"标题层级从1级跳转到3级，中间缺少2级标题").
Proof.
  split.
  { intro doc. unfold StructureChecker.check_heading_hierarchy.
    destruct (headings doc) as [|first rest]; [reflexivity|].
    apply hierarchy_loop_spec. }
  split; [intros; repeat split|].
  split; [reflexivity|]. split; [reflexivity|].
  eexists. split; [reflexivity|]. split; reflexivity.
Qed.

(* ================================================================== *)
(** * Missing and empty tables of contents *)

(** C7. Without a table of contents the consistency check returns the
    single issue [TOC_MISSING]; with a table of contents that has no
    entries it returns the single issue [TOC_EMPTY]; in both cases
    whatever the headings of the document are. *)
Theorem toc_degenerate_single_issue `{UnicodeDB} (doc : DocSnapshot) :
  StructureChecker.toc_present doc = false
  \/ StructureChecker.toc_entry_list doc = [] ->
  StructureChecker.check_toc_body_consistency doc
  = [if StructureChecker.toc_present doc
     then StructureChecker.toc_empty_issue
     else StructureChecker.toc_missing_issue]
  /\ rule_id StructureChecker.toc_missing_issue = RuleName (u"TOC_MISSING")
  /\ rule_id StructureChecker.toc_empty_issue = RuleName (u"TOC_EMPTY").
Proof.
  intro Hdeg. split; [|split; reflexivity].
  unfold StructureChecker.check_toc_body_consistency.
  destruct (StructureChecker.toc_present doc) eqn:Ep; simpl; [|reflexivity].
  destruct Hdeg as [Hp | He]; [discriminate|]. now rewrite He.
Qed.

Lemma toc_degenerate_single_issue_witness :
  (StructureChecker.toc_present doc_with_empty_toc = false
   \/ StructureChecker.toc_entry_list doc_with_empty_toc = [])
  /\ StructureChecker.toc_present doc_without_toc = false
  /\ @StructureChecker.check_toc_body_consistency ascii_db doc_with_empty_toc
     = [StructureChecker.toc_empty_issue]
  /\ @StructureChecker.check_toc_body_consistency ascii_db doc_without_toc
     = [StructureChecker.toc_missing_issue].
Proof.
  split; [right; reflexivity|]. split; [reflexivity|]. split.
  - apply (@toc_degenerate_single_issue ascii_db doc_with_empty_toc).
    right; reflexivity.
  - apply (@toc_degenerate_single_issue ascii_db doc_without_toc).
    left; reflexivity.
Defined.

(* ================================================================== *)
(** * Folding run issues into paragraphs *)

Lemma nodup_map_some {A : Type} (l : list A) :
  NoDup l -> NoDup (map Some l).
Proof.
  induction 1 as [|x l Hnin _ IH]; simpl; constructor; [|exact IH].
  intro Hin. apply in_map_iff in Hin as (y & [= ->] & Hy). contradiction.
Qed.

Section AggregateFacts.
Import RuleEngine.
Context `{UnicodeDB}.

Lemma para_issues_keys_nodup issues acc :
  NoDup (dict_keys acc) ->
  NoDup (dict_keys (fold_left para_issues_step issues acc)).
Proof.
  revert acc. induction issues as [|i issues IH]; simpl; intros; auto.
  apply IH. unfold para_issues_step.
  now apply (dict_keys_upsert_nodup Nat.eqb Nat.eqb_eq).
Qed.

Lemma para_issues_keys_in issues acc p :
  In p (dict_keys (fold_left para_issues_step issues acc))
  <-> In p (dict_keys acc) \/ In p (map issue_para_idx issues).
Proof.
  revert acc. induction issues as [|i issues IH]; simpl; intro acc.
  - intuition.
  - rewrite IH. unfold para_issues_step at 1.
    rewrite (dict_keys_upsert_iff Nat.eqb Nat.eqb_eq).
    fold (issue_para_idx i). intuition.
Qed.

Lemma para_issues_hold_fold (P : Issue -> Prop) issues acc :
  Forall P issues -> para_issues_hold P acc ->
  para_issues_hold P (fold_left para_issues_step issues acc).
Proof.
  revert acc.
  induction issues as [|i issues IH]; simpl; intros acc Hall Hacc; auto.
  inversion Hall as [|? ? Hi Hrest]; subst.
  apply IH; [assumption|]. clear IH Hall Hrest.
  unfold para_issues_hold, para_issues_step in *.
  induction Hacc as [|[k pd] d Hk Hd IHd]; simpl.
  - repeat constructor. exact Hi.
  - destruct (get (loc_paragraph_index (location i)) 0 =? k);
      constructor; simpl; auto.
Qed.

Lemma aggregate_paragraphs issues doc :
  issues <> [] ->
  issue_paragraphs (_aggregate_run_issues_by_paragraph issues doc)
  = map Some (dict_keys (fold_left para_issues_step issues [])).
Proof.
  destruct issues as [|i issues]; [congruence|]. intros _.
  unfold _aggregate_run_issues_by_paragraph, issue_paragraphs, dict_keys.
  rewrite !map_map. apply map_ext. intros [k pd]. simpl.
  unfold paragraph_location.
  now destruct (nth_error (paragraphs doc) k).
Qed.

Lemma create_issue_para_idx rule target :
  issue_para_idx (_create_issue rule target (u"run"))
  = get (n_paragraph_index (node_of target)) 0.
Proof. reflexivity. Qed.
End AggregateFacts.

(** C4, as stated, fails: five violating runs of one paragraph give one
    issue whose location is the paragraph's and carries no count; the
    result is the one obtained for a single violating run. *)
Lemma run_count_not_carried :
  let check := @RuleEngine._check_rule ascii_db generic_pass body_font_rule in
  map location (check (doc_of_arial_runs 5))
  = [{| loc_type := Some (u"paragraph"); loc_index := Some 0;
        loc_paragraph_index := None; loc_page_number := Some 1%Z;
        loc_start_line := Some 1%Z; loc_end_line := Some 2%Z;
        loc_description := Some (u"第1段");
        loc_level := None; loc_text := None; loc_count := None |}]
  /\ check (doc_of_arial_runs 5) = check (doc_of_arial_runs 1)
  /\ ~ (exists issue,
          check (doc_of_arial_runs 5) = [issue]
          /\ loc_count (location issue) = Some 5).
Proof.
  intro check. split; [vm_compute; reflexivity|].
  split; [vm_compute; reflexivity|].
  intros (issue & E & Hc). vm_compute in E.
  injection E as <-. discriminate Hc.
Qed.

Section RunRuleFacts.
Import RuleEngine.
Context `{UnicodeDB}.
Variable generic : Target -> Condition -> bool.

(** The failing targets of a rule matched on runs. *)
Lemma failing_run_targets rule doc t :
  r_match rule = Some (u"run") ->
  In t (failing_targets generic rule doc)
  <-> In t (_get_check_targets doc (u"run") (r_category rule))
      /\ _match_condition generic t (get (r_condition rule) empty_condition)
                          (r_category rule) (u"run") = false.
Proof.
  intro Hrun. unfold failing_targets. rewrite Hrun. cbn [get].
  rewrite filter_In, negb_true_iff. reflexivity.
Qed.

(** The paragraphs reported by a rule matched on runs. *)
Lemma run_rule_paragraphs rule doc :
  r_match rule = Some (u"run") ->
  r_category rule <> u"structure" ->
  let out := _check_rule generic rule doc in
  NoDup (issue_paragraphs out)
  /\ (forall p, In (Some p) (issue_paragraphs out)
                <-> In p (violating_paragraphs generic rule doc))
  /\ Forall (fun i =>
               issue_of_rule rule i
               /\ loc_type (location i) = Some (u"paragraph")
               /\ loc_count (location i) = None
               /\ exists p,
                    loc_index (location i) = Some p
                    /\ loc_description (location i)
                       = Some (u"第" ++ PyStr.of_nat (p + 1) ++ u"段"))
            out.
Proof.
  intros Hrun Hcat out. subst out. unfold _check_rule.
  destruct (PyStr.eqb (r_category rule) (u"structure")) eqn:Ec.
  { apply pystr_eqb_eq in Ec. contradiction. }
  unfold violating_paragraphs.
  set (failing := failing_targets generic rule doc).
  rewrite Hrun. cbn [get].
  change (PyStr.eqb (u"run") (u"run")) with true. cbn iota.
  set (issues := map (fun target => _create_issue rule target (u"run"))
                     failing).
  destruct failing as [|t0 ts] eqn:Ef.
  { simpl. split; [constructor|]. split; [|constructor].
    intro p. simpl. tauto. }
  assert (Hne : issues <> []) by (subst issues; discriminate).
  assert (Hidx : map issue_para_idx issues
                 = map (fun t => get (n_paragraph_index (node_of t)) 0)
                       (t0 :: ts)).
  { subst issues. rewrite map_map. apply map_ext. intro t. reflexivity. }
  split; [|split].
  - rewrite aggregate_paragraphs by exact Hne.
    apply nodup_map_some, para_issues_keys_nodup. constructor.
  - intro p. rewrite aggregate_paragraphs by exact Hne.
    rewrite <- Hidx. split.
    + intro Hin. apply in_map_iff in Hin as (k & [= ->] & Hk).
      apply para_issues_keys_in in Hk as [[]|Hk]. exact Hk.
    + intro Hin. apply in_map. apply para_issues_keys_in. now right.
  - assert (Hall : Forall (issue_of_rule rule) issues).
    { subst issues. apply Forall_forall. intros i Hi.
      apply in_map_iff in Hi as (t & <- & _). repeat split. }
    pose proof (@para_issues_hold_fold (issue_of_rule rule) issues []
                  Hall (Forall_nil _)) as Hhold.
    unfold _aggregate_run_issues_by_paragraph.
    destruct issues as [|i0 is0] eqn:Ei; [congruence|]. rewrite <- Ei in *.
    unfold para_issues_hold in Hhold.
    apply Forall_forall. intros i Hi.
    apply in_map_iff in Hi as ([k pd] & <- & Hkv).
    rewrite Forall_forall in Hhold. specialize (Hhold _ Hkv).
    split; [exact Hhold|].
    unfold aggregated_issue, paragraph_location.
    cbn [fst snd location].
    destruct (nth_error (paragraphs doc) k); cbn;
      (split; [reflexivity|]); (split; [reflexivity|]);
      exists k; split; reflexivity.
Qed.
End RunRuleFacts.

(** C4, amended. For a rule matched on runs, the check returns exactly
    one issue for every paragraph having a run which violates the rule
    and none for the other paragraphs; the location of each issue is a
    paragraph location naming that paragraph, and the issue carries the
    fields of the rule. *)
Theorem run_issues_folded `{UnicodeDB}
        (generic : Target -> Condition -> bool)
        (rule : Rule) (doc : DocSnapshot) :
  r_match rule = Some (u"run") ->
  r_category rule <> u"structure" ->
  let out := RuleEngine._check_rule generic rule doc in
  NoDup (issue_paragraphs out)
  /\ (forall p,
        In (Some p) (issue_paragraphs out)
        <-> exists run,
              In run (RuleEngine._get_check_targets doc (u"run")
                                                    (r_category rule))
              /\ RuleEngine._match_condition generic run
                   (get (r_condition rule) empty_condition)
                   (r_category rule) (u"run") = false
              /\ get (n_paragraph_index (RuleEngine.node_of run)) 0 = p)
  /\ Forall (fun i =>
               issue_of_rule rule i
               /\ loc_type (location i) = Some (u"paragraph")
               /\ exists p,
                    loc_index (location i) = Some p
                    /\ loc_description (location i)
                       = Some (u"第" ++ PyStr.of_nat (p + 1) ++ u"段"))
            out.
Proof.
  intros Hrun Hcat out.
  destruct (run_rule_paragraphs generic rule doc Hrun Hcat)
    as (Hnd & Hin & Hall).
  fold out in Hnd, Hin, Hall.
  split; [exact Hnd|]. split.
  - intro p. rewrite Hin. unfold violating_paragraphs.
    rewrite in_map_iff. split.
    + intros (t & Ep & Ht). apply (failing_run_targets generic) in Ht;
        [|exact Hrun].
      exists t. tauto.
    + intros (t & Ht & Hm & Ep). exists t. split; [exact Ep|].
      apply (failing_run_targets generic); [exact Hrun|]. tauto.
  - eapply Forall_impl; [|exact Hall]. simpl. tauto.
Qed.

Lemma run_issues_folded_witness :
  r_match body_font_rule = Some (u"run")
  /\ r_category body_font_rule <> u"structure"
  /\ NoDup (issue_paragraphs
              (@RuleEngine._check_rule ascii_db generic_pass body_font_rule
                 (doc_of_arial_runs 5))).
Proof.
  split; [reflexivity|]. split; [discriminate|].
  destruct (@run_issues_folded ascii_db generic_pass body_font_rule
              (doc_of_arial_runs 5)) as [Hnd _];
    [reflexivity | discriminate | exact Hnd].
Defined.

(* ================================================================== *)
(** * Document-level fixes of the revision driver *)

Section RevisionFacts.
Import RevisionEngine.
Variable n_paragraphs : nat.

Lemma process_location_log issue log loc :
  process_location record_fix n_paragraphs issue log loc
  = log ++ process_location record_fix n_paragraphs issue [] loc.
Proof.
  unfold process_location, record_fix.
  destruct (is_empty_location loc); [now rewrite app_nil_r|].
  destruct (PyStr.opt_eqb (loc_type loc) (Some (u"document")));
    [reflexivity|].
  destruct (_ || _); [|now rewrite app_nil_r].
  destruct (match loc_index loc with
            | Some i => Some i
            | None => loc_paragraph_index loc
            end) as [i|]; [|now rewrite app_nil_r].
  destruct (i <? n_paragraphs); [reflexivity|now rewrite app_nil_r].
Qed.

Lemma process_locations_log issue locs log :
  fold_left (process_location record_fix n_paragraphs issue) locs log
  = log ++ flat_map (process_location record_fix n_paragraphs issue [])
                    locs.
Proof.
  revert log. induction locs as [|loc locs IH]; intro log; simpl.
  - now rewrite app_nil_r.
  - rewrite IH, process_location_log, <- app_assoc. reflexivity.
Qed.

Lemma process_issue_log log issue :
  process_issue record_fix n_paragraphs log issue
  = log ++ process_issue record_fix n_paragraphs [] issue.
Proof.
  unfold process_issue.
  destruct (raw_locations issue) as [[|loc locs]|].
  2: now rewrite process_locations_log,
                 (process_locations_log issue (loc :: locs) []).
  all: destruct (PyStr.opt_eqb (loc_type (location issue))
                               (Some (u"merged")));
    [destruct (PyStr.eqb (category issue) (u"page"));
     [reflexivity|now rewrite app_nil_r]
    |now rewrite process_locations_log,
                 (process_locations_log issue [location issue] [])].
Qed.

Lemma applied_fixes_per_issue issues :
  applied_fixes n_paragraphs issues
  = flat_map (fun i => applied_fixes n_paragraphs [i]) issues.
Proof.
  unfold applied_fixes, generate_revised_document.
  assert (G : forall log,
             fold_left (process_issue record_fix n_paragraphs) issues log
             = log ++ flat_map
                        (fun i => process_issue record_fix n_paragraphs
                                                [] i) issues).
  { induction issues as [|i issues IH]; intro log; simpl.
    - now rewrite app_nil_r.
    - rewrite IH, process_issue_log, <- app_assoc. reflexivity. }
  rewrite G. reflexivity.
Qed.

(** The document-level calls made for one location. *)
Lemma document_fixes_location issue loc :
  document_fixes (process_location record_fix n_paragraphs issue [] loc)
  = if is_document_location loc then [(issue, None)] else [].
Proof.
  unfold process_location, record_fix, is_document_location.
  destruct (is_empty_location loc) eqn:Ee.
  { destruct loc as [[ty|] ? ? ? ? ? ? ? ? ?]; simpl in *;
      [discriminate|reflexivity]. }
  destruct (PyStr.opt_eqb (loc_type loc) (Some (u"document")));
    [reflexivity|].
  destruct (_ || _); [|reflexivity].
  destruct (match loc_index loc with
            | Some i => Some i
            | None => loc_paragraph_index loc
            end) as [i|]; [|reflexivity].
  destruct (i <? n_paragraphs); reflexivity.
Qed.

Lemma document_fixes_locations issue locs :
  document_fixes
    (flat_map (process_location record_fix n_paragraphs issue []) locs)
  = repeat (issue, None)
           (List.length (filter is_document_location locs)).
Proof.
  induction locs as [|loc locs IH]; [reflexivity|].
  cbn [flat_map filter]. unfold document_fixes at 1. rewrite filter_app.
  fold (document_fixes
          (process_location record_fix n_paragraphs issue [] loc)).
  rewrite document_fixes_location.
  destruct (is_document_location loc); simpl; [f_equal|]; exact IH.
Qed.
End RevisionFacts.

(** C8, as stated, fails: the fix is applied once per document-level
    location.  A margin rule listed twice gives one merged issue of
    category [page] with two document-level locations, for which the
    reviser is asked twice to set the margins; a document lacking two
    required sections gives one merged issue with two document-level
    locations, for which [_apply_fix] is called twice. *)
Lemma document_fix_applied_per_location :
  (exists issue,
      @RuleEngine.check_document_sync ascii_db generic_pass
         [margin_rule; margin_rule] narrow_margin_doc = [issue]
      /\ category issue = u"page"
      /\ RevisionEngine.applied_fixes 0 [issue]
         = [(issue, None); (issue, None)]
      /\ flat_map (fun c => RevisionEngine._apply_fix_document (fst c))
                  (RevisionEngine.applied_fixes 0 [issue])
         = [RevisionEngine.SetPageMargin 25.4 25.4 31.8 31.8;
            RevisionEngine.SetPageMargin 25.4 25.4 31.8 31.8])
  /\ (exists issue,
        @RuleEngine.check_document_sync ascii_db generic_pass
           [required_sections_rule] (doc_of_headings []) = [issue]
        /\ option_map (map loc_type) (raw_locations issue)
           = Some [Some (u"document"); Some (u"document")]
        /\ RevisionEngine.applied_fixes 0 [issue]
           = [(issue, None); (issue, None)]).
Proof.
  split; eexists.
  - split; [vm_compute; reflexivity|].
    split; [reflexivity|]. split; vm_compute; reflexivity.
  - split; [vm_compute; reflexivity|]. split; vm_compute; reflexivity.
Qed.

(** C8, amended. The fix of an issue is applied to the document once
    per document-level location of its raw location list; an issue
    without raw locations has it applied once when its location is a
    merged summary and its category is [page] (whatever the merged
    count), or when its single location is document-level.  The issues
    of a list are handled one by one. *)
Theorem document_fix_per_location (n_paragraphs : nat) :
  (forall issue locs,
      raw_locations issue = Some locs -> locs <> [] ->
      document_fixes (RevisionEngine.applied_fixes n_paragraphs [issue])
      = repeat (issue, None)
               (List.length (filter is_document_location locs)))
  /\ (forall issue,
        raw_locations issue = None \/ raw_locations issue = Some [] ->
        loc_type (location issue) = Some (u"merged") ->
        category issue = u"page" ->
        RevisionEngine.applied_fixes n_paragraphs [issue] = [(issue, None)])
  /\ (forall issue,
        document_fixes (RevisionEngine.applied_fixes n_paragraphs [issue])
        = repeat (issue, None) (document_fix_count issue))
  /\ (forall issues,
        RevisionEngine.applied_fixes n_paragraphs issues
        = flat_map (fun i => RevisionEngine.applied_fixes n_paragraphs [i])
                   issues).
Proof.
  assert (Hcount : forall issue,
             document_fixes
               (RevisionEngine.applied_fixes n_paragraphs [issue])
             = repeat (issue, None) (document_fix_count issue)).
  { intro issue.
    unfold RevisionEngine.applied_fixes,
           RevisionEngine.generate_revised_document, document_fix_count.
    cbn [fold_left]. unfold RevisionEngine.process_issue.
    destruct (raw_locations issue) as [[|loc locs]|].
    2: { rewrite process_locations_log. cbn [app].
         apply document_fixes_locations. }
    all: destruct (PyStr.opt_eqb (loc_type (location issue))
                                 (Some (u"merged")));
      [destruct (PyStr.eqb (category issue) (u"page")); reflexivity|];
      rewrite process_locations_log; cbn [app];
      rewrite document_fixes_locations; simpl;
      now destruct (is_document_location (location issue)). }
  split; [|split; [|split; [exact Hcount|apply applied_fixes_per_issue]]].
  - intros issue locs Hraw Hne. rewrite Hcount.
    unfold document_fix_count. rewrite Hraw.
    destruct locs; [congruence|reflexivity].
  - intros issue Hraw Hty Hcat.
    unfold RevisionEngine.applied_fixes,
           RevisionEngine.generate_revised_document.
    cbn [fold_left]. unfold RevisionEngine.process_issue.
    rewrite Hty, Hcat.
    now destruct Hraw as [-> | ->].
Qed.

Lemma document_fix_per_location_witness :
  raw_locations single_location_issue = Some [document_location]
  /\ (raw_locations summary_only_issue = None
      \/ raw_locations summary_only_issue = Some [])
  /\ loc_count (location summary_only_issue) = Some 3
  /\ document_fixes (RevisionEngine.applied_fixes 0 [single_location_issue])
     = [(single_location_issue, None)]
  /\ RevisionEngine.applied_fixes 0 [summary_only_issue]
     = [(summary_only_issue, None)].
Proof.
  split; [reflexivity|]. split; [left; reflexivity|].
  split; [reflexivity|].
  destruct (document_fix_per_location 0) as (Hraw & Hsum & _).
  split.
  - apply (Hraw single_location_issue [document_location]);
      [reflexivity|discriminate].
  - apply Hsum; [left; reflexivity|reflexivity|reflexivity].
Defined.

(* ================================================================== *)
(** * Further properties of the merge *)

Section MergeContent.
Import RuleEngine.

Lemma existsb_rule_key k ks :
  existsb (rule_key_eqb k) ks = true <-> In k ks.
Proof.
  rewrite existsb_exists. split.
  - intros (x & Hin & E). apply rule_key_eqb_eq in E. now subst.
  - intro Hin. exists k. split; [exact Hin|]. now apply rule_key_eqb_eq.
Qed.

Lemma dict_keys_group_step grouped i :
  dict_keys (group_step grouped i)
  = if existsb (rule_key_eqb (rule_id i)) (dict_keys grouped)
    then dict_keys grouped
    else dict_keys grouped ++ [rule_id i].
Proof.
  unfold group_step.
  destruct (existsb (rule_key_eqb (rule_id i)) (dict_keys grouped)) eqn:E.
  - apply existsb_rule_key in E.
    now apply (dict_keys_upsert_in rule_key_eqb rule_key_eqb_eq).
  - rewrite (dict_upsert_notin rule_key_eqb rule_key_eqb_eq).
    + unfold dict_keys. now rewrite map_app.
    + intro Hin. apply existsb_rule_key in Hin. congruence.
Qed.

Lemma first_occurrences_seen_ext seen seen' ids :
  (forall k, In k seen <-> In k seen') ->
  first_occurrences seen ids = first_occurrences seen' ids.
Proof.
  revert seen seen'. induction ids as [|k ids IH]; intros seen seen' Hs;
    [reflexivity|]. simpl.
  assert (E : existsb (rule_key_eqb k) seen
              = existsb (rule_key_eqb k) seen').
  { destruct (existsb (rule_key_eqb k) seen) eqn:E1;
      destruct (existsb (rule_key_eqb k) seen') eqn:E2; try reflexivity.
    - apply existsb_rule_key, Hs, existsb_rule_key in E1. congruence.
    - apply existsb_rule_key, Hs, existsb_rule_key in E2. congruence. }
  rewrite E. destruct (existsb (rule_key_eqb k) seen').
  - now apply IH.
  - f_equal. apply IH. intro k'. simpl. rewrite Hs. tauto.
Qed.

Lemma dict_keys_group_fold issues grouped :
  dict_keys (fold_left group_step issues grouped)
  = dict_keys grouped
    ++ first_occurrences (dict_keys grouped) (map rule_id issues).
Proof.
  revert grouped. induction issues as [|i issues IH]; intro grouped; simpl.
  - now rewrite app_nil_r.
  - rewrite IH, dict_keys_group_step.
    destruct (existsb (rule_key_eqb (rule_id i)) (dict_keys grouped));
      [reflexivity|].
    rewrite <- app_assoc. simpl. do 2 f_equal.
    apply first_occurrences_seen_ext. intro k.
    rewrite in_app_iff. simpl. tauto.
Qed.

Lemma first_occurrences_in seen ids k :
  In k (first_occurrences seen ids) <-> In k ids /\ ~ In k seen.
Proof.
  revert seen. induction ids as [|k0 ids IH]; intro seen; simpl.
  - tauto.
  - destruct (existsb (rule_key_eqb k0) seen) eqn:E.
    + apply existsb_rule_key in E. rewrite IH. split.
      * tauto.
      * intros [[-> | Hin] Hn]; [contradiction|tauto].
    + assert (Hn0 : ~ In k0 seen).
      { intro Hin. apply existsb_rule_key in Hin. congruence. }
      simpl. rewrite IH. simpl. split.
      * intros [-> | [Hin Hn]]; [tauto|]. split; [tauto|].
        intro Hs. apply Hn. now right.
      * intros [[-> | Hin] Hn]; [now left|].
        destruct (rule_key_eqb k0 k) eqn:Ek.
        -- apply rule_key_eqb_eq in Ek. now left.
        -- right. split; [exact Hin|]. intros [-> | Hs]; [|contradiction].
           assert (rule_key_eqb k k = true) by now apply rule_key_eqb_eq.
           congruence.
Qed.

Lemma dict_get_in_nodup {V : Type} (d : dict rule_key V) k v :
  NoDup (dict_keys d) -> In (k, v) d ->
  dict_get rule_key_eqb d k = Some v.
Proof.
  induction d as [|[k' v'] d IH]; simpl; intros Hnd Hin; [contradiction|].
  inversion Hnd as [|? ? Hnin Hnd']; subst.
  destruct Hin as [[= -> ->] | Hin].
  - assert (E : rule_key_eqb k k = true) by now apply rule_key_eqb_eq.
    now rewrite E.
  - destruct (rule_key_eqb k k') eqn:E.
    + apply rule_key_eqb_eq in E. subst k'. exfalso. apply Hnin.
      change k with (fst (k, v)). now apply in_map.
    + now apply IH.
Qed.

Lemma rule_key_eqb_sym a b : rule_key_eqb a b = rule_key_eqb b a.
Proof.
  destruct (rule_key_eqb a b) eqn:E1, (rule_key_eqb b a) eqn:E2;
    try reflexivity.
  - apply rule_key_eqb_eq in E1. subst.
    assert (rule_key_eqb b b = true) by now apply rule_key_eqb_eq.
    congruence.
  - apply rule_key_eqb_eq in E2. subst.
    assert (rule_key_eqb a a = true) by now apply rule_key_eqb_eq.
    congruence.
Qed.

Lemma group_extend_append g l ls :
  group_extend (group_append l g) ls = group_extend g (l :: ls).
Proof.
  unfold group_extend, group_append. simpl.
  now rewrite <- app_assoc.
Qed.

Lemma group_lookup_fold issues : forall grouped k,
  dict_get rule_key_eqb (fold_left group_step issues grouped) k
  = match dict_get rule_key_eqb grouped k with
    | Some g => Some (group_extend g (map location (issues_of_rule k issues)))
    | None => group_of_rule k issues
    end.
Proof.
  induction issues as [|i issues IH]; intros grouped k.
  - simpl. destruct (dict_get rule_key_eqb grouped k) as [g|];
      [|reflexivity].
    f_equal. destruct g. unfold group_extend. simpl.
    now rewrite app_nil_r.
  - cbn [fold_left]. rewrite IH. unfold group_step at 1.
    rewrite (dict_get_upsert rule_key_eqb rule_key_eqb_eq).
    unfold group_of_rule, issues_of_rule. cbn [filter].
    rewrite (rule_key_eqb_sym (rule_id i) k).
    destruct (rule_key_eqb k (rule_id i)) eqn:E.
    + apply rule_key_eqb_eq in E. subst k.
      destruct (dict_get rule_key_eqb grouped (rule_id i)) as [g|].
      * now rewrite group_extend_append.
      * reflexivity.
    + reflexivity.
Qed.

Lemma group_of_rule_spec issues k g :
  In (k, g) (group_issues issues) -> group_of_rule k issues = Some g.
Proof.
  intro Hin. unfold group_issues in Hin.
  pose proof (group_lookup_fold issues [] k) as Hget. simpl in Hget.
  rewrite <- Hget. apply dict_get_in_nodup; [|exact Hin].
  apply nodup_keys_fold. constructor.
Qed.
End MergeContent.

(** X1. The merged list has one issue per rule id of the input: its
    rule ids are the distinct rule ids of the input, in the order of
    their first occurrence, so it is never longer than the input. *)
Theorem merge_one_issue_per_rule (issues : list Issue) :
  let merged := RuleEngine._merge_issues_by_rule issues in
  map rule_id merged = first_occurrences [] (map rule_id issues)
  /\ NoDup (map rule_id merged)
  /\ (forall k, In k (map rule_id merged) <-> In k (map rule_id issues))
  /\ List.length merged <= List.length issues.
Proof.
  intro merged.
  assert (Eids : map rule_id merged
                 = first_occurrences [] (map rule_id issues)).
  { unfold merged, RuleEngine._merge_issues_by_rule, RuleEngine.group_issues.
    rewrite merged_rule_ids by (apply keyed_fold; constructor).
    now rewrite dict_keys_group_fold. }
  assert (Hnd : NoDup (map rule_id merged)).
  { unfold merged, RuleEngine._merge_issues_by_rule, RuleEngine.group_issues.
    rewrite merged_rule_ids by (apply keyed_fold; constructor).
    apply nodup_keys_fold. constructor. }
  assert (Hin : forall k, In k (map rule_id merged)
                          <-> In k (map rule_id issues)).
  { intro k. rewrite Eids, first_occurrences_in. simpl. tauto. }
  repeat split; try assumption; try (now apply Hin).
  rewrite <- (length_map rule_id merged), <- (length_map rule_id issues).
  apply NoDup_incl_length; [exact Hnd|].
  intros k Hk. now apply Hin.
Qed.

(** X2. Every merged issue stands for the input issues of its rule id:
    there is at least one, the merged issue takes its rule-level fields
    from the first of them, and its raw locations are their locations
    in input order. *)
Theorem merged_issue_content (issues : list Issue) :
  Forall (fun m =>
            exists first rest,
              issues_of_rule (rule_id m) issues = first :: rest
              /\ rule_fields m = rule_fields first
              /\ raw_locations m = Some (map location (first :: rest)))
         (RuleEngine._merge_issues_by_rule issues).
Proof.
  apply Forall_forall. intros m Hm.
  unfold RuleEngine._merge_issues_by_rule, dict_values in Hm.
  rewrite map_map in Hm. apply in_map_iff in Hm as ([k g] & <- & Hkg).
  pose proof (@group_of_rule_spec issues k g Hkg) as Hg.
  assert (Hk : RuleEngine.g_rule_id g = k).
  { assert (Hkeyed : keyed (RuleEngine.group_issues issues))
      by (apply keyed_fold; constructor).
    unfold keyed in Hkeyed. rewrite Forall_forall in Hkeyed.
    apply (Hkeyed (k, g) Hkg). }
  unfold group_of_rule in Hg.
  destruct (issues_of_rule k issues) as [|first rest] eqn:Eo;
    [discriminate|].
  injection Hg as <-. simpl in Hk. simpl.
  exists first, rest. rewrite Hk, Eo. repeat split.
Qed.

(* ================================================================== *)
(** * Further properties of the display list *)

Section ZSortFacts.

Lemma insert_sorted_Z_perm x l :
  Permutation (insert_sorted Z.leb x l) (x :: l).
Proof.
  induction l as [|y l IH]; simpl; [reflexivity|].
  destruct (x <=? y)%Z; [reflexivity|].
  rewrite IH. apply perm_swap.
Qed.

Lemma sorted_Z_perm l : Permutation (sorted Z.leb l) l.
Proof.
  induction l as [|x l IH]; simpl; [reflexivity|].
  now rewrite insert_sorted_Z_perm, IH.
Qed.

Lemma insert_sorted_Z_ordered x l :
  Sorted Z.le l -> Sorted Z.le (insert_sorted Z.leb x l).
Proof.
  induction 1 as [|y l Hs IH Hhd]; simpl.
  - repeat constructor.
  - destruct (x <=? y)%Z eqn:E.
    + apply Z.leb_le in E. repeat constructor; assumption.
    + apply Z.leb_gt in E. constructor; [exact IH|].
      destruct l as [|z l]; simpl.
      * constructor. lia.
      * destruct (x <=? z)%Z; constructor; [lia|]. now inversion Hhd.
Qed.

Lemma sorted_Z_ordered l : Sorted Z.le (sorted Z.leb l).
Proof.
  induction l as [|x l IH]; simpl; [constructor|].
  now apply insert_sorted_Z_ordered.
Qed.

Lemma strongly_sorted_strict l :
  StronglySorted Z.le l -> NoDup l -> StronglySorted Z.lt l.
Proof.
  induction 1 as [|x l Hs IH Hall]; intro Hnd; constructor.
  - apply IH. now inversion Hnd.
  - inversion Hnd as [|? ? Hnin _]; subst.
    rewrite Forall_forall in *. intros y Hy.
    specialize (Hall y Hy).
    assert (x <> y) by (intros ->; contradiction). lia.
Qed.
End ZSortFacts.

Section PagesMore.
Import RuleEngine.

Lemma group_pages_keys_nodup locations pages :
  NoDup (dict_keys pages) ->
  NoDup (dict_keys (fold_left pages_step locations pages)).
Proof.
  revert pages. induction locations as [|l ls IH]; simpl; intros; auto.
  apply IH. unfold pages_step.
  now apply (dict_keys_upsert_nodup Z.eqb Z.eqb_eq).
Qed.

Lemma group_pages_keys_in locations pages p :
  In p (dict_keys (fold_left pages_step locations pages))
  <-> In p (dict_keys pages) \/ In p (map get_page_number locations).
Proof.
  revert pages. induction locations as [|l ls IH]; simpl; intro pages.
  - tauto.
  - rewrite IH. unfold pages_step at 1.
    rewrite (dict_keys_upsert_iff Z.eqb Z.eqb_eq). intuition.
Qed.

(** Every location is counted on exactly one of the pages [ps]. *)
Lemma page_counts_sum (ps : list Z) locations :
  NoDup ps ->
  (forall l, In l locations -> In (get_page_number l) ps) ->
  fold_right (fun p acc => List.length (locations_on_page locations p) + acc)
             0 ps
  = List.length locations.
Proof.
  intros Hnd. induction locations as [|l ls IH]; intro Hcov.
  - clear. induction ps; simpl; auto.
  - assert (Hone : forall qs, NoDup qs ->
              fold_right (fun p acc =>
                            List.length (locations_on_page (l :: ls) p) + acc)
                         0 qs
              = (if existsb (Z.eqb (get_page_number l)) qs then 1 else 0)
                + fold_right (fun p acc =>
                                List.length (locations_on_page ls p) + acc)
                             0 qs).
    { clear. induction qs as [|q qs IHq]; intro Hnd; [reflexivity|].
      inversion Hnd as [|? ? Hnin Hnd']; subst.
      cbn [fold_right existsb]. rewrite (IHq Hnd').
      unfold locations_on_page at 1. cbn [filter].
      fold (locations_on_page ls q).
      destruct (get_page_number l =? q)%Z eqn:E; simpl.
      - apply Z.eqb_eq in E. subst q.
        destruct (existsb (Z.eqb (get_page_number l)) qs) eqn:Ex;
          [|lia].
        apply existsb_exists in Ex as (x & Hx & Ex).
        apply Z.eqb_eq in Ex. subst x. contradiction.
      - lia. }
    rewrite (Hone ps Hnd), IH by (intros; apply Hcov; now right).
    assert (Ex : existsb (Z.eqb (get_page_number l)) ps = true).
    { apply existsb_exists. exists (get_page_number l).
      split; [apply Hcov; now left|apply Z.eqb_refl]. }
    rewrite Ex. reflexivity.
Qed.

Lemma build_page_total locations p :
  total (build_page (group_pages locations) p)
  = List.length (locations_on_page locations p)
  /\ page (build_page (group_pages locations) p) = p.
Proof.
  pose proof (page_locs_group locations p) as E.
  unfold page_locs, get in E. unfold build_page. rewrite E. now split.
Qed.
End PagesMore.

(** X3. The display list has one group per page on which a location
    lies, in strictly ascending page order; no group is empty and the
    [total] entries add up to the number of locations. *)
Theorem locations_list_pages (locations : list Location) :
  let groups := RuleEngine._build_locations_list locations in
  StronglySorted Z.lt (map page groups)
  /\ (forall p, In p (map page groups)
                <-> exists l, In l locations
                              /\ RuleEngine.get_page_number l = p)
  /\ Forall (fun g => 1 <= total g) groups
  /\ sum_totals groups = List.length locations.
Proof.
  intro groups. subst groups. unfold RuleEngine._build_locations_list.
  destruct locations as [|l0 ls].
  { simpl. split; [constructor|]. split; [|split; [constructor|reflexivity]].
    intro p. split; [intros []|intros (l & [] & _)]. }
  set (locations := l0 :: ls).
  set (keys := dict_keys (RuleEngine.group_pages locations)).
  assert (Hnd : NoDup keys)
    by (apply group_pages_keys_nodup; constructor).
  assert (Hin : forall p, In p keys
                          <-> In p (map RuleEngine.get_page_number locations)).
  { intro p. unfold keys, RuleEngine.group_pages.
    rewrite group_pages_keys_in. simpl. tauto. }
  assert (Hperm : Permutation (sorted Z.leb keys) keys)
    by apply sorted_Z_perm.
  assert (Hpages : map page (map (RuleEngine.build_page
                                    (RuleEngine.group_pages locations))
                                 (sorted Z.leb keys))
                   = sorted Z.leb keys).
  { rewrite map_map. rewrite <- (map_id (sorted Z.leb keys)) at 2.
    apply map_ext. intro p. apply build_page_total. }
  rewrite Hpages. split; [|split; [|split]].
  - apply strongly_sorted_strict.
    + apply Sorted_StronglySorted; [|apply sorted_Z_ordered].
      intros a b c. apply Z.le_trans.
    + eapply Permutation_NoDup; [symmetry; exact Hperm|exact Hnd].
  - intro p. split.
    + intro Hp. apply (Permutation_in _ Hperm), Hin, in_map_iff in Hp.
      destruct Hp as (l & E & Hl). now exists l.
    + intros (l & Hl & E). apply (Permutation_in _ (Permutation_sym Hperm)).
      apply Hin. subst p. now apply in_map.
  - apply Forall_forall. intros g Hg.
    apply in_map_iff in Hg as (p & <- & Hp).
    rewrite (proj1 (build_page_total locations p)).
    apply (Permutation_in _ Hperm), Hin, in_map_iff in Hp.
    destruct Hp as (l & E & Hl).
    assert (Hl' : In l (locations_on_page locations p)).
    { apply filter_In. split; [exact Hl|]. now apply Z.eqb_eq. }
    destruct (locations_on_page locations p); [contradiction|simpl; lia].
  - unfold sum_totals.
    assert (Hsum : fold_right
                     (fun p acc =>
                        List.length (locations_on_page locations p) + acc)
                     0 (sorted Z.leb keys)
                   = List.length locations).
    { apply page_counts_sum.
      - eapply Permutation_NoDup; [symmetry; exact Hperm|exact Hnd].
      - intros l Hl. apply (Permutation_in _ (Permutation_sym Hperm)).
        apply Hin. now apply in_map. }
    rewrite <- Hsum. clear.
    induction (sorted Z.leb keys) as [|p ps IHp]; [reflexivity|].
    cbn [map fold_right]. rewrite IHp.
    now rewrite (proj1 (build_page_total locations p)).
Qed.

(* ================================================================== *)
(** * Consecutive runs and figures *)

Section KeyFacts.
Import RuleEngine.
Variable key : Location -> nat.
Variable emit : list Location -> list str.
Variable unit_ : str.
Hypothesis emit_by_keys : forall cur, emit cur = emit_keys unit_ (map key cur).

Lemma scan_by_keys rest : forall start cur,
  scan key emit start cur rest
  = scan_keys unit_ start (map key cur) (map key rest).
Proof.
  induction rest as [|x rest IH]; intros start cur; simpl.
  - apply emit_by_keys.
  - rewrite length_map.
    destruct (key x =? start + List.length cur).
    + rewrite IH, map_app. reflexivity.
    + now rewrite IH, emit_by_keys.
Qed.

Lemma insert_sorted_by_keys x l :
  map key (insert_sorted (fun a b => key a <=? key b) x l)
  = insert_sorted Nat.leb (key x) (map key l).
Proof.
  induction l as [|y l IH]; simpl; [reflexivity|].
  destruct (key x <=? key y); simpl; [reflexivity|]. now rewrite IH.
Qed.

Lemma sorted_by_keys l :
  map key (sorted_by key l) = sorted Nat.leb (map key l).
Proof.
  unfold sorted_by. induction l as [|x l IH]; simpl; [reflexivity|].
  now rewrite insert_sorted_by_keys, IH.
Qed.

Lemma dedupe_by_keys l : forall seen,
  map key (dedupe key seen l) = dedupe_keys seen (map key l).
Proof.
  induction l as [|x l IH]; intro seen; simpl; [reflexivity|].
  destruct (existsb (Nat.eqb (key x)) seen); simpl; now rewrite IH.
Qed.

Lemma merge_sorted_by_keys l :
  merge_loop key emit (dedupe key [] (sorted_by key l))
  = merge_loop_keys unit_ (distinct_sorted_keys (map key l)).
Proof.
  unfold distinct_sorted_keys.
  rewrite <- sorted_by_keys, <- dedupe_by_keys.
  unfold merge_loop, merge_loop_keys.
  destruct (dedupe key [] (sorted_by key l)) as [|x rest]; [reflexivity|].
  cbn [map]. apply (scan_by_keys rest (key x) [x]).
Qed.
End KeyFacts.

Section RunKeys.
Import RuleEngine.

Lemma emit_runs_keys cur :
  emit_runs cur = emit_keys (u"段") (map get_paragraph_index cur).
Proof.
  unfold emit_runs, emit_keys. rewrite length_map.
  destruct (3 <=? List.length cur).
  - destruct cur as [|x cur]; [reflexivity|].
    cbn [map]. unfold last_key.
    change (get_paragraph_index x :: map get_paragraph_index cur)
      with (map get_paragraph_index (x :: cur)).
    rewrite <- map_rev. now destruct (rev (x :: cur)).
  - now rewrite map_map.
Qed.

Lemma emit_figures_keys cur :
  emit_figures cur = emit_keys (u"个图表") (map get_index cur).
Proof.
  unfold emit_figures, emit_keys. rewrite length_map.
  destruct (3 <=? List.length cur).
  - destruct cur as [|x cur]; [reflexivity|].
    cbn [map]. unfold last_key.
    change (get_index x :: map get_index cur)
      with (map get_index (x :: cur)).
    rewrite <- map_rev. now destruct (rev (x :: cur)).
  - now rewrite map_map.
Qed.

(** The display strings of run locations are a function of their
    distinct paragraph indices, taken in ascending order. *)
Lemma merge_consecutive_runs_keys run_locs :
  _merge_consecutive_runs run_locs
  = merge_loop_keys (u"段")
      (distinct_sorted_keys (map get_paragraph_index run_locs)).
Proof.
  unfold _merge_consecutive_runs.
  destruct run_locs as [|x0 l0]; [reflexivity|].
  apply merge_sorted_by_keys, emit_runs_keys.
Qed.

Lemma merge_consecutive_figures_keys figure_locs :
  _merge_consecutive_figures figure_locs
  = merge_loop_keys (u"个图表")
      (distinct_sorted_keys (map get_index figure_locs)).
Proof.
  unfold _merge_consecutive_figures.
  destruct figure_locs as [|x0 l0]; [reflexivity|].
  apply merge_sorted_by_keys, emit_figures_keys.
Qed.

Lemma dedupe_keys_in keys : forall seen n,
  In n (dedupe_keys seen keys) <-> In n keys /\ ~ In n seen.
Proof.
  induction keys as [|k keys IH]; intros seen n; simpl; [tauto|].
  destruct (existsb (Nat.eqb k) seen) eqn:E.
  - apply existsb_exists in E as (x & Hx & E).
    apply Nat.eqb_eq in E. subst x. rewrite IH. split; [tauto|].
    intros [[-> | Hin] Hn]; [contradiction|tauto].
  - assert (Hk : ~ In k seen).
    { intro Hin. apply not_true_iff_false in E. apply E.
      apply existsb_exists. exists k. split; [exact Hin|].
      apply Nat.eqb_refl. }
    simpl. rewrite IH. simpl. split.
    + intros [-> | [Hin Hn]]; [tauto|]. split; [tauto|]. tauto.
    + intros [[-> | Hin] Hn]; [now left|].
      destruct (Nat.eq_dec k n) as [-> | Hne]; [now left|]. right. tauto.
Qed.

Lemma dedupe_keys_strict keys : forall seen,
  StronglySorted le keys -> StronglySorted lt (dedupe_keys seen keys).
Proof.
  induction keys as [|k keys IH]; intros seen Hs; simpl; [constructor|].
  inversion Hs as [|? ? Hs' Hall]; subst.
  destruct (existsb (Nat.eqb k) seen); [now apply IH|].
  constructor; [now apply IH|].
  apply Forall_forall. intros m Hm.
  apply dedupe_keys_in in Hm as [Hin Hn].
  rewrite Forall_forall in Hall. specialize (Hall m Hin).
  assert (m <> k) by (intros ->; apply Hn; now left). lia.
Qed.

Lemma distinct_sorted_keys_spec keys :
  StronglySorted lt (distinct_sorted_keys keys)
  /\ forall n, In n (distinct_sorted_keys keys) <-> In n keys.
Proof.
  unfold distinct_sorted_keys. split.
  - apply dedupe_keys_strict.
    apply Sorted_StronglySorted; [intros a b c; apply Nat.le_trans|].
    apply (sorted_ordered (fun n : nat => n)).
  - intro n. rewrite dedupe_keys_in. simpl.
    pose proof (sorted_perm (fun n : nat => n) keys) as Hp.
    split.
    + intros [Hin _]. now apply (Permutation_in _ Hp).
    + intro Hin. split; [|tauto].
      now apply (Permutation_in _ (Permutation_sym Hp)).
Qed.

Lemma strictly_sorted_unique (l1 : list nat) : forall l2,
  StronglySorted lt l1 -> StronglySorted lt l2 ->
  (forall n, In n l1 <-> In n l2) -> l1 = l2.
Proof.
  induction l1 as [|a l1 IH]; intros l2 H1 H2 Hin.
  - destruct l2 as [|b l2]; [reflexivity|].
    exfalso. apply (Hin b). now left.
  - destruct l2 as [|b l2]; [exfalso; apply (Hin a); now left|].
    inversion H1 as [|? ? H1' Ha]; subst.
    inversion H2 as [|? ? H2' Hb]; subst.
    rewrite Forall_forall in Ha, Hb.
    assert (E : a = b).
    { assert (Ha2 : In a (b :: l2)) by (apply Hin; now left).
      assert (Hb1 : In b (a :: l1)) by (apply Hin; now left).
      destruct Ha2 as [-> | Ha2]; [reflexivity|].
      destruct Hb1 as [-> | Hb1]; [reflexivity|].
      specialize (Ha b Hb1). specialize (Hb a Ha2). lia. }
    subst b. f_equal. apply IH; try assumption.
    intro n. split; intro Hn.
    + assert (Hn' : In n (a :: l2)) by (apply Hin; now right).
      destruct Hn' as [-> | Hn']; [|exact Hn'].
      specialize (Ha _ Hn). lia.
    + assert (Hn' : In n (a :: l1)) by (apply Hin; now right).
      destruct Hn' as [-> | Hn']; [|exact Hn'].
      specialize (Hb _ Hn). lia.
Qed.

Lemma distinct_sorted_keys_same keys1 keys2 :
  (forall n, In n keys1 <-> In n keys2) ->
  distinct_sorted_keys keys1 = distinct_sorted_keys keys2.
Proof.
  intro Hsame.
  apply strictly_sorted_unique; try apply distinct_sorted_keys_spec.
  intro n.
  rewrite (proj2 (distinct_sorted_keys_spec keys1) n),
          (proj2 (distinct_sorted_keys_spec keys2) n).
  apply Hsame.
Qed.

Lemma seq_strictly_sorted k : forall a, StronglySorted lt (seq a k).
Proof.
  induction k as [|k IH]; intro a; simpl; constructor; [apply IH|].
  apply Forall_forall. intros n Hn. apply in_seq in Hn. lia.
Qed.

Lemma distinct_sorted_keys_interval keys a k :
  (forall n, In n keys <-> a <= n < a + k) ->
  distinct_sorted_keys keys = seq a k.
Proof.
  intro Hset. apply strictly_sorted_unique.
  - apply distinct_sorted_keys_spec.
  - apply seq_strictly_sorted.
  - intro n. rewrite (proj2 (distinct_sorted_keys_spec keys) n), Hset, in_seq.
    reflexivity.
Qed.

Lemma scan_keys_consecutive unit_ m : forall start cur,
  scan_keys unit_ start cur (seq (start + List.length cur) m)
  = emit_keys unit_ (cur ++ seq (start + List.length cur) m).
Proof.
  induction m as [|m IH]; intros start cur; simpl.
  - now rewrite app_nil_r.
  - rewrite Nat.eqb_refl.
    specialize (IH start (cur ++ [start + List.length cur])).
    rewrite length_app in IH. simpl in IH.
    replace (start + (List.length cur + 1))
      with (S (start + List.length cur)) in IH by lia.
    rewrite IH, <- app_assoc. reflexivity.
Qed.

Lemma merge_loop_keys_consecutive unit_ a k :
  merge_loop_keys unit_ (seq a k)
  = if 3 <=? k
    then [u"第" ++ PyStr.of_nat (a + 1) ++ u"~" ++ PyStr.of_nat (a + k)
            ++ unit_]
    else map (fun n => u"第" ++ PyStr.of_nat (n + 1) ++ unit_) (seq a k).
Proof.
  assert (E : merge_loop_keys unit_ (seq a k) = emit_keys unit_ (seq a k)).
  { destruct k as [|k]; [reflexivity|]. simpl.
    pose proof (scan_keys_consecutive unit_ k a [a]) as E. simpl in E.
    replace (a + 1) with (S a) in E by lia. exact E. }
  rewrite E. unfold emit_keys. rewrite length_seq.
  destruct (3 <=? k) eqn:Ek; [|reflexivity].
  apply Nat.leb_le in Ek.
  destruct k as [|k]; [lia|].
  rewrite (seq_S k a), rev_app_distr.
  cbn [rev app].
  replace (a + k + 1) with (a + S k) by lia.
  cbn [seq]. rewrite <- (seq_S k a). reflexivity.
Qed.
End RunKeys.

(** X4. The display strings of run locations depend only on the set of
    their paragraph indices: neither the order in which the violations
    were found nor repeated paragraphs change them. *)
Theorem merge_consecutive_runs_order_free (locs1 locs2 : list Location) :
  (forall n, In n (map RuleEngine.get_paragraph_index locs1)
             <-> In n (map RuleEngine.get_paragraph_index locs2)) ->
  RuleEngine._merge_consecutive_runs locs1
  = RuleEngine._merge_consecutive_runs locs2.
Proof.
  intro Hsame. rewrite !merge_consecutive_runs_keys. f_equal.
  now apply distinct_sorted_keys_same.
Qed.

Lemma merge_consecutive_runs_order_free_witness :
  (forall n, In n (map RuleEngine.get_paragraph_index
                       [run_location 3; run_location 1; run_location 2;
                        run_location 1])
             <-> In n (map RuleEngine.get_paragraph_index
                           [run_location 1; run_location 2; run_location 3]))
  /\ RuleEngine._merge_consecutive_runs
       [run_location 3; run_location 1; run_location 2; run_location 1]
     = RuleEngine._merge_consecutive_runs
         [run_location 1; run_location 2; run_location 3].
Proof.
  assert (H : forall n,
             In n (map RuleEngine.get_paragraph_index
                       [run_location 3; run_location 1; run_location 2;
                        run_location 1])
             <-> In n (map RuleEngine.get_paragraph_index
                           [run_location 1; run_location 2; run_location 3])).
  { intro n. simpl. tauto. }
  split; [exact H|].
  apply (merge_consecutive_runs_order_free _ _ H).
Defined.

(** X5. When the violating runs lie in the [k] consecutive paragraphs
    [a], ..., [a + k - 1] and nowhere else, three or more paragraphs
    are shown as the single range from [a + 1] to [a + k], and one or
    two paragraphs one by one. *)
Theorem consecutive_runs_collapse (run_locs : list Location) (a k : nat) :
  (forall n, In n (map RuleEngine.get_paragraph_index run_locs)
             <-> a <= n < a + k) ->
  RuleEngine._merge_consecutive_runs run_locs
  = if 3 <=? k
    then [u"第" ++ PyStr.of_nat (a + 1) ++ u"~" ++ PyStr.of_nat (a + k)
            ++ u"段"]
    else map (fun n => u"第" ++ PyStr.of_nat (n + 1) ++ u"段") (seq a k).
Proof.
  intro Hset.
  rewrite merge_consecutive_runs_keys,
          (@distinct_sorted_keys_interval _ a k Hset).
  apply merge_loop_keys_consecutive.
Qed.

Lemma consecutive_runs_collapse_witness :
  (forall n, In n (map RuleEngine.get_paragraph_index
                       [run_location 3; run_location 1; run_location 2;
                        run_location 1])
             <-> 1 <= n < 1 + 3)
  /\ RuleEngine._merge_consecutive_runs
       [run_location 3; run_location 1; run_location 2; run_location 1]
     = [u"第2~4段"].
Proof.
  assert (H : forall n,
             In n (map RuleEngine.get_paragraph_index
                       [run_location 3; run_location 1; run_location 2;
                        run_location 1])
             <-> 1 <= n < 1 + 3).
  { intro n. cbn. split; intro Hn; lia. }
  split; [exact H|].
  apply (@consecutive_runs_collapse _ 1 3 H).
Defined.

(** X6. Figure and table locations are displayed by the set of their
    indices: [k] consecutive indices from [a] on give one range string
    when [k] is at least three and one string per figure otherwise, in
    whatever order and however often the locations were reported. *)
Theorem consecutive_figures_collapse
        (figure_locs : list Location) (a k : nat) :
  (forall n, In n (map RuleEngine.get_index figure_locs)
             <-> a <= n < a + k) ->
  RuleEngine._merge_consecutive_figures figure_locs
  = if 3 <=? k
    then [u"第" ++ PyStr.of_nat (a + 1) ++ u"~" ++ PyStr.of_nat (a + k)
            ++ u"个图表"]
    else map (fun n => u"第" ++ PyStr.of_nat (n + 1) ++ u"个图表") (seq a k).
Proof.
  intro Hset.
  rewrite merge_consecutive_figures_keys,
          (@distinct_sorted_keys_interval _ a k Hset).
  apply merge_loop_keys_consecutive.
Qed.

Lemma consecutive_figures_collapse_witness :
  (forall n, In n (map RuleEngine.get_index
                       [figure_location 1; figure_location 0;
                        figure_location 1])
             <-> 0 <= n < 0 + 2)
  /\ RuleEngine._merge_consecutive_figures
       [figure_location 1; figure_location 0; figure_location 1]
     = [u"第1个图表"; u"第2个图表"].
Proof.
  assert (H : forall n,
             In n (map RuleEngine.get_index
                       [figure_location 1; figure_location 0;
                        figure_location 1])
             <-> 0 <= n < 0 + 2).
  { intro n. cbn. split; intro Hn; lia. }
  split; [exact H|].
  apply (@consecutive_figures_collapse _ 0 2 H).
Defined.

(* ================================================================== *)
(** * Further properties of the structure checks *)

Section StructureFacts.
Import StructureChecker.
Context `{UnicodeDB}.

Lemma flat_map_nil {A B : Type} (f : A -> list B) (l : list A) :
  (forall x, In x l -> f x = []) -> flat_map f l = [].
Proof.
  induction l as [|x l IH]; intro Hall; [reflexivity|]. simpl.
  rewrite (Hall x) by now left. apply IH. intros; apply Hall; now right.
Qed.

Lemma forall_flat_map {A B : Type} (P : B -> Prop) (f : A -> list B)
      (l : list A) :
  (forall x, In x l -> Forall P (f x)) -> Forall P (flat_map f l).
Proof.
  induction l as [|x l IH]; intro Hall; [constructor|]. simpl.
  apply Forall_app. split; [apply Hall; now left|].
  apply IH. intros; apply Hall; now right.
Qed.

Lemma mk_issue_checker rid rname msg sugg loc :
  In (RuleName rid) structure_issue_ids ->
  checker_issue (mk_issue rid rname msg sugg loc).
Proof. intro Hin. repeat split. exact Hin. Qed.

Ltac known_id := apply mk_issue_checker; vm_compute; auto 10.

Lemma required_sections_checker doc required :
  Forall checker_issue (check_required_sections doc required).
Proof.
  unfold check_required_sections. apply forall_flat_map. intros s _.
  destruct (_find_section s _); [constructor|].
  constructor; [|constructor]. known_id.
Qed.

Lemma toc_body_checker doc :
  Forall checker_issue (check_toc_body_consistency doc).
Proof.
  unfold check_toc_body_consistency.
  destruct (negb (toc_present doc)).
  { constructor; [|constructor]. known_id. }
  destruct (toc_entry_list doc) as [|e es].
  { constructor; [|constructor]. known_id. }
  apply Forall_app. split; apply forall_flat_map.
  - intros kv _. unfold check_toc_entry.
    destruct (find_body _ _) as [bd|].
    + destruct (_ =? _)%Z; [constructor|].
      constructor; [|constructor]. known_id.
    + constructor; [|constructor]. known_id.
  - intros h _. unfold check_level1_heading.
    destruct (nonempty _); [|constructor].
    destruct (existsb _ _); [constructor|].
    constructor; [|constructor]. known_id.
Qed.

Lemma hierarchy_loop_checker doc rest : forall prev,
  Forall checker_issue (hierarchy_loop doc prev rest).
Proof.
  induction rest as [|curr rest IH]; intro prev; simpl; [constructor|].
  apply Forall_app. split; [|apply IH].
  destruct (_ =? _)%Z; [constructor|].
  destruct (_ <? _)%Z; [|constructor].
  constructor; [|constructor]. known_id.
Qed.

Lemma heading_hierarchy_checker doc :
  Forall checker_issue (check_heading_hierarchy doc).
Proof.
  unfold check_heading_hierarchy.
  destruct (headings doc); [constructor|apply hierarchy_loop_checker].
Qed.

(** ** Required sections *)

Lemma contains_empty s : PyStr.contains s [] = true.
Proof. destruct s; reflexivity. Qed.

Lemma find_section_verbatim s found :
  In s found -> _find_section s found = true.
Proof.
  intro Hin. unfold _find_section. apply existsb_exists.
  exists s. split; [exact Hin|]. now rewrite pystr_eqb_refl.
Qed.

Lemma find_section_blank s blank found :
  In blank found -> _normalize_title blank = [] ->
  _find_section s found = true.
Proof.
  intros Hin Hblank. unfold _find_section. apply existsb_exists.
  exists blank. split; [exact Hin|]. rewrite Hblank.
  unfold fuzzy_match. rewrite contains_empty.
  now rewrite !orb_true_r.
Qed.

Lemma found_sections_in doc h :
  In h (headings doc) -> stripped_text h <> [] ->
  In (stripped_text h)
     (filter nonempty (map stripped_text (headings doc))).
Proof.
  intros Hin Hne. apply filter_In. split; [now apply in_map|].
  destruct (stripped_text h); [congruence|reflexivity].
Qed.

(** ** The title dictionaries *)

Lemma same_titles_set toc_titles body_titles k v w :
  same_titles toc_titles body_titles ->
  td_level v = bd_level w ->
  same_titles (dict_set PyStr.eqb toc_titles k v)
              (dict_set PyStr.eqb body_titles k w).
Proof.
  unfold same_titles, dict_set. intros Hs Hl.
  induction Hs as [|[k1 v1] [k2 w1] t b [Hk Hv] Hs IH]; simpl.
  - constructor; [now split|constructor].
  - simpl in Hk, Hv. subst k2.
    destruct (PyStr.eqb k k1); constructor; try assumption; now split.
Qed.

Lemma same_titles_fold es : forall hs toc_titles body_titles,
  same_titles toc_titles body_titles ->
  map (fun e => (te_title e, te_level e)) es
  = map (fun h => (n_text h, n_level h)) hs ->
  same_titles (fold_left toc_titles_step es toc_titles)
              (fold_left body_titles_step hs body_titles).
Proof.
  induction es as [|e es IH]; intros [|h hs] t b Hs Hmap;
    try discriminate; [exact Hs|].
  simpl in Hmap. injection Hmap as Ht Hl Hmap.
  cbn [fold_left]. apply IH; [|exact Hmap].
  unfold toc_titles_step, body_titles_step, stripped_text.
  rewrite Ht, Hl.
  destruct (nonempty (strip (get (n_text h) []))); [|exact Hs].
  now apply same_titles_set.
Qed.

Lemma same_titles_keys toc_titles body_titles :
  same_titles toc_titles body_titles ->
  dict_keys toc_titles = dict_keys body_titles.
Proof.
  unfold dict_keys. induction 1 as [|x y t b [Hk _] _ IH]; simpl;
    [reflexivity|]. now rewrite Hk, IH.
Qed.

Lemma same_titles_find toc_titles body_titles kv :
  same_titles toc_titles body_titles ->
  NoDup (dict_keys toc_titles) -> In kv toc_titles ->
  exists bd,
    find (fun kv' : str * BodyData => PyStr.eqb (fst kv) (fst kv'))
         body_titles = Some (fst kv, bd)
    /\ td_level (snd kv) = bd_level bd.
Proof.
  unfold same_titles.
  induction 1 as [|x y t b [Hk Hv] Hs IH]; intros Hnd Hin;
    [contradiction|].
  simpl in Hnd. inversion Hnd as [|? ? Hnin Hnd']; subst.
  destruct Hin as [-> | Hin]; simpl.
  - rewrite Hk, pystr_eqb_refl. exists (snd y). split; [|exact Hv].
    now destruct y.
  - assert (Hne : PyStr.eqb (fst kv) (fst y) = false).
    { destruct (PyStr.eqb (fst kv) (fst y)) eqn:E; [|reflexivity].
      apply pystr_eqb_eq in E. exfalso. apply Hnin.
      rewrite Hk, <- E. now apply in_map. }
    rewrite Hne. now apply IH.
Qed.

Lemma toc_titles_nodup es : forall toc_titles,
  NoDup (dict_keys toc_titles) ->
  NoDup (dict_keys (fold_left toc_titles_step es toc_titles)).
Proof.
  induction es as [|e es IH]; intros t Hnd; [exact Hnd|].
  cbn [fold_left]. apply IH. unfold toc_titles_step.
  destruct (nonempty _); [|exact Hnd].
  now apply (dict_keys_upsert_nodup PyStr.eqb pystr_eqb_eq).
Qed.

Lemma body_titles_key hs : forall body_titles k,
  In k (dict_keys body_titles)
  \/ (exists h, In h hs /\ stripped_text h <> []
                /\ k = _normalize_title (stripped_text h)) ->
  In k (dict_keys (fold_left body_titles_step hs body_titles)).
Proof.
  induction hs as [|h hs IH]; intros b k Hk.
  - destruct Hk as [Hk | (h & [] & _)]. exact Hk.
  - cbn [fold_left]. apply IH.
    destruct Hk as [Hk | (h' & [<- | Hin] & Hne & ->)].
    + left. unfold body_titles_step.
      destruct (nonempty _); [|exact Hk].
      apply (dict_keys_upsert_iff PyStr.eqb pystr_eqb_eq). now right.
    + left. unfold body_titles_step.
      destruct (stripped_text h) eqn:E; [congruence|]. cbn [nonempty].
      apply (dict_keys_upsert_iff PyStr.eqb pystr_eqb_eq). now left.
    + right. exists h'. repeat split; assumption.
Qed.
End StructureFacts.

(** X7. Whatever structure rule triggers it, the structure check files
    its issues under the checker's own rule ids, never under the id of
    the rule; the issues have category [structure] and take the fix of
    the rule. *)
Theorem structure_issues_fields `{UnicodeDB}
        (rule : Rule) (doc : DocSnapshot) :
  Forall (fun i =>
            In (rule_id i) structure_issue_ids
            /\ rule_id i <> r_id rule
            /\ category i = u"structure"
            /\ fix_action i = r_fix_action rule
            /\ fix_params i = r_fix_params rule)
         (RuleEngine._check_structure_rule rule doc).
Proof.
  unfold RuleEngine._check_structure_rule.
  set (issues := if rule_key_eqb (r_id rule) _ then _ else _).
  assert (Hall : Forall (fun i => checker_issue i /\ rule_id i <> r_id rule)
                        issues).
  { subst issues.
    assert (Hids : forall l id,
               Forall checker_issue l ->
               r_id rule = RuleName id ->
               ~ In (RuleName id) structure_issue_ids ->
               Forall (fun i => checker_issue i /\ rule_id i <> r_id rule) l).
    { intros l id Hl Hid Hnin. eapply Forall_impl; [|exact Hl].
      intros i Hi. split; [exact Hi|]. intro E. apply Hnin.
      rewrite <- Hid, <- E. apply Hi. }
    destruct (rule_key_eqb (r_id rule)
                (RuleName (u"REQUIRED_SECTIONS_CHECK"))) eqn:E1.
    { apply rule_key_eqb_eq in E1.
      destruct (get _ _) as [|s required]; [constructor|].
      apply (Hids _ _ (required_sections_checker doc (s :: required)) E1).
      vm_compute. intuition discriminate. }
    destruct (rule_key_eqb (r_id rule)
                (RuleName (u"TOC_BODY_CONSISTENCY"))) eqn:E2.
    { apply rule_key_eqb_eq in E2.
      apply (Hids _ _ (toc_body_checker doc) E2).
      vm_compute. intuition discriminate. }
    destruct (rule_key_eqb (r_id rule)
                (RuleName (u"HEADING_HIERARCHY_CHECK"))) eqn:E3.
    { apply rule_key_eqb_eq in E3.
      apply (Hids _ _ (heading_hierarchy_checker doc) E3).
      vm_compute. intuition discriminate. }
    constructor. }
  induction Hall as [|i l [(Hid & Hcat & Hfa & Hfp) Hne] _ IH]; simpl;
    constructor; [|exact IH].
  cbn. rewrite Hfa, Hfp. repeat split; assumption.
Qed.

(** X8. A required section whose name is, letter for letter, the text
    of a heading of the document is not reported: when every required
    name is such a text, there is no issue. *)
Theorem verbatim_sections_not_missing `{UnicodeDB}
        (doc : DocSnapshot) (required : list str) :
  Forall (fun s => s <> []
                   /\ exists h, In h (headings doc)
                                /\ StructureChecker.stripped_text h = s)
         required ->
  StructureChecker.check_required_sections doc required = [].
Proof.
  intro Hall. unfold StructureChecker.check_required_sections.
  apply flat_map_nil. intros s Hs.
  rewrite Forall_forall in Hall.
  destruct (Hall s Hs) as (Hne & h & Hh & E).
  rewrite find_section_verbatim; [reflexivity|].
  rewrite <- E. apply found_sections_in; [exact Hh|]. now rewrite E.
Qed.

Lemma verbatim_sections_not_missing_witness :
  Forall (fun s => s <> []
                   /\ exists h,
                        In h (headings
                                (doc_of_headings
                                   [heading_node (u"Abstract") 1 0]))
                        /\ @StructureChecker.stripped_text ascii_db h = s)
         [u"Abstract"]
  /\ @StructureChecker.check_required_sections ascii_db
       (doc_of_headings [heading_node (u"Abstract") 1 0]) [u"Abstract"]
     = [].
Proof.
  assert (Hall : Forall (fun s => s <> []
                   /\ exists h,
                        In h (headings
                                (doc_of_headings
                                   [heading_node (u"Abstract") 1 0]))
                        /\ @StructureChecker.stripped_text ascii_db h = s)
         [u"Abstract"]).
  { constructor; [|constructor]. split; [discriminate|].
    exists (heading_node (u"Abstract") 1 0).
    split; [now left|reflexivity]. }
  split; [exact Hall|].
  apply (@verbatim_sections_not_missing ascii_db _ _ Hall).
Defined.

(** X9. A heading whose text is nothing but an enumerator or
    punctuation, so that its normalised title is empty, counts as a
    match for every section name: with such a heading in the document
    no required section is ever reported missing. *)
Theorem blank_title_matches_every_section `{UnicodeDB}
        (doc : DocSnapshot) (h : Node) (required : list str) :
  In h (headings doc) ->
  StructureChecker.stripped_text h <> [] ->
  StructureChecker._normalize_title (StructureChecker.stripped_text h) = [] ->
  StructureChecker.check_required_sections doc required = [].
Proof.
  intros Hh Hne Hblank. unfold StructureChecker.check_required_sections.
  apply flat_map_nil. intros s _.
  rewrite (@find_section_blank _ s (StructureChecker.stripped_text h));
    [reflexivity| |exact Hblank].
  now apply found_sections_in.
Qed.

Lemma blank_title_matches_every_section_witness :
  In (heading_node (u"1.") 1 0)
     (headings (doc_of_headings [heading_node (u"1.") 1 0]))
  /\ @StructureChecker.stripped_text ascii_db (heading_node (u"1.") 1 0)
     <> []
  /\ @StructureChecker._normalize_title ascii_db
       (@StructureChecker.stripped_text ascii_db (heading_node (u"1.") 1 0))
     = []
  /\ @StructureChecker.check_required_sections ascii_db
       (doc_of_headings [heading_node (u"1.") 1 0])
       [u"Abstract"; u"References"]
     = [].
Proof.
  assert (Hin : In (heading_node (u"1.") 1 0)
                   (headings (doc_of_headings [heading_node (u"1.") 1 0])))
    by now left.
  assert (Hne : @StructureChecker.stripped_text ascii_db
                  (heading_node (u"1.") 1 0) <> [])
    by (vm_compute; discriminate).
  assert (Hblank : @StructureChecker._normalize_title ascii_db
                     (@StructureChecker.stripped_text ascii_db
                        (heading_node (u"1.") 1 0)) = [])
    by reflexivity.
  repeat (split; [assumption|]).
  apply (@blank_title_matches_every_section ascii_db _ _ _ Hin Hne Hblank).
Defined.

(** X10. A table of contents which lists the headings of the body,
    title by title and level by level, is consistent with it: the
    check returns no issue. *)
Theorem toc_mirroring_headings_consistent `{UnicodeDB}
        (doc : DocSnapshot) (t : Toc) :
  table_of_contents doc = Some t ->
  toc_exists t = Some true ->
  headings doc <> [] ->
  toc_mirrors_headings t doc ->
  StructureChecker.check_toc_body_consistency doc = [].
Proof.
  intros Htoc Hex Hhs Hmirror.
  unfold StructureChecker.check_toc_body_consistency,
         StructureChecker.toc_present, StructureChecker.toc_entry_list,
         StructureChecker.toc.
  rewrite Htoc, Hex. cbn [get negb].
  destruct (toc_entries t) as [|e es] eqn:Ees.
  { unfold toc_mirrors_headings in Hmirror. rewrite Ees in Hmirror.
    destruct (headings doc); [congruence|discriminate]. }
  rewrite <- Ees.
  set (toc_titles := fold_left StructureChecker.toc_titles_step
                               (toc_entries t) []).
  set (body_titles := fold_left StructureChecker.body_titles_step
                                (headings doc) []).
  assert (Hsame : same_titles toc_titles body_titles).
  { apply same_titles_fold; [constructor|exact Hmirror]. }
  assert (Hnd : NoDup (dict_keys toc_titles)).
  { apply toc_titles_nodup. constructor. }
  rewrite flat_map_nil, flat_map_nil; [reflexivity| |].
  - intros hd Hhd. apply filter_In in Hhd as [Hhd _].
    unfold StructureChecker.check_level1_heading.
    destruct (StructureChecker.nonempty
                (StructureChecker.stripped_text hd)) eqn:Ene;
      [|reflexivity].
    assert (Hkey : In (StructureChecker._normalize_title
                         (StructureChecker.stripped_text hd))
                      (dict_keys toc_titles)).
    { rewrite (same_titles_keys Hsame). apply body_titles_key.
      right. exists hd. repeat split; [exact Hhd|].
      destruct (StructureChecker.stripped_text hd); discriminate. }
    assert (Hex' : existsb
              (fun normalized_toc =>
                 PyStr.eqb (StructureChecker._normalize_title
                              (StructureChecker.stripped_text hd))
                           normalized_toc
                 || StructureChecker.fuzzy_match
                      (StructureChecker._normalize_title
                         (StructureChecker.stripped_text hd))
                      normalized_toc)
              (dict_keys toc_titles) = true).
    { apply existsb_exists. eexists. split; [exact Hkey|].
      now rewrite pystr_eqb_refl. }
    now rewrite Hex'.
  - intros kv Hkv. unfold StructureChecker.check_toc_entry,
                          StructureChecker.find_body.
    destruct (@same_titles_find toc_titles body_titles kv Hsame Hnd Hkv) as (bd & Hfind & Hlevel).
    rewrite Hfind. cbn [snd]. rewrite Hlevel, Z.eqb_refl. reflexivity.
Qed.

Lemma toc_mirroring_headings_consistent_witness :
  table_of_contents
    (doc_with_toc [heading_node (u"1. Scope") 1 0;
                   heading_node (u"1.1 Terms") 2 1]
                  [toc_entry (u"1. Scope") 1; toc_entry (u"1.1 Terms") 2])
  = Some {| toc_exists := Some true;
            toc_entries := [toc_entry (u"1. Scope") 1;
                            toc_entry (u"1.1 Terms") 2] |}
  /\ @StructureChecker.check_toc_body_consistency ascii_db
       (doc_with_toc [heading_node (u"1. Scope") 1 0;
                      heading_node (u"1.1 Terms") 2 1]
                     [toc_entry (u"1. Scope") 1; toc_entry (u"1.1 Terms") 2])
     = [].
Proof.
  split; [reflexivity|].
  apply (@toc_mirroring_headings_consistent ascii_db
           (doc_with_toc [heading_node (u"1. Scope") 1 0;
                          heading_node (u"1.1 Terms") 2 1]
                         [toc_entry (u"1. Scope") 1;
                          toc_entry (u"1.1 Terms") 2])
           {| toc_exists := Some true;
              toc_entries := [toc_entry (u"1. Scope") 1;
                              toc_entry (u"1.1 Terms") 2] |}
           eq_refl eq_refl).
  - discriminate.
  - reflexivity.
Defined.

(* ================================================================== *)
(** * From the check to the revision *)

Section Pipeline.
Import RuleEngine RevisionEngine.
Variable n_paragraphs : nat.

Lemma fold_group_same rest : forall k g,
  Forall (fun i => rule_id i = k) rest ->
  fold_left group_step rest [(k, g)]
  = [(k, group_extend g (map location rest))].
Proof.
  induction rest as [|i rest IH]; intros k g Hall.
  - simpl. do 2 f_equal. destruct g. unfold group_extend. simpl.
    now rewrite app_nil_r.
  - inversion Hall as [|? ? Hi Hrest]; subst.
    cbn [fold_left map]. unfold group_step at 2. cbn [dict_upsert].
    rewrite (proj2 (rule_key_eqb_eq (rule_id i) (rule_id i)) eq_refl).
    rewrite (IH _ _ Hrest), group_extend_append. reflexivity.
Qed.

Lemma merge_same_rule i rest :
  Forall (fun j => rule_id j = rule_id i) rest ->
  _merge_issues_by_rule (i :: rest)
  = [build_merged (group_extend (group_new i) (map location rest))].
Proof.
  intro Hall. unfold _merge_issues_by_rule, group_issues.
  cbn [fold_left]. unfold group_step at 2. cbn [dict_upsert].
  now rewrite fold_group_same by exact Hall.
Qed.

Lemma targets_any_issue i j loc :
  map snd (process_location record_fix n_paragraphs i [] loc)
  = map snd (process_location record_fix n_paragraphs j [] loc).
Proof.
  unfold process_location, record_fix.
  destruct (is_empty_location loc); [reflexivity|].
  destruct (PyStr.opt_eqb (loc_type loc) (Some (u"document")));
    [reflexivity|].
  destruct (_ || _); [|reflexivity].
  destruct (match loc_index loc with
            | Some k => Some k
            | None => loc_paragraph_index loc
            end) as [k|]; [|reflexivity].
  destruct (k <? n_paragraphs); reflexivity.
Qed.

Lemma map_snd_flat_map {A B C : Type} (f : A -> list (B * C)) l :
  map snd (flat_map f l) = flat_map (fun x => map snd (f x)) l.
Proof.
  induction l as [|x l IH]; simpl; [reflexivity|].
  now rewrite map_app, IH.
Qed.

Lemma flat_map_of_map {A B C : Type} (f : B -> list C) (g : A -> B) l :
  flat_map f (map g l) = flat_map (fun x => f (g x)) l.
Proof.
  induction l as [|x l IH]; simpl; [reflexivity|]. now rewrite IH.
Qed.

(** The calls made for a merged issue are those of its raw locations. *)
Lemma merged_issue_calls g :
  g_locations g <> [] ->
  applied_fixes n_paragraphs [build_merged g]
  = flat_map (process_location record_fix n_paragraphs (build_merged g) [])
             (g_locations g).
Proof.
  intro Hne. unfold applied_fixes, generate_revised_document.
  cbn [fold_left]. unfold process_issue. cbn [raw_locations build_merged].
  destruct (g_locations g) as [|loc locs] eqn:E; [congruence|].
  rewrite process_locations_log. reflexivity.
Qed.

(** The calls made for an issue which was not merged are those of its
    location. *)
Lemma unmerged_issue_calls i :
  unmerged i ->
  applied_fixes n_paragraphs [i]
  = process_location record_fix n_paragraphs i [] (location i).
Proof.
  intros [Hraw Hty]. unfold applied_fixes, generate_revised_document.
  cbn [fold_left]. unfold process_issue. rewrite Hraw.
  destruct (PyStr.opt_eqb (loc_type (location i)) (Some (u"merged")))
    eqn:E; [|reflexivity].
  exfalso. apply Hty. destruct (loc_type (location i)) as [ty|];
    [|discriminate].
  simpl in E. apply pystr_eqb_eq in E. now subst.
Qed.

(** For the issues of a single rule, merging and revising applies the
    fix at the targets of the issues' own locations, in order. *)
Lemma same_rule_fix_targets issues k :
  Forall (fun i => rule_id i = k) issues ->
  map snd (applied_fixes n_paragraphs (_merge_issues_by_rule issues))
  = flat_map (fun i => map snd (process_location record_fix n_paragraphs
                                                 i [] (location i)))
             issues.
Proof.
  intro Hall. destruct issues as [|i rest]; [reflexivity|].
  inversion Hall as [|? ? Hi Hrest]; subst.
  rewrite merge_same_rule by exact Hrest.
  rewrite merged_issue_calls by discriminate.
  unfold FixCall. rewrite map_snd_flat_map. cbn [g_locations group_extend group_new app].
  change (location i :: map location rest) with (map location (i :: rest)).
  rewrite flat_map_of_map. apply flat_map_ext. intro j.
  apply targets_any_issue.
Qed.

Lemma is_empty_location_typed loc ty :
  loc_type loc = Some ty -> is_empty_location loc = false.
Proof. destruct loc. simpl. now intros ->. Qed.

Lemma build_location_type target match_type :
  loc_type (_build_location target match_type) = Some match_type.
Proof.
  unfold _build_location.
  repeat match goal with
         | |- context [if ?b then _ else _] => destruct b
         end; reflexivity.
Qed.

Lemma build_location_fix_target issue target match_type :
  map snd (process_location record_fix n_paragraphs issue []
                            (_build_location target match_type))
  = fix_target n_paragraphs match_type target.
Proof.
  unfold process_location, fix_target.
  rewrite (@is_empty_location_typed _ _ (build_location_type _ _)),
          build_location_type.
  cbn [PyStr.opt_eqb].
  destruct (PyStr.eqb match_type (u"document")); [reflexivity|].
  destruct (PyStr.eqb match_type (u"paragraph")) eqn:Ep.
  { apply pystr_eqb_eq in Ep. subst match_type. cbn [orb].
    change (loc_index (_build_location target (u"paragraph")))
      with (Some (get (n_index (node_of target)) 0)).
    cbv beta iota.
    destruct (get (n_index (node_of target)) 0 <? n_paragraphs);
      reflexivity. }
  destruct (PyStr.eqb match_type (u"heading")) eqn:Eh; [|reflexivity].
  apply pystr_eqb_eq in Eh. subst match_type. cbn [orb].
  change (loc_index (_build_location target (u"heading")))
    with (@None nat).
  change (loc_paragraph_index (_build_location target (u"heading")))
    with (n_paragraph_index (node_of target)).
  cbv beta iota.
  destruct (n_paragraph_index (node_of target)) as [k|]; [|reflexivity].
  destruct (k <? n_paragraphs); reflexivity.
Qed.

Lemma process_location_calls issue loc :
  Forall (fun c => fst c = issue /\ target_exists n_paragraphs (snd c))
         (process_location record_fix n_paragraphs issue [] loc).
Proof.
  unfold process_location, record_fix.
  destruct (is_empty_location loc); [constructor|].
  destruct (PyStr.opt_eqb (loc_type loc) (Some (u"document"))).
  { repeat constructor. }
  destruct (_ || _); [|constructor].
  destruct (match loc_index loc with
            | Some k => Some k
            | None => loc_paragraph_index loc
            end) as [k|]; [|constructor].
  destruct (k <? n_paragraphs) eqn:E; [|constructor].
  apply Nat.ltb_lt in E. repeat constructor. exact E.
Qed.

Lemma process_issue_calls issue :
  Forall (fun c => fst c = issue /\ target_exists n_paragraphs (snd c))
         (process_issue record_fix n_paragraphs [] issue).
Proof.
  assert (Hlocs : forall locs,
             Forall (fun c => fst c = issue
                              /\ target_exists n_paragraphs (snd c))
                    (fold_left (process_location record_fix n_paragraphs
                                                 issue) locs [])).
  { intro locs. rewrite process_locations_log. cbn [app].
    induction locs as [|loc locs IH]; [constructor|]. cbn [flat_map].
    apply Forall_app. split; [apply process_location_calls|exact IH]. }
  unfold process_issue.
  destruct (raw_locations issue) as [[|loc locs]|]; try apply Hlocs.
  all: destruct (PyStr.opt_eqb _ _); try apply Hlocs.
  all: destruct (PyStr.eqb _ _); repeat constructor.
Qed.

Lemma in_document_targets (l : list (option nat)) :
  flat_map (fun o => match o with
                     | Some p => if p <? n_paragraphs then [Some p] else []
                     | None => []
                     end) l
  = filter (in_document n_paragraphs) l.
Proof.
  induction l as [|[p|] l IH]; simpl; [reflexivity| |exact IH].
  destruct (p <? n_paragraphs); simpl; now rewrite IH.
Qed.
End Pipeline.

(** X11. For a rule which is not a structure rule and is not matched
    on runs, checking, merging and revising applies the fix once for
    every failing target, in document order: on the document for a
    document rule, on the paragraph itself for a paragraph rule, on the
    heading's paragraph for a heading rule, provided that paragraph
    exists, and nowhere for any other match type. *)
Theorem rule_fix_targets `{UnicodeDB}
        (generic : Target -> Condition -> bool)
        (rule : Rule) (doc : DocSnapshot) (n_paragraphs : nat) :
  r_category rule <> u"structure" ->
  get (r_match rule) (u"document") <> u"run" ->
  map snd (RevisionEngine.applied_fixes n_paragraphs
             (RuleEngine._merge_issues_by_rule
                (RuleEngine._check_rule generic rule doc)))
  = flat_map (fix_target n_paragraphs (get (r_match rule) (u"document")))
             (RuleEngine.failing_targets generic rule doc).
Proof.
  intros Hcat Hrun. unfold RuleEngine._check_rule.
  destruct (PyStr.eqb (r_category rule) (u"structure")) eqn:Ec.
  { apply pystr_eqb_eq in Ec. contradiction. }
  destruct (PyStr.eqb (get (r_match rule) (u"document")) (u"run")) eqn:Er.
  { apply pystr_eqb_eq in Er. contradiction. }
  rewrite (@same_rule_fix_targets n_paragraphs _ (r_id rule)).
  - rewrite flat_map_of_map. apply flat_map_ext. intro target.
    apply build_location_fix_target.
  - apply Forall_forall. intros i Hi.
    apply in_map_iff in Hi as (target & <- & _). reflexivity.
Qed.

Lemma rule_fix_targets_witness :
  r_category margin_rule <> u"structure"
  /\ get (r_match margin_rule) (u"document") <> u"run"
  /\ map snd (RevisionEngine.applied_fixes 0
                (RuleEngine._merge_issues_by_rule
                   (@RuleEngine._check_rule ascii_db generic_pass
                      margin_rule narrow_margin_doc)))
     = [None].
Proof.
  assert (Hc : r_category margin_rule <> u"structure")
    by (vm_compute; discriminate).
  assert (Hr : get (r_match margin_rule) (u"document") <> u"run")
    by (vm_compute; discriminate).
  split; [exact Hc|]. split; [exact Hr|].
  rewrite (@rule_fix_targets ascii_db generic_pass margin_rule
             narrow_margin_doc 0 Hc Hr).
  reflexivity.
Defined.

(** X12. For a rule matched on runs, checking, merging and revising
    applies the fix exactly once on every existing paragraph which has
    a violating run, on no other paragraph and never on the document as
    a whole. *)
Theorem run_rule_fixes_each_paragraph_once `{UnicodeDB}
        (generic : Target -> Condition -> bool)
        (rule : Rule) (doc : DocSnapshot) (n_paragraphs : nat) :
  r_match rule = Some (u"run") ->
  r_category rule <> u"structure" ->
  let targets :=
    map snd (RevisionEngine.applied_fixes n_paragraphs
               (RuleEngine._merge_issues_by_rule
                  (RuleEngine._check_rule generic rule doc))) in
  NoDup targets
  /\ ~ In None targets
  /\ forall p, In (Some p) targets
               <-> p < n_paragraphs
                   /\ In p (violating_paragraphs generic rule doc).
Proof.
  intros Hrun Hcat targets.
  destruct (run_rule_paragraphs generic rule doc Hrun Hcat)
    as (Hnd & Hin & Hall).
  set (out := RuleEngine._check_rule generic rule doc) in *.
  assert (E : targets = filter (in_document n_paragraphs)
                               (issue_paragraphs out)).
  { subst targets.
    rewrite (@same_rule_fix_targets n_paragraphs _ (r_id rule)).
    - rewrite <- in_document_targets. unfold issue_paragraphs.
      rewrite flat_map_of_map.
      clear Hnd Hin. induction Hall as [|i l Hi _ IH]; [reflexivity|].
      cbn [flat_map]. rewrite IH. f_equal.
      destruct Hi as (_ & Hty & _ & p & Hp & _).
      unfold RevisionEngine.process_location, RevisionEngine.record_fix.
      rewrite (@is_empty_location_typed _ _ Hty), Hty, Hp.
      change (PyStr.opt_eqb (Some (u"paragraph")) (Some (u"document")))
        with false.
      change (PyStr.opt_eqb (Some (u"paragraph")) (Some (u"paragraph")))
        with true.
      cbn [orb]. cbv iota.
      destruct (p <? n_paragraphs); reflexivity.
    - eapply Forall_impl; [|exact Hall]. intros i Hi. apply Hi. }
  rewrite E. split; [now apply NoDup_filter|]. split.
  - intro Hn. apply filter_In in Hn as [_ Hn]. discriminate.
  - intro p. rewrite filter_In, Hin. cbn [in_document].
    rewrite Nat.ltb_lt. tauto.
Qed.

Lemma run_rule_fixes_each_paragraph_once_witness :
  r_match body_font_rule = Some (u"run")
  /\ r_category body_font_rule <> u"structure"
  /\ map snd (RevisionEngine.applied_fixes 1
                (RuleEngine._merge_issues_by_rule
                   (@RuleEngine._check_rule ascii_db generic_pass
                      body_font_rule (doc_of_arial_runs 5))))
     = [Some 0]
  /\ NoDup (map snd (RevisionEngine.applied_fixes 1
                (RuleEngine._merge_issues_by_rule
                   (@RuleEngine._check_rule ascii_db generic_pass
                      body_font_rule (doc_of_arial_runs 5))))).
Proof.
  assert (Hr : r_match body_font_rule = Some (u"run")) by reflexivity.
  assert (Hc : r_category body_font_rule <> u"structure")
    by (vm_compute; discriminate).
  split; [exact Hr|]. split; [exact Hc|]. split; [reflexivity|].
  destruct (@run_rule_fixes_each_paragraph_once ascii_db generic_pass
              body_font_rule (doc_of_arial_runs 5) 1 Hr Hc) as [Hnd _].
  exact Hnd.
Defined.

(** X13. Every call of [_apply_fix] made by the revision is made for
    one of the given issues, and its target is the document as a whole
    or a paragraph which exists in the document. *)
Theorem fixes_target_existing_paragraphs
        (n_paragraphs : nat) (issues : list Issue) :
  Forall (fun c => In (fst c) issues
                   /\ target_exists n_paragraphs (snd c))
         (RevisionEngine.applied_fixes n_paragraphs issues).
Proof.
  rewrite applied_fixes_per_issue. apply forall_flat_map.
  intros i Hi.
  unfold RevisionEngine.applied_fixes,
         RevisionEngine.generate_revised_document.
  cbn [fold_left].
  eapply Forall_impl; [|apply process_issue_calls].
  intros c [-> Hc]. split; assumption.
Qed.

(** X14. Merging the issues of a check before revising does not change
    where fixes are applied: the targets of the calls made for the
    merged list are those made for the issues themselves, up to
    order. *)
Theorem merging_keeps_fix_targets
        (n_paragraphs : nat) (issues : list Issue) :
  Forall unmerged issues ->
  Permutation
    (map snd (RevisionEngine.applied_fixes n_paragraphs
                (RuleEngine._merge_issues_by_rule issues)))
    (map snd (RevisionEngine.applied_fixes n_paragraphs issues)).
Proof.
  intro Hall. destruct issues as [|i0 rest]; [reflexivity|].
  set (issues := i0 :: rest) in *.
  set (T := fun loc =>
              map snd (RevisionEngine.process_location
                         RevisionEngine.record_fix n_paragraphs i0 [] loc)).
  assert (R : map snd (RevisionEngine.applied_fixes n_paragraphs issues)
              = flat_map T (map location issues)).
  { rewrite applied_fixes_per_issue. unfold RevisionEngine.FixCall.
    rewrite map_snd_flat_map, flat_map_of_map.
    clear - Hall. induction Hall as [|i l Hi _ IH]; [reflexivity|].
    cbn [flat_map]. rewrite IH. f_equal.
    rewrite (unmerged_issue_calls n_paragraphs Hi).
    apply targets_any_issue. }
  assert (L : map snd (RevisionEngine.applied_fixes n_paragraphs
                         (RuleEngine._merge_issues_by_rule issues))
              = flat_map T (grouped_locations
                              (RuleEngine.group_issues issues))).
  { unfold RuleEngine._merge_issues_by_rule, grouped_locations.
    assert (Hinh : groups_inhabited (RuleEngine.group_issues issues))
      by (apply groups_inhabited_fold; constructor).
    unfold groups_inhabited in Hinh.
    rewrite applied_fixes_per_issue. unfold RevisionEngine.FixCall.
    rewrite map_snd_flat_map, flat_map_of_map.
    induction Hinh as [|g gs Hg _ IH]; [reflexivity|].
    cbn [flat_map]. rewrite IH, flat_map_app. f_equal.
    rewrite (@merged_issue_calls n_paragraphs g Hg).
    unfold RevisionEngine.FixCall. rewrite map_snd_flat_map.
    apply flat_map_ext. intro loc. apply targets_any_issue. }
  rewrite L, R. apply Permutation_flat_map.
  apply (grouped_locations_fold issues []).
Qed.

Lemma merging_keeps_fix_targets_witness :
  Forall unmerged [paragraph_issue 1; paragraph_issue 0]
  /\ Permutation
       (map snd (RevisionEngine.applied_fixes 2
                   (RuleEngine._merge_issues_by_rule
                      [paragraph_issue 1; paragraph_issue 0])))
       (map snd (RevisionEngine.applied_fixes 2
                   [paragraph_issue 1; paragraph_issue 0])).
Proof.
  assert (Hall : Forall unmerged [paragraph_issue 1; paragraph_issue 0]).
  { repeat constructor; vm_compute; discriminate. }
  split; [exact Hall|].
  apply (@merging_keeps_fix_targets 2 _ Hall).
Defined.

(* ================================================================== *)
(** * The number of display strings *)

Section ScanBounds.
Import RuleEngine.
Variable key : Location -> nat.
Variable emit : list Location -> list str.
Hypothesis emit_bounds : forall cur,
  cur <> [] -> 1 <= List.length (emit cur) <= List.length cur.

Lemma scan_bounds rest : forall start cur,
  cur <> [] ->
  1 <= List.length (scan key emit start cur rest)
    <= List.length cur + List.length rest.
Proof.
  induction rest as [|x rest IH]; intros start cur Hne; simpl.
  - pose proof (emit_bounds Hne). lia.
  - destruct (key x =? start + List.length cur).
    + assert (Hne' : cur ++ [x] <> []) by (destruct cur; discriminate).
      specialize (IH start (cur ++ [x]) Hne').
      rewrite length_app in IH. simpl in IH. lia.
    + rewrite length_app. pose proof (emit_bounds Hne).
      assert (Hx : [x] <> []) by discriminate.
      specialize (IH (key x) [x] Hx). simpl in IH. lia.
Qed.

Lemma dedupe_length l : forall seen,
  List.length (dedupe key seen l) <= List.length l.
Proof.
  induction l as [|x l IH]; intro seen; simpl; [lia|].
  destruct (existsb _ seen); simpl.
  - specialize (IH seen). lia.
  - specialize (IH (key x :: seen)). lia.
Qed.

Lemma dedupe_first x l :
  dedupe key [] (x :: l) = x :: dedupe key [key x] l.
Proof. reflexivity. Qed.

Lemma merge_loop_bounds l :
  (List.length l <> 0 ->
   1 <= List.length (merge_loop key emit (dedupe key [] l)))
  /\ List.length (merge_loop key emit (dedupe key [] l)) <= List.length l.
Proof.
  destruct l as [|x l]; [simpl; lia|].
  rewrite dedupe_first. cbn [merge_loop].
  assert (Hx : [x] <> []) by discriminate.
  pose proof (scan_bounds (dedupe key [key x] l) (key x) Hx) as Hs.
  pose proof (dedupe_length l [key x]). simpl in *. lia.
Qed.

Lemma sorted_by_length l :
  List.length (sorted_by key l) = List.length l.
Proof. apply Permutation_length, (sorted_perm key). Qed.
End ScanBounds.

Section DisplayBounds.
Import RuleEngine.

Lemma emit_runs_bounds cur :
  cur <> [] -> 1 <= List.length (emit_runs cur) <= List.length cur.
Proof.
  intro Hne. unfold emit_runs.
  destruct (3 <=? List.length cur) eqn:E.
  - apply Nat.leb_le in E. destruct cur; [congruence|]. simpl in *. lia.
  - rewrite length_map. destruct cur; [congruence|]. simpl. lia.
Qed.

Lemma emit_figures_bounds cur :
  cur <> [] -> 1 <= List.length (emit_figures cur) <= List.length cur.
Proof.
  intro Hne. unfold emit_figures.
  destruct (3 <=? List.length cur) eqn:E.
  - apply Nat.leb_le in E. destruct cur; [congruence|]. simpl in *. lia.
  - rewrite length_map. destruct cur; [congruence|]. simpl. lia.
Qed.

Lemma emit_paragraphs_bounds end_line cur :
  cur <> [] ->
  1 <= List.length (emit_paragraphs end_line cur) <= List.length cur.
Proof.
  intro Hne. unfold emit_paragraphs.
  destruct (3 <=? List.length cur) eqn:E.
  - apply Nat.leb_le in E. destruct cur; [congruence|].
    destruct (_ =? _)%Z; simpl in *; lia.
  - rewrite length_map. destruct cur; [congruence|]. simpl. lia.
Qed.

Lemma scan_paragraphs_bounds rest : forall start end_line cur,
  cur <> [] ->
  1 <= List.length (scan_paragraphs start end_line cur rest)
    <= List.length cur + List.length rest.
Proof.
  induction rest as [|x rest IH]; intros start end_line cur Hne; simpl.
  - pose proof (emit_paragraphs_bounds end_line Hne). lia.
  - destruct (_ && _).
    + assert (Hne' : cur ++ [x] <> []) by (destruct cur; discriminate).
      specialize (IH start (get_end_line x) (cur ++ [x]) Hne').
      rewrite length_app in IH. simpl in IH. lia.
    + rewrite length_app. pose proof (emit_paragraphs_bounds end_line Hne).
      assert (Hx : [x] <> []) by discriminate.
      specialize (IH (get_index x) (get_end_line x) [x] Hx).
      simpl in IH. lia.
Qed.

Lemma merge_runs_bounds l :
  (List.length l <> 0 -> 1 <= List.length (_merge_consecutive_runs l))
  /\ List.length (_merge_consecutive_runs l) <= List.length l.
Proof.
  unfold _merge_consecutive_runs. destruct l as [|x l]; [simpl; lia|].
  pose proof (@merge_loop_bounds get_paragraph_index emit_runs emit_runs_bounds
                (sorted_by get_paragraph_index (x :: l))) as Hb.
  rewrite sorted_by_length in Hb. exact Hb.
Qed.

Lemma merge_figures_bounds l :
  (List.length l <> 0 -> 1 <= List.length (_merge_consecutive_figures l))
  /\ List.length (_merge_consecutive_figures l) <= List.length l.
Proof.
  unfold _merge_consecutive_figures. destruct l as [|x l]; [simpl; lia|].
  pose proof (@merge_loop_bounds get_index emit_figures emit_figures_bounds
                (sorted_by get_index (x :: l))) as Hb.
  rewrite sorted_by_length in Hb. exact Hb.
Qed.

Lemma merge_paragraphs_bounds l :
  (List.length l <> 0 -> 1 <= List.length (_merge_consecutive_paragraphs l))
  /\ List.length (_merge_consecutive_paragraphs l) <= List.length l.
Proof.
  unfold _merge_consecutive_paragraphs. destruct l as [|x l]; [simpl; lia|].
  rewrite dedupe_first. cbn [merge_loop_paragraphs].
  assert (Hx : [x] <> []) by discriminate.
  pose proof (scan_paragraphs_bounds (dedupe get_index [get_index x] l)
                (get_index x) (get_end_line x) Hx) as Hs.
  pose proof (dedupe_length get_index l [get_index x]). simpl in *. lia.
Qed.

Lemma type_is_exclusive a b l :
  type_is a l = true -> type_is b l = true -> a = b.
Proof.
  unfold type_is. destruct (loc_type l) as [ty|]; [|discriminate].
  simpl. intros Ha Hb. apply pystr_eqb_eq in Ha, Hb. congruence.
Qed.

(** The four classes of locations of a page partition it. *)
Lemma type_partition l :
  List.length (filter (type_is (u"run")) l)
  + List.length (filter (type_is (u"paragraph")) l)
  + List.length (filter (type_is (u"figure")) l)
  + List.length (filter (fun x => negb (type_is (u"run") x
                                        || type_is (u"paragraph") x
                                        || type_is (u"figure") x)) l)
  = List.length l.
Proof.
  induction l as [|x l IH]; [reflexivity|]. cbn [filter].
  destruct (type_is (u"run") x) eqn:Er,
           (type_is (u"paragraph") x) eqn:Ep,
           (type_is (u"figure") x) eqn:Ef;
    try (pose proof (@type_is_exclusive _ _ _ Er Ep) as E;
         vm_compute in E; discriminate);
    try (pose proof (@type_is_exclusive _ _ _ Er Ef) as E;
         vm_compute in E; discriminate);
    try (pose proof (@type_is_exclusive _ _ _ Ep Ef) as E;
         vm_compute in E; discriminate);
    cbn [orb negb List.length]; lia.
Qed.

Lemma page_all_items_bounds page_locs :
  page_locs <> [] ->
  1 <= List.length (page_all_items page_locs) <= List.length page_locs.
Proof.
  intro Hne. unfold page_all_items.
  rewrite !length_app, length_map.
  pose proof (type_partition page_locs) as Hp.
  pose proof (merge_runs_bounds
                (sorted_by get_paragraph_index
                           (filter (type_is (u"run")) page_locs))) as Hr.
  pose proof (merge_paragraphs_bounds
                (sorted_by get_index
                           (filter (type_is (u"paragraph")) page_locs)))
    as Hq.
  pose proof (merge_figures_bounds
                (sorted_by get_index
                           (filter (type_is (u"figure")) page_locs))) as Hf.
  rewrite sorted_by_length in Hr, Hq, Hf.
  assert (Hn : List.length page_locs <> 0)
    by (destruct page_locs; [congruence|discriminate]).
  lia.
Qed.

Lemma group_pages_on_page locations p :
  In p (dict_keys (group_pages locations)) ->
  locations_on_page locations p <> [].
Proof.
  intro Hp. unfold group_pages in Hp.
  apply group_pages_keys_in in Hp as [[]|Hp].
  apply in_map_iff in Hp as (l & E & Hl).
  assert (Hin : In l (locations_on_page locations p)).
  { apply filter_In. split; [exact Hl|]. now apply Z.eqb_eq. }
  intro E0. now rewrite E0 in Hin.
Qed.
End DisplayBounds.

(** X15. Every page group of the display list shows at least one
    string and never more strings than it has locations: merging
    consecutive locations only ever shortens the list. *)
Theorem display_strings_bounded (locations : list Location) :
  Forall (fun g => 1 <= List.length (all_items g) <= total g)
         (RuleEngine._build_locations_list locations).
Proof.
  unfold RuleEngine._build_locations_list.
  destruct locations as [|l0 ls]; [constructor|].
  apply Forall_forall. intros g Hg.
  apply in_map_iff in Hg as (p & <- & Hp).
  apply (Permutation_in _ (sorted_Z_perm _)) in Hp.
  apply group_pages_on_page in Hp.
  pose proof (page_locs_group (l0 :: ls) p) as E.
  unfold page_locs, get in E.
  unfold RuleEngine.build_page. rewrite E.
  cbn [all_items total].
  now apply page_all_items_bounds.
Qed.

(* ================================================================== *)
(** * Further properties of the rule checks *)

Ltac literal_tests :=
  repeat match goal with
         | |- context [PyStr.eqb (PyStr.lit ?a) (PyStr.lit ?b)] =>
           let v := eval vm_compute in (PyStr.eqb (PyStr.lit a) (PyStr.lit b))
           in change (PyStr.eqb (PyStr.lit a) (PyStr.lit b)) with v
         end.

Section RuleFacts.
Import RuleEngine.
Context `{UnicodeDB}.
Variable generic : Target -> Condition -> bool.

Lemma filter_none {A : Type} (f : A -> bool) (l : list A) :
  (forall x, f x = false) -> filter f l = [].
Proof.
  intro Hf. induction l as [|x l IH]; [reflexivity|]. simpl.
  now rewrite Hf.
Qed.

Lemma match_font_empty target :
  _match_font_condition target empty_condition = true.
Proof.
  unfold _match_font_condition.
  destruct (negb (font_resolved (target_font target))); reflexivity.
Qed.

Lemma match_heading_empty target match_type :
  _match_heading_condition target empty_condition match_type = true.
Proof.
  unfold _match_heading_condition.
  destruct (PyStr.eqb match_type (u"section")); reflexivity.
Qed.

(** The evaluators of the six categories accept every target when the
    condition is empty. *)
Lemma match_empty_condition target category match_type :
  In category evaluated_categories ->
  _match_condition generic target empty_condition category match_type
  = true.
Proof.
  unfold evaluated_categories. cbn [In].
  intros [<-|[<-|[<-|[<-|[<-|[<-|[]]]]]]];
    unfold _match_condition; literal_tests; cbv iota.
  - reflexivity.
  - apply match_font_empty.
  - reflexivity.
  - apply match_heading_empty.
  - reflexivity.
  - reflexivity.
Qed.

Lemma evaluated_not_structure category :
  In category evaluated_categories ->
  PyStr.eqb category (u"structure") = false.
Proof.
  unfold evaluated_categories. cbn [In].
  intros [<-|[<-|[<-|[<-|[<-|[<-|[]]]]]]]; reflexivity.
Qed.

End RuleFacts.

(** X16. A rule of one of the six evaluated categories whose condition
    is missing or empty reports nothing, whatever the document. *)
Theorem unconstrained_rule_reports_nothing `{UnicodeDB}
        (generic : Target -> Condition -> bool)
        (rule : Rule) (doc : DocSnapshot) :
  In (r_category rule) evaluated_categories ->
  get (r_condition rule) empty_condition = empty_condition ->
  RuleEngine._check_rule generic rule doc = [].
Proof.
  intros Hcat Hcond. unfold RuleEngine._check_rule.
  rewrite evaluated_not_structure by exact Hcat.
  assert (E : RuleEngine.failing_targets generic rule doc = []).
  { unfold RuleEngine.failing_targets. rewrite Hcond.
    apply filter_none. intro target.
    now rewrite match_empty_condition by exact Hcat. }
  rewrite E. cbn [map].
  destruct (PyStr.eqb _ _); reflexivity.
Qed.

Lemma unconstrained_rule_reports_nothing_witness :
  In (r_category unconstrained_rule) evaluated_categories
  /\ get (r_condition unconstrained_rule) empty_condition = empty_condition
  /\ @RuleEngine._check_rule ascii_db generic_pass unconstrained_rule
       (doc_of_arial_runs 5) = [].
Proof.
  assert (Hcat : In (r_category unconstrained_rule) evaluated_categories)
    by (right; left; reflexivity).
  assert (Hcond : get (r_condition unconstrained_rule) empty_condition
                  = empty_condition) by reflexivity.
  split; [exact Hcat|]. split; [exact Hcond|].
  apply (@unconstrained_rule_reports_nothing ascii_db generic_pass
           unconstrained_rule (doc_of_arial_runs 5) Hcat Hcond).
Defined.

(** X17. A text with neither Chinese characters nor Latin letters
    passes every font condition: digits, punctuation and blanks are
    never checked. *)
Theorem font_check_skips_other_scripts `{UnicodeDB}
        (target : Target) (condition : Condition) :
  RuleEngine.contains_chinese
    (get (n_text (RuleEngine.node_of target)) []) = false ->
  RuleEngine.contains_english
    (get (n_text (RuleEngine.node_of target)) []) = false ->
  RuleEngine._match_font_condition target condition = true.
Proof.
  intros Hcn Hen. unfold RuleEngine._match_font_condition.
  rewrite Hcn, Hen.
  destruct (negb (RuleEngine.font_resolved (RuleEngine.target_font target)));
    [reflexivity|].
  unfold RuleEngine.font_name_ok, RuleEngine.font_size_ok.
  destruct (c_chinese_font condition), (c_english_font condition),
           (c_chinese_size_pt condition), (c_english_size_pt condition);
    reflexivity.
Qed.

Lemma font_check_skips_other_scripts_witness :
  RuleEngine.contains_chinese
    (get (n_text (RuleEngine.node_of digits_run)) []) = false
  /\ RuleEngine.contains_english
       (get (n_text (RuleEngine.node_of digits_run)) []) = false
  /\ @RuleEngine._match_font_condition ascii_db digits_run simsun_condition
     = true.
Proof.
  split; [reflexivity|]. split; [reflexivity|].
  apply (@font_check_skips_other_scripts ascii_db digits_run
           simsun_condition eq_refl eq_refl).
Defined.



(* ================================================================== *)
(** * The asynchronous check without AI *)

Section AsyncFacts.
Context `{UnicodeDB}.
Variable generic : Target -> Condition -> bool.
Variable ai_check_rule : nat -> DocSnapshot -> Rule -> list Issue.
Variable doc : DocSnapshot.


End AsyncFacts.



(* ================================================================== *)
(** * The report of the synchronous check *)

Section ReportFacts.
Import RuleEngine.
Context `{UnicodeDB}.
Variable generic : Target -> Condition -> bool.

Lemma structure_rule_ids rule doc :
  Forall (fun i => In (rule_id i) structure_issue_ids)
         (_check_structure_rule rule doc).
Proof.
  unfold _check_structure_rule. apply Forall_forall. intros i Hi.
  apply in_map_iff in Hi as (j & <- & Hj). cbn [rule_id].
  revert j Hj. apply Forall_forall.
  destruct (rule_key_eqb (r_id rule) _).
  { destruct (get _ _) as [|s required]; [constructor|].
    eapply Forall_impl; [|apply required_sections_checker].
    intros j Hc. apply Hc. }
  destruct (rule_key_eqb (r_id rule) _).
  { eapply Forall_impl; [|apply toc_body_checker]. intros j Hc. apply Hc. }
  destruct (rule_key_eqb (r_id rule) _); [|constructor].
  eapply Forall_impl; [|apply heading_hierarchy_checker].
  intros j Hc. apply Hc.
Qed.

(** The rule ids of the issues of one rule. *)
Lemma check_rule_ids rule doc :
  Forall (fun i => if PyStr.eqb (r_category rule) (u"structure")
                   then In (rule_id i) structure_issue_ids
                   else rule_id i = r_id rule)
         (_check_rule generic rule doc).
Proof.
  destruct (PyStr.eqb (r_category rule) (u"structure")) eqn:Ec.
  { unfold _check_rule. rewrite Ec. apply structure_rule_ids. }
  assert (Hns : r_category rule <> u"structure").
  { intro E. rewrite E in Ec. vm_compute in Ec. discriminate. }
  destruct (PyStr.eqb (get (r_match rule) (u"document")) (u"run")) eqn:Er.
  - assert (Hrun : r_match rule = Some (u"run")).
    { apply pystr_eqb_eq in Er. destruct (r_match rule) as [m|].
      - simpl in Er. now subst.
      - vm_compute in Er. discriminate. }
    destruct (run_rule_paragraphs generic rule doc Hrun Hns)
      as (_ & _ & Hall).
    eapply Forall_impl; [|exact Hall]. intros i Hi. apply Hi.
  - unfold _check_rule. rewrite Ec, Er.
    apply Forall_forall. intros i Hi.
    apply in_map_iff in Hi as (target & <- & _). reflexivity.
Qed.
End ReportFacts.

(** X20. The report of the synchronous check has at most one entry per
    rule id; every entry is filed under one of the structure checker's
    ids or under the id of a rule of the list which is neither AI-only
    nor a structure rule. *)
Theorem sync_report_rule_ids `{UnicodeDB}
        (generic : Target -> Condition -> bool)
        (rules : list Rule) (doc : DocSnapshot) :
  let report := RuleEngine.check_document_sync generic rules doc in
  NoDup (map rule_id report)
  /\ Forall (fun m =>
               In (rule_id m) structure_issue_ids
               \/ exists rule,
                    In rule rules
                    /\ r_checker rule <> Some (u"ai")
                    /\ r_category rule <> u"structure"
                    /\ rule_id m = r_id rule)
            report.
Proof.
  intro report. subst report. unfold RuleEngine.check_document_sync.
  set (issues := flat_map _ rules).
  split; [apply merge_rule_ids_nodup|].
  assert (Hissues : Forall (fun i =>
             In (rule_id i) structure_issue_ids
             \/ exists rule,
                  In rule rules
                  /\ r_checker rule <> Some (u"ai")
                  /\ r_category rule <> u"structure"
                  /\ rule_id i = r_id rule) issues).
  { subst issues. apply forall_flat_map. intros rule Hrule.
    destruct (PyStr.opt_eqb (r_checker rule) (Some (u"ai"))) eqn:Eai;
      [constructor|].
    eapply Forall_impl; [|apply check_rule_ids].
    intros i Hi. cbv beta in Hi.
    destruct (PyStr.eqb (r_category rule) (u"structure")) eqn:Ec;
      [now left|].
    right. exists rule. repeat split; try assumption.
    - intro E. rewrite E in Eai. vm_compute in Eai. discriminate.
    - intro E. rewrite E in Ec. vm_compute in Ec. discriminate. }
  apply Forall_forall. intros m Hm.
  assert (Hid : In (rule_id m) (map rule_id issues)).
  { unfold RuleEngine._merge_issues_by_rule, RuleEngine.group_issues in Hm.
    apply (in_map rule_id) in Hm.
    rewrite merged_rule_ids in Hm by (apply keyed_fold; constructor).
    rewrite dict_keys_group_fold in Hm. cbn [dict_keys map app] in Hm.
    now apply first_occurrences_in in Hm as [Hm _]. }
  apply in_map_iff in Hid as (i & Ei & Hi).
  rewrite Forall_forall in Hissues. specialize (Hissues i Hi).
  rewrite <- Ei. exact Hissues.
Qed.

(* ================================================================== *)
(** * Further edge cases of the evaluators *)

(** X21. The required headings of an [other] rule are looked up among
    the lower-cased heading texts without being lower-cased
    themselves: a required name which is not the lower-case form of
    any string, and is not [body], makes the condition fail on every
    document. *)
Theorem cased_requirement_never_met `{UnicodeDB}
        (target : Target) (condition : Condition)
        (required : list str) (req : str) :
  c_required condition = Some required ->
  In req required ->
  req <> u"body" ->
  (forall s, lower s <> req) ->
  RuleEngine._match_other_condition target condition = false.
Proof.
  intros Hreq Hin Hbody Hlower.
  unfold RuleEngine._match_other_condition. rewrite Hreq.
  match goal with |- forallb ?f ?l = false =>
    destruct (forallb f l) eqn:E; [|reflexivity] end.
  rewrite forallb_forall in E. specialize (E req Hin).
  apply orb_true_iff in E as [E | E].
  - apply existsb_exists in E as (x & Hx & E).
    apply pystr_eqb_eq in E. subst x.
    apply in_map_iff in Hx as (h & Hh & _).
    exfalso. exact (Hlower _ Hh).
  - apply pystr_eqb_eq in E. contradiction.
Qed.

Lemma cased_requirement_never_met_witness :
  c_required (required_condition [u"Abstract"]) = Some [u"Abstract"]
  /\ In (u"Abstract") [u"Abstract"]
  /\ u"Abstract" <> u"body"
  /\ (forall s, @lower ascii_db s <> u"Abstract")
  /\ @RuleEngine._match_other_condition ascii_db
       (TDoc (doc_of_headings [heading_node (u"Abstract") 1 0]))
       (required_condition [u"Abstract"])
     = false.
Proof.
  assert (Hlower : forall s, @lower ascii_db s <> u"Abstract").
  { intros [|c s]; [discriminate|]. cbn [lower ascii_db map].
    intro E. apply (f_equal (hd 0%N)) in E. cbn [hd] in E.
    change (hd 0%N (u"Abstract")) with 65%N in E.
    unfold ascii_lower_char in E.
    destruct ((65 <=? c) && (c <=? 90))%N eqn:Ec.
    - apply andb_true_iff in Ec as [Ha Hb].
      apply N.leb_le in Ha. lia.
    - subst c. vm_compute in Ec. discriminate. }
  assert (Hbody : u"Abstract" <> u"body") by (vm_compute; discriminate).
  assert (Hin : In (u"Abstract") [u"Abstract"]) by now left.
  split; [reflexivity|]. split; [exact Hin|]. split; [exact Hbody|].
  split; [exact Hlower|].
  apply (@cased_requirement_never_met ascii_db
           (TDoc (doc_of_headings [heading_node (u"Abstract") 1 0]))
           (required_condition [u"Abstract"]) [u"Abstract"] (u"Abstract")
           eq_refl Hin Hbody Hlower).
Defined.

(** X22. A paragraph whose line spacing could not be resolved, neither
    in points nor as a multiple, passes every line spacing
    requirement. *)
Theorem unresolved_line_spacing_passes
        (target : Target) (condition : Condition) :
  c_first_line_indent_chars condition = None ->
  fmt_line_spacing_pt
    (get (n_formatting (RuleEngine.node_of target)) empty_formatting)
  = None ->
  fmt_line_spacing
    (get (n_formatting (RuleEngine.node_of target)) empty_formatting)
  = None ->
  RuleEngine._match_paragraph_condition target condition = true.
Proof.
  intros Hindent Hpt Hls. unfold RuleEngine._match_paragraph_condition.
  rewrite Hindent, Hpt, Hls.
  destruct (c_paragraph_line_spacing condition); reflexivity.
Qed.

Lemma unresolved_line_spacing_passes_witness :
  c_first_line_indent_chars line_spacing_condition = None
  /\ RuleEngine._match_paragraph_condition
       (TNode body_paragraph) line_spacing_condition
     = true.
Proof.
  split; [reflexivity|].
  apply (@unresolved_line_spacing_passes (TNode body_paragraph)
           line_spacing_condition eq_refl eq_refl eq_refl).
Defined.

(* ================================================================== *)
(** * Normalised titles *)

Section NormalizeFacts.
Import StructureChecker.
Context `{UnicodeDB}.

Lemma dropwhile_length f s :
  List.length (PyStr.dropwhile f s) <= List.length s.
Proof.
  induction s as [|c s IH]; simpl; [lia|].
  destruct (f c); simpl; lia.
Qed.

Lemma strip_length s : List.length (strip s) <= List.length s.
Proof.
  unfold strip, PyStr.strip_with. rewrite length_rev.
  etransitivity; [apply dropwhile_length|]. rewrite length_rev.
  apply dropwhile_length.
Qed.

Lemma strip_enumerator_length is_num s :
  List.length (strip_enumerator is_num s) <= List.length s.
Proof.
  unfold strip_enumerator. destruct s as [|c s]; [lia|].
  destruct (is_num c); [|lia].
  pose proof (dropwhile_length is_num s) as Hd.
  destruct (PyStr.dropwhile is_num s) as [|d rest]; [lia|].
  destruct (PyStr.mem d _); simpl in *; lia.
Qed.

Lemma strip_paren_enumerator_length is_num s :
  List.length (strip_paren_enumerator is_num s) <= List.length s.
Proof.
  unfold strip_paren_enumerator. destruct s as [|o s1]; [lia|].
  destruct (PyStr.mem o _); [|lia].
  pose proof (dropwhile_length isspace s1) as H1.
  destruct (PyStr.dropwhile isspace s1) as [|c s2]; [lia|].
  destruct (is_num c); [|lia].
  pose proof (dropwhile_length is_num s2) as H2.
  destruct (PyStr.dropwhile is_num s2) as [|d rest]; [lia|].
  destruct (PyStr.mem d _); simpl in *; lia.
Qed.

Lemma remove_all_length f s :
  List.length (PyStr.remove_all f s) <= List.length s.
Proof. unfold PyStr.remove_all. apply filter_length_le. Qed.

Lemma remove_all_spec f s c :
  In c (PyStr.remove_all f s) <-> In c s /\ f c = false.
Proof.
  unfold PyStr.remove_all. rewrite filter_In, negb_true_iff. reflexivity.
Qed.
End NormalizeFacts.

(** X23. A normalised title holds no white space, no ideographic
    space and none of the listed punctuation marks, and it is never
    longer than the title. *)
Theorem normalized_title_clean `{UnicodeDB} (title : str) :
  Forall (fun c => normalized_away c = false)
         (StructureChecker._normalize_title title)
  /\ List.length (StructureChecker._normalize_title title)
     <= List.length title.
Proof.
  unfold StructureChecker._normalize_title. split.
  - apply Forall_forall. intros c Hc.
    apply remove_all_spec in Hc as [Hc Hp].
    apply remove_all_spec in Hc as [_ Hs].
    unfold normalized_away. now rewrite Hs, Hp.
  - repeat (etransitivity; [apply remove_all_length|]).
    repeat (etransitivity; [apply strip_paren_enumerator_length|]).
    repeat (etransitivity; [apply strip_enumerator_length|]).
    apply strip_length.
Qed.

(* ================================================================== *)
(** * Consecutive paragraphs *)

Section ParagraphFacts.
Import RuleEngine.

Lemma dedupe_incl key l : forall seen x,
  In x (dedupe key seen l) -> In x l.
Proof.
  induction l as [|y l IH]; intros seen x Hx; [exact Hx|].
  simpl in Hx. destruct (existsb _ seen).
  - right. now apply (IH seen).
  - destruct Hx as [-> | Hx]; [now left|]. right.
    now apply (IH (key y :: seen)).
Qed.

Lemma scan_paragraphs_apart rest : forall x,
  lines_apart (x :: rest) ->
  scan_paragraphs (get_index x) (get_end_line x) [x] rest
  = map paragraph_string (x :: rest).
Proof.
  induction rest as [|y rest IH]; intros x Hap; [reflexivity|].
  cbn [scan_paragraphs].
  assert (E : (get_start_line y =? get_end_line x + 1)%Z = false).
  { apply Z.eqb_neq. apply Hap; [right; now left|now left]. }
  rewrite E, andb_false_r. rewrite IH.
  - reflexivity.
  - intros a b Ha Hb. apply Hap; now right.
Qed.
End ParagraphFacts.

(** X24. Unlike runs and figures, paragraph locations are merged only
    when their line ranges follow one another: when no location starts
    on the line after the end of another, every distinct paragraph is
    listed by itself, consecutive indices or not. *)
Theorem apart_paragraphs_listed_singly (para_locs : list Location) :
  lines_apart para_locs ->
  RuleEngine._merge_consecutive_paragraphs para_locs
  = map paragraph_string
        (RuleEngine.dedupe RuleEngine.get_index [] para_locs).
Proof.
  intro Hap. unfold RuleEngine._merge_consecutive_paragraphs.
  assert (Hap' : lines_apart
                   (RuleEngine.dedupe RuleEngine.get_index [] para_locs)).
  { intros y z Hy Hz. apply Hap; eapply dedupe_incl; eassumption. }
  destruct (RuleEngine.dedupe RuleEngine.get_index [] para_locs)
    as [|x rest]; [reflexivity|].
  cbn [RuleEngine.merge_loop_paragraphs].
  now apply scan_paragraphs_apart.
Qed.

Lemma apart_paragraphs_listed_singly_witness :
  lines_apart [paragraph_location_at 0 1 1; paragraph_location_at 1 1 1;
               paragraph_location_at 2 1 1]
  /\ RuleEngine._merge_consecutive_paragraphs
       [paragraph_location_at 0 1 1; paragraph_location_at 1 1 1;
        paragraph_location_at 2 1 1]
     = [u"第1段(第1行)"; u"第2段(第1行)"; u"第3段(第1行)"].
Proof.
  assert (Hap : lines_apart
                  [paragraph_location_at 0 1 1; paragraph_location_at 1 1 1;
                   paragraph_location_at 2 1 1]).
  { intros y z Hy Hz. cbn [In] in Hy, Hz.
    destruct Hy as [<-|[<-|[<-|[]]]]; destruct Hz as [<-|[<-|[<-|[]]]];
      vm_compute; discriminate. }
  split; [exact Hap|].
  apply (@apart_paragraphs_listed_singly _ Hap).
Defined.
